(** * Pynams diffusion core: a shallow embedding of [pynams/diffusion.py]

    The development follows the Python module function by function:
    [diffusionThinSlab], [params_setup1D], [diffusion1D_params],
    [params_setup3D], [diffusion3Dnpi_params], [diffusion3Dnpi],
    [diffusion3Dwb_params], [diffusion3Dwb], [solve_Ea_D0], [whatIsD],
    [Arrhenius_add_line], [get_iorient] and the methods
    [picker_DCelsius] and [solve_Ea_D0] of the class [Diffusivities]
    (the Arrhenius part has a second copy with the same text in
    [pynams/diffusion/arrhenius.py]).  The plotting routines and the
    rest of the class are outside it.

    Modelling conventions.
    - Python floats and numpy float arrays are real numbers ([R]) and
      lists of real numbers: arithmetic is exact, rounding, infinities
      and NaN are not modelled.  [np.exp], [np.cos] and [np.pi] are
      [exp], [cos] and [PI]; [10.**x] is [Rpower 10 x]; [x**2.] and
      [x**2] are [x ^ 2]; [(D*t)**0.5] is [sqrt (D*t)] (its argument is
      never negative where it is evaluated); [scipy.special.erf] is the
      error function [erf], defined below from the Gaussian integral.
      Division is the total division of [R].  Where Python divides one
      float by another it raises on a zero divisor, and so does the model
      ([pydiv]).  Where numpy divides an array by zero it yields
      infinities or NaN, which the model does not have: this happens in
      the erf profile at time zero, and every theorem that gives the
      values of an erf profile takes a positive time; the theorems that
      hold from time zero on are about the branch taken, the lines
      printed and the shape of the result, and name a profile only as
      what [unit_profile] returns.  Likewise [np.exp] underflows
      to [0.0] on a very negative argument where [exp] stays positive:
      the theorems on [diffusionThinSlab] bound and order its values by
      weak inequalities, which the floats satisfy too.
    - A Python function may print, return or raise: computations live in
      the monad [py], which collects the printed lines and the calls to
      the plotting layer and ends in [Returned v] or [Raised e].
    - [lmfit.Parameters] is an ordered association list from names to
      [Param] records; a parameter value is a float or a sequence of
      floats, and reading a sequence where the code computes with a float
      is a [TypeError].
    - Counts ([points], [infinity], [timesteps]) are natural numbers. *)

From Stdlib Require Import Reals Lra Lia List String Ascii Bool Arith DecimalString.
From Stdlib Require Import ZArith.
Import ListNotations.

Local Open Scope string_scope.
Local Open Scope R_scope.

(** ** Printed output, exceptions and the [py] monad *)

(** One item of a [print] statement: a string literal, an integer such as
    [len(x)], or an array shape such as [np.shape(x)]. *)
Inductive pitem : Type :=
| PStr (s : string)
| PNat (n : nat)
| PShape (sh : list nat).

(** Observable effects: a [print] statement with its comma-separated
    items, or a call into the plotting layer. *)
Inductive event : Type :=
| Print (items : list pitem)
| Plot (routine : string).

Inductive exn : Type :=
| KeyError (key : string)
| NameError (expression : string)
| IndexError
| TypeError
| ValueError
| ZeroDivisionError.

Inductive outcome (A : Type) : Type :=
| Returned (a : A)
| Raised (e : exn).

Arguments Returned {A} a.
Arguments Raised {A} e.

Definition py (A : Type) : Type := (list event * outcome A)%type.

Definition ret {A : Type} (a : A) : py A := ([], Returned a).

Definition raise {A : Type} (e : exn) : py A := ([], Raised e).

Definition bind {A B : Type} (m : py A) (k : A -> py B) : py B :=
  match m with
  | (out, Returned a) => let (out', r) := k a in ((out ++ out')%list, r)
  | (out, Raised e) => (out, Raised e)
  end.

Definition print (items : list pitem) : py unit := ([Print items], Returned tt).

Definition plot (routine : string) : py unit := ([Plot routine], Returned tt).

Notation "x <- m ;; k" := (bind m (fun x => k))
  (at level 61, m at next level, right associativity).
Notation "m ;;; k" := (bind m (fun _ => k))
  (at level 61, right associativity).

(** What was printed, and what came back. *)
Definition output {A : Type} (m : py A) : list event := fst m.
Definition result {A : Type} (m : py A) : outcome A := snd m.

(** [str(n)] for a non-negative integer. *)
Definition str_nat (n : nat) : string := NilEmpty.string_of_uint (Nat.to_uint n).

(** The double-quote character, for messages that quote a letter. *)
Definition dquote : string := String "034"%char EmptyString.

(** ** Numeric helpers standing for numpy and scipy *)

(** [np.linspace(start, stop, num)]: [num] evenly spaced samples, the
    first at [start] and the last at [stop]. *)
Definition linspace (start stop : R) (num : nat) : list R :=
  map (fun i => INR i * ((stop - start) / INR (num - 1)) + start) (seq 0 num).

(** Elementwise binary operation on two arrays of the same length. *)
Definition zip_with (f : R -> R -> R) (u v : list R) : list R :=
  map (fun p => f (fst p) (snd p)) (combine u v).

(** The Gaussian [exp(-u²)] and the error function
    [erf x = 2/√π ∫₀ˣ exp(-u²) du]. *)
Definition gauss (u : R) : R := exp (- (u * u)).

Definition gauss_integrable (a b : R) : Riemann_integrable gauss a b.
Proof.
  assert (Hc : continuity gauss).
  { unfold gauss.
    change (continuity (comp exp (- (id * id))%F)).
    apply continuity_comp.
    - apply continuity_opp, continuity_mult;
        apply derivable_continuous, derivable_id.
    - apply derivable_continuous, derivable_exp. }
  destruct (Rle_dec a b) as [Hab | Hab].
  - apply continuity_implies_RiemannInt; [assumption | intros; apply Hc].
  - apply RiemannInt_P1, continuity_implies_RiemannInt;
      [lra | intros; apply Hc].
Qed.

Definition erf (x : R) : R := 2 / sqrt PI * RiemannInt (gauss_integrable 0 x).

(** ** lmfit parameters *)

(** A parameter value: a float, or a sequence of floats (the three
    lengths of a block are stored as one parameter). *)
Inductive pyval : Type :=
| VNum (r : R)
| VList (l : list R).

(** The [vary] argument as the callers pass it: a boolean, [None], or a
    one-element list wrapping another flag. *)
Inductive pyflag : Type :=
| FBool (b : bool)
| FNone
| FList1 (f : pyflag).

Record Param : Type := mkParam {
  value : pyval;
  vary : pyflag;
  pmin : option R;
  pmax : option R;
  expr : option string
}.

Definition Parameters : Type := list (string * Param).

(** [params.add(name, value, vary, min, max, expr)]: a new name goes to
    the end, an existing name keeps its place and gets the new record. *)
Fixpoint params_add (params : Parameters) (name : string) (prm : Param)
  : Parameters :=
  match params with
  | [] => [(name, prm)]
  | (k, old) :: rest =>
      if String.eqb k name then (k, prm) :: rest
      else (k, old) :: params_add rest name prm
  end.

Definition add (params : Parameters) (name : string) (v : pyval) (vy : pyflag)
    (mn mx : option R) (e : option string) : Parameters :=
  params_add params name (mkParam v vy mn mx e).

(** [params[name]] *)
Fixpoint params_get (params : Parameters) (name : string) : py Param :=
  match params with
  | [] => raise (KeyError name)
  | (k, prm) :: rest =>
      if String.eqb k name then ret prm else params_get rest name
  end.

(** lmfit's constraint expressions, restricted to the two shapes this
    repository writes: a bare parameter name (['log10Dx']) and a name
    minus one (['log10Dx - 1.']).  The expression is evaluated over the
    stored values of the whole parameter set. *)
Fixpoint eval_expr (params : Parameters) (e : string) : py pyval :=
  match params with
  | [] => raise (NameError e)
  | (k, prm) :: rest =>
      if String.eqb e k then ret (value prm)
      else if String.eqb e (k ++ " - 1.") then
        match value prm with
        | VNum r => ret (VNum (r - 1))
        | VList _ => raise TypeError
        end
      else eval_expr rest e
  end.

(** The effective value of a parameter: its own value, or the value of
    its expression when it is linked. *)
Definition param_value (params : Parameters) (prm : Param) : py pyval :=
  match expr prm with
  | None => ret (value prm)
  | Some e => eval_expr params e
  end.

Fixpoint valuesdict_of (all params : Parameters) : py (list (string * pyval)) :=
  match params with
  | [] => ret []
  | (k, prm) :: rest =>
      v <- param_value all prm ;;
      d <- valuesdict_of all rest ;;
      ret ((k, v) :: d)
  end.

(** [params.valuesdict()] *)
Definition valuesdict (params : Parameters) : py (list (string * pyval)) :=
  valuesdict_of params params.

(** [p[name]] on a values dictionary. *)
Fixpoint getitem (p : list (string * pyval)) (name : string) : py pyval :=
  match p with
  | [] => raise (KeyError name)
  | (k, v) :: rest => if String.eqb k name then ret v else getitem rest name
  end.

(** A value read where the code computes with a float. *)
Definition as_num (v : pyval) : py R :=
  match v with
  | VNum r => ret r
  | VList _ => raise TypeError
  end.

(** A value read where the code indexes a sequence. *)
Definition as_list (v : pyval) : py (list R) :=
  match v with
  | VNum _ => raise IndexError
  | VList l => ret l
  end.

(** [seq[k]] *)
Definition index {A : Type} (l : list A) (k : nat) : py A :=
  match nth_error l k with
  | Some a => ret a
  | None => raise IndexError
  end.

(** ** 1D diffusion in a thin slab; Eq 4.18 in Crank, 1975 *)

(** The inner loop: the series summed up to [infinity] terms at one time.
    The exponent is a quotient of numpy scalars, which does not raise;
    with a zero thickness it is infinite or undefined there, and the
    statements about this function assume a non-zero thickness.  For
    late times [np.exp] underflows to [0.0], so that the sum can reach
    zero and stay there, where the real [exp] is positive. *)
Definition thin_slab_sum (D_m2s L_meters : R) (infinity : nat) (t_seconds : R) : R :=
  fold_left
    (fun infsum n =>
       let exponent_top := D_m2s * ((2 * INR n + 1) ^ 2) * (PI ^ 2) * t_seconds in
       let exponent_bot := 4 * (L_meters ^ 2) in
       let exponent := exp (-1 * exponent_top / exponent_bot) in
       let addme := 8 * (1 / (((2 * INR n + 1) ^ 2) * (PI ^ 2))) * exponent in
       infsum + addme)
    (seq 0 infinity) 0.

Definition diffusionThinSlab (log10D_m2s thickness_microns max_time_hours : R)
    (infinity timesteps : nat) : list R * list R :=
  let t_hours := linspace 0 max_time_hours timesteps in
  let t_seconds := map (fun t => t * 3600) t_hours in
  let L_meters := thickness_microns / 2000000 in
  let D_m2s := Rpower 10 log10D_m2s in
  let cc := map (thin_slab_sum D_m2s L_meters infinity) t_seconds in
  (t_hours, cc).

(** ** 1D diffusion profiles *)

Definition params_setup1D (microns log10D_m2s time_seconds init fin : R)
    (vD vinit vfin : pyflag) : Parameters :=
  let params := [] in
  let params := add params "microns" (VNum microns) (FBool false) None None None in
  let params := add params "log10D_m2s" (VNum log10D_m2s) vD None None None in
  let params := add params "time_seconds" (VNum time_seconds) (FBool false) None None None in
  let params := add params "initial_unit_value" (VNum init) vinit None None None in
  let params := add params "final_unit_value" (VNum fin) vfin None None None in
  params.

(** What [diffusion1D_params] can hand back: nothing (after a message),
    [False], the pair [(x_microns, model)], or the residual vector. *)
Inductive ret1D : Type :=
| R1_None
| R1_False
| R1_Profile (x_microns model : list R)
| R1_Residual (residual : list R).

(** [x / y] on two Python floats. *)
Definition pydiv (x y : R) : py R :=
  if Req_dec_T y 0 then raise ZeroDivisionError else ret (x / y).

(** The loop of the infinite-sum approximation: each pass adds the
    [n]-th term to the whole position array.  The time component divides
    two floats; the position component divides an array, which numpy
    does without raising. *)
Fixpoint infsum_loop (D t twoA : R) (x : list R) (ns : list nat) (xsum : list R)
  : py (list R) :=
  match ns with
  | [] => ret xsum
  | n :: ns' =>
      (* positive number that converges to 1 *)
      let xadd1 := ((-1) ^ n) / (2 * INR n + 1) in
      (* time component *)
      q <- pydiv (- D * ((2 * INR n + 1) ^ 2) * (PI ^ 2) * t) (twoA ^ 2) ;;
      let xadd2 := exp q in
      (* There the position values come in to create the profile *)
      let xadd3 := map (fun xi => cos ((2 * INR n + 1) * PI * xi / twoA)) x in
      let xadd := map (fun c => xadd1 * xadd2 * c) xadd3 in
      infsum_loop D t twoA x ns' (zip_with Rplus xsum xadd)
  end.

Definition infsum_profile (D t twoA : R) (infinity : nat) (x : list R)
  : py (list R) :=
  xsum <- infsum_loop D t twoA x (seq 0 infinity) (map (fun _ => 0) x) ;;
  ret (map (fun s => s * 4 / PI) xsum).

(** The error-function solution.  At time zero [sqrtDt] is zero and
    numpy's array division gives infinities, or NaN at the two ends of
    the slab, instead of the [0] of the division of [R]: the profile
    below is the code's profile for a positive time only. *)
Definition erf_profile (D t a_meters : R) (x : list R) : list R :=
  let sqrtDt := sqrt (D * t) in
  map (fun xi =>
         erf ((a_meters + xi) / (2 * sqrtDt))
         + erf ((a_meters - xi) / (2 * sqrtDt)) - 1) x.

(** The choice of method: the unit profile on the positions [x], or
    the message and nothing when [erf_or_sum] is neither keyword. *)
Definition unit_profile (erf_or_sum : string) (D t a_meters twoA : R)
    (infinity : nat) (x : list R) : py (option (list R)) :=
  if String.eqb erf_or_sum "infsum" then
    model <- infsum_profile D t twoA infinity x ;; ret (Some model)
  else if String.eqb erf_or_sum "erf" then
    ret (Some (erf_profile D t a_meters x))
  else
    print [PStr ("erf_or_sum must be set to either " ++ dquote ++ "erf"
                 ++ dquote ++ " for python built-in "
                 ++ "error function approximation (defaul) or "
                 ++ dquote ++ "sum" ++ dquote ++ " for infinite "
                 ++ "sum approximation with infinity=whatever, defaulting to "
                 ++ str_nat infinity)] ;;;
    ret None.

(** Inversion for diffusion in, then rescaling to the concentration range. *)
Definition to_concentration (going_out : bool) (solubility minimum_value : R)
    (model : list R) : list R :=
  let model := if going_out then model else map (fun m => 1 - m) model in
  let concentration_range := solubility - minimum_value in
  map (fun m => m * concentration_range + minimum_value) model.

(** The positions taken from the data: meters, centered on request. *)
Definition data_positions (data_x_microns : list R) (need_to_center_x_data : bool)
    (a_meters : R) : list R :=
  let x := map (fun u => u / 1000000) data_x_microns in
  if need_to_center_x_data then map (fun u => u - a_meters) x else x.

(** The body of [diffusion1D_params] once the five values are read. *)
Definition diffusion1D_body (microns t log10D initial_value final_value : R)
    (data_x_microns data_y_unit_areas : option (list R))
    (erf_or_sum : string) (need_to_center_x_data : bool)
    (infinity points : nat) : py ret1D :=
  let L_meters := microns / 1000000 in
  let D := Rpower 10 log10D in
  let going_out := if Rgt_dec initial_value final_value then true else false in
  let solubility := if going_out then initial_value else final_value in
  let minimum_value := if going_out then final_value else initial_value in
  let a_meters := L_meters / 2 in
  let twoA := L_meters in
  if Rlt_dec t 0 then
    print [PStr "no negative time"] ;;; ret R1_None
  else
    (* Fitting to data or not? Default is not *)
    fitting <-
      match data_x_microns, data_y_unit_areas with
      | Some dx, Some dy =>
          if Nat.eqb (List.length dx) (List.length dy) then ret true
          else
            print [PStr "x and y data must be the same length"] ;;;
            print [PStr "x"; PNat (List.length dx)] ;;;
            print [PStr "y"; PNat (List.length dy)] ;;;
            ret false
      | _, _ => ret false
      end ;;
    (* x is in meters and assumed centered around 0 *)
    let x :=
      if fitting then
        data_positions (match data_x_microns with Some dx => dx | None => [] end)
                       need_to_center_x_data a_meters
      else linspace (- a_meters) a_meters points in
    model <- unit_profile erf_or_sum D t a_meters twoA infinity x ;;
    match model with
    | None => ret R1_False
    | Some model =>
        let model := to_concentration going_out solubility minimum_value model in
        let x_microns := map (fun xi => xi * 1000000) x in
        (* If not including data, just return the model values
           With data, return the residual for use in fitting. *)
        if fitting then
          ret (R1_Residual
                 (zip_with Rminus model
                    (match data_y_unit_areas with Some dy => dy | None => [] end)))
        else ret (R1_Profile x_microns model)
    end.

Definition getnum (p : list (string * pyval)) (name : string) : py R :=
  v <- getitem p name ;; as_num v.

Definition diffusion1D_params (params : Parameters)
    (data_x_microns data_y_unit_areas : option (list R))
    (erf_or_sum : string) (need_to_center_x_data : bool)
    (infinity points : nat) : py ret1D :=
  p <- valuesdict params ;;
  microns <- getnum p "microns" ;;
  t <- getnum p "time_seconds" ;;
  log10D <- getnum p "log10D_m2s" ;;
  initial_value <- getnum p "initial_unit_value" ;;
  final_value <- getnum p "final_unit_value" ;;
  diffusion1D_body microns t log10D initial_value final_value
    data_x_microns data_y_unit_areas erf_or_sum need_to_center_x_data
    infinity points.

(** ** 3-dimensional diffusion parameter setup *)

Definition params_setup3D (microns3 log10D3 : list R)
    (time_seconds initial final : R) (isotropic slowb : bool)
    (vD : list pyflag) (vinit vfin : pyflag) : py Parameters :=
  let params := [] in
  let params := add params "microns3" (VList microns3) (FBool false) None None None in
  Dx <- index log10D3 0 ;;
  vDx <- index vD 0 ;;
  let params := add params "log10Dx" (VNum Dx) vDx None None None in
  let params := add params "time_seconds" (VNum time_seconds) (FBool false) None None None in
  let params := add params "initial_unit_value" (VNum initial) vinit None None None in
  let params := add params "final_unit_value" (VNum final) vfin None None None in
  if isotropic then
    Dy <- index log10D3 1 ;;
    vDy <- index vD 1 ;;
    let params := add params "log10Dy" (VNum Dy) vDy None None (Some "log10Dx") in
    Dz <- index log10D3 2 ;;
    vDz <- index vD 2 ;;
    let params := add params "log10Dz" (VNum Dz) vDz None None (Some "log10Dx") in
    ret params
  else if slowb then
    Dy <- index log10D3 1 ;;
    vDy <- index vD 1 ;;
    let params := add params "log10Dy" (VNum Dy) vDy None None (Some "log10Dx - 1.") in
    Dz <- index log10D3 2 ;;
    vDz <- index vD 2 ;;
    let params := add params "log10Dz" (VNum Dz) vDz None None (Some "log10Dx") in
    ret params
  else
    Dy <- index log10D3 1 ;;
    vDy <- index vD 1 ;;
    let params := add params "log10Dy" (VNum Dy) vDy None None None in
    Dz <- index log10D3 2 ;;
    vDz <- index vD 2 ;;
    let params := add params "log10Dz" (VNum Dz) vDz None None None in
    ret params.

(** ** 3D arrays *)

Definition array2 : Type := list (list R).
Definition array3 : Type := list (list (list R)).

Definition map3 (f : R -> R) (v : array3) : array3 := map (map (map f)) v.

(** [v[d][e][f]] for indices inside the array. *)
Definition at3 (v : array3) (d e f : nat) : R := nth f (nth e (nth d v []) []) 0.

(** The triple loop [v[d][e][f] = y0[d]*y1[e]*y2[f]] over [points³]. *)
Definition outer_product (points : nat) (y0 y1 y2 : list R) : array3 :=
  map (fun d => map (fun e => map (fun f =>
      nth d y0 0 * nth e y1 0 * nth f y2 0)
    (seq 0 points)) (seq 0 points)) (seq 0 points).

(** [np.shape(np.array(data))] for a list of rows: two-dimensional
    when all rows have one length, otherwise a one-dimensional array of
    row objects. *)
Definition np_shape (data : list (list R)) : list nat :=
  match data with
  | [] => [0%nat]
  | r :: rs =>
      if forallb (fun r' => Nat.eqb (List.length r') (List.length r)) rs
      then [List.length data; List.length r]
      else [List.length data]
  end.

(** [m[i]] and [m[:, j]] on an array whose indexed axis has [size]
    entries; numpy checks the index against the axis size. *)
Definition row {A : Type} (size : nat) (m : list A) (i : nat) (dflt : A) : py A :=
  if Nat.ltb i size then ret (nth i m dflt) else raise IndexError.

Definition column {A : Type} (size : nat) (m : list (list A)) (j : nat) (dflt : A)
  : py (list A) :=
  if Nat.ltb j size then ret (map (fun r => nth j r dflt) m) else raise IndexError.

Definition sum_list (l : list R) : R := fold_right Rplus 0 l.

(** [v.mean(axis=0)], [v.mean(axis=1)] and [v.mean(axis=2)] of a cube
    with [points] entries along each axis. *)
Definition mean_axis0 (points : nat) (v : array3) : array2 :=
  map (fun e => map (fun f =>
     sum_list (map (fun d => at3 v d e f) (seq 0 points)) / INR points)
     (seq 0 points)) (seq 0 points).

Definition mean_axis1 (points : nat) (v : array3) : array2 :=
  map (fun d => map (fun f =>
     sum_list (map (fun e => at3 v d e f) (seq 0 points)) / INR points)
     (seq 0 points)) (seq 0 points).

Definition mean_axis2 (points : nat) (v : array3) : array2 :=
  map (fun d => map (fun e =>
     sum_list (map (fun f => at3 v d e f) (seq 0 points)) / INR points)
     (seq 0 points)) (seq 0 points).

(** [a.argmin()]: the first index of the smallest entry. *)
Fixpoint argmin_from (best_i : nat) (best : R) (i : nat) (l : list R) : nat :=
  match l with
  | [] => best_i
  | x :: l' =>
      if Rlt_dec x best then argmin_from i x (S i) l'
      else argmin_from best_i best (S i) l'
  end.

Definition argmin (l : list R) : py nat :=
  match l with
  | [] => raise ValueError
  | x :: l' => ret (argmin_from 0 x 1 l')
  end.

(** A [for] loop whose body appends to one result list. *)
Fixpoint for_each {A B : Type} (l : list A) (body : A -> py (list B))
  : py (list B) :=
  match l with
  | [] => ret []
  | a :: l' =>
      r <- body a ;;
      rs <- for_each l' body ;;
      ret (r ++ rs)%list
  end.

(** ** 3-dimensional diffusion without path integration *)

Inductive ret3Dnpi : Type :=
| NPI_Model (v : array3) (sliceprofiles slice_positions_microns : list (list R))
| NPI_Residuals (residuals : list (list R)).

(** [x, y = diffusion1D_params(...)] *)
Definition unpack_pair (r : ret1D) : py (list R * list R) :=
  match r with
  | R1_Profile x y => ret (x, y)
  | R1_None => raise TypeError
  | R1_False => raise TypeError
  | R1_Residual _ => raise ValueError
  end.

(** [L3_microns[k]] on [np.array(p['microns3'])] *)
Definition index_val (v : pyval) (k : nat) : py R :=
  l <- as_list v ;; index l k.

(** "Fitting to data or not?": the test on the shapes of the two data
    arrays that opens both 3D functions, with its messages. *)
Definition fitting_by_shape (data_x_microns data_y_unit_areas : option (list (list R)))
  : py bool :=
  match data_x_microns, data_y_unit_areas with
  | Some x_data, Some y_data =>
      if list_eq_dec Nat.eq_dec (np_shape x_data) (np_shape y_data) then
        print [PStr "fitting to data"] ;;; ret true
      else
        print [PStr "x and y data must be the same shape"] ;;;
        print [PStr "x"; PShape (np_shape x_data)] ;;;
        print [PStr "y"; PShape (np_shape y_data)] ;;;
        ret false
  | _, _ => ret false
  end.

(** The body of the loop that creates the three 1D profiles: the
    parameters of direction [k], then [diffusion1D_params] with only
    [points] passed on. *)
Definition profile1D_along (params : Parameters) (L3_microns t : pyval)
    (log10D3 : list pyval) (vary_D : list pyflag) (init fin : R)
    (vary_init vary_fin : pyflag) (points k : nat)
  : py (list (list R * list R)) :=
  let p1D := [] in
  Lk <- index_val L3_microns k ;;
  let p1D := add p1D "microns" (VNum Lk) (FBool false) None None None in
  prm_t <- params_get params "time_seconds" ;;
  let p1D := add p1D "time_seconds" t (vary prm_t) None None None in
  Dk <- index log10D3 k ;;
  vDk <- index vary_D k ;;
  let p1D := add p1D "log10D_m2s" Dk vDk None None None in
  let p1D := add p1D "initial_unit_value" (VNum init) vary_init None None None in
  let p1D := add p1D "final_unit_value" (VNum fin) vary_fin None None None in
  r <- diffusion1D_params p1D None None "erf" true 100 points ;;
  xy <- unpack_pair r ;;
  ret [xy].

(** The body of the loop that lays out the slice positions. *)
Definition slice_positions_along (L3_microns : pyval) (centered : bool)
    (points k : nat) : py (list (list R)) :=
  Lk <- index_val L3_microns k ;;
  let a := Lk / 2 in
  let x := if centered then linspace (- a) a points
           else linspace 0 (a * 2) points in
  ret [x].

Definition diffusion3Dnpi_params (params : Parameters)
    (data_x_microns data_y_unit_areas : option (list (list R)))
    (erf_or_sum : string) (centered : bool) (infinity points : nat)
  : py ret3Dnpi :=
  fitting <- fitting_by_shape data_x_microns data_y_unit_areas ;;
  p <- valuesdict params ;;
  L3_microns <- getitem p "microns3" ;;
  t <- getitem p "time_seconds" ;;
  init <- getnum p "initial_unit_value" ;;
  prm_init <- params_get params "initial_unit_value" ;;
  let vary_init := FList1 (vary prm_init) in
  fin <- getnum p "final_unit_value" ;;
  prm_fin <- params_get params "final_unit_value" ;;
  let vary_fin := FList1 (vary prm_fin) in
  Dx <- getitem p "log10Dx" ;;
  Dy <- getitem p "log10Dy" ;;
  Dz <- getitem p "log10Dz" ;;
  let log10D3 := [Dx; Dy; Dz] in
  prm_Dx <- params_get params "log10Dx" ;;
  prm_Dy <- params_get params "log10Dy" ;;
  prm_Dz <- params_get params "log10Dz" ;;
  let vary_D := [vary prm_Dx; vary prm_Dy; vary prm_Dz] in
  (* If initial values > 1, scale down to 1 to avoid blow-ups later *)
  let scale := if Rgt_dec init 1 then init else 1 in
  let init := if Rgt_dec init 1 then 1 else init in
  let going_out := if Rlt_dec init fin then false else true in
  let minimum_value := if Rgt_dec init fin then fin else init in
  let init' := if going_out then init else fin in
  let fin' := if going_out then fin else init in
  (* First create 3 1D profiles, 1 in each direction *)
  profiles <-
    for_each [0; 1; 2]%nat
      (profile1D_along params L3_microns t log10D3 vary_D init' fin'
         vary_init vary_fin points) ;;
  let yprofiles := map snd profiles in
  (* Then multiply them together to get a 3D matrix *)
  let v :=
    outer_product points (nth 0 yprofiles []) (nth 1 yprofiles [])
      (nth 2 yprofiles []) in
  let v := map3 (fun u => u * scale) v in
  let v :=
    if going_out then v
    else map3 (fun u => u + 1 * minimum_value) (map3 (fun u => 1 - u) v) in
  let mid := Nat.div points 2 in
  vmid <- column points v mid [] ;;
  aslice <- column points vmid mid 0 ;;
  vrow <- row points v mid [] ;;
  bslice <- column points vrow mid 0 ;;
  vrow' <- row points v mid [] ;;
  cslice <- row points vrow' mid [] ;;
  slice_positions_microns <-
    for_each [0; 1; 2]%nat (slice_positions_along L3_microns centered points) ;;
  let sliceprofiles := [aslice; bslice; cslice] in
  if fitting then
    (* Still need to set up residuals! *)
    ret (NPI_Residuals (map (map (fun _ => 0)) sliceprofiles))
  else ret (NPI_Model v sliceprofiles slice_positions_microns).

(** ** 3D whole-block: 3-dimensional diffusion with path integration *)

Inductive ret3Dwb : Type :=
| WB_None
| WB_Profiles (wb_positions wb_profiles : list (list R))
| WB_Residuals (residuals : list R).

(** [v, sliceprofiles, slicepositions = diffusion3Dnpi_params(...)] *)
Definition unpack_triple (r : ret3Dnpi)
  : py (array3 * list (list R) * list (list R)) :=
  match r with
  | NPI_Model v s x => ret (v, s, x)
  | NPI_Residuals _ => raise ValueError
  end.

Definition raypath_message (k : nat) (axis first second : string) : list pitem :=
  [PStr ("raypaths[" ++ str_nat k ++ "] for profile || " ++ axis ++ " must be "
         ++ dquote ++ first ++ dquote ++ " or " ++ dquote ++ second ++ dquote)].

(** The index of the dense-grid position closest to [microns]. *)
Definition nearest_index (positions : list R) (microns : R) : py nat :=
  argmin (map (fun w => Rabs (w - microns)) positions).

(** The body of the loop that lays out the whole-block positions. *)
Definition wb_positions_along (L3 : pyval) (points k : nat) : py (list (list R)) :=
  Lk <- index_val L3 k ;;
  let a := Lk / 2 in
  let x_microns := linspace 0 (2 * a) points in
  ret [x_microns].

(** The body of the inner residual loop, for observation [pos] of
    direction [k]. *)
Definition residual_at (x_array y_array wb_positions wb_profiles : list (list R))
    (k pos : nat) : py (list R) :=
  xk <- index x_array k ;;
  microns <- index xk pos ;;
  (* Find the index of the full model whole-block value
     closest to the data positions *)
  idx <- nearest_index (nth k wb_positions []) microns ;;
  wbk <- index wb_profiles k ;;
  model <- index wbk idx ;;
  yk <- index y_array k ;;
  data <- index yk pos ;;
  let res := model - data in
  ret [res].

(** The arguments [fig_ax] and [style] only reach the plotting layer,
    and [need_to_center_x_data] and [show_1Dplots] are not used; they are
    left out.  As in the source, only [points] and [erf_or_sum] are passed
    to [diffusion3Dnpi_params], which uses its defaults for the rest. *)
Definition diffusion3Dwb_params (params : Parameters)
    (data_x_microns data_y_unit_areas : option (list (list R)))
    (raypaths : option (list string)) (erf_or_sum : string)
    (show_plot : bool) (infinity points : nat) : py ret3Dwb :=
  match raypaths with
  | None =>
      print [PStr "raypaths must be in the form of a list of three abc directions"] ;;;
      ret WB_None
  | Some raypaths =>
      (* v is the model 3D array of internal concentrations *)
      r <- diffusion3Dnpi_params params None None erf_or_sum true 100 points ;;
      vsx <- unpack_triple r ;;
      let v := fst (fst vsx) in
      (* Fitting to data or not? Default is not *)
      fitting <- fitting_by_shape data_x_microns data_y_unit_areas ;;
      let raypathA := mean_axis0 points v in
      let raypathB := mean_axis1 points v in
      let raypathC := mean_axis2 points v in
      (* Specify whole-block profiles in model *)
      let mid := Nat.div points 2 in
      r0 <- index raypaths 0 ;;
      wbA <-
        (if String.eqb r0 "b" then a <- column points raypathB mid 0 ;; ret (Some a)
         else if String.eqb r0 "c" then a <- column points raypathC mid 0 ;; ret (Some a)
         else print (raypath_message 0 "a" "b" "c") ;;; ret None) ;;
      match wbA with
      | None => ret WB_None
      | Some wbA =>
      r1 <- index raypaths 1 ;;
      wbB <-
        (if String.eqb r1 "a" then b <- column points raypathA mid 0 ;; ret (Some b)
         else if String.eqb r1 "c" then b <- row points raypathC mid [] ;; ret (Some b)
         else print (raypath_message 1 "b" "a" "c") ;;; ret None) ;;
      match wbB with
      | None => ret WB_None
      | Some wbB =>
      r2 <- index raypaths 2 ;;
      wbC <-
        (if String.eqb r2 "a" then c <- row points raypathA mid [] ;; ret (Some c)
         else if String.eqb r2 "b" then c <- row points raypathB mid [] ;; ret (Some c)
         else print (raypath_message 2 "c" "a" "b") ;;; ret None) ;;
      match wbC with
      | None => ret WB_None
      | Some wbC =>
      p <- valuesdict params ;;
      L3 <- getitem p "microns3" ;;
      let wb_profiles := [wbA; wbB; wbC] in
      wb_positions <-
        for_each [0; 1; 2]%nat (wb_positions_along L3 points) ;;
      (if show_plot then plot "styles.plot_3panels" else ret tt) ;;;
      if fitting then
        (* Return residuals *)
        let x_array := match data_x_microns with Some x => x | None => [] end in
        let y_array := match data_y_unit_areas with Some y => y | None => [] end in
        residuals <-
          for_each [0; 1; 2]%nat
            (fun k =>
               xk <- index x_array k ;;
               for_each (seq 0 (List.length xk))
                 (residual_at x_array y_array wb_positions wb_profiles k)) ;;
        ret (WB_Residuals residuals)
      else ret (WB_Profiles wb_positions wb_profiles)
      end end end
  end.

(** What the convenience wrapper could hand back if all of its text were
    live: the parameter set, the figure with its data, or the data. *)
Inductive ret3Dwb_wrapper : Type :=
| W_Params (params : Parameters)
| W_Figure (x y : list (list R))
| W_Profiles (x y : list (list R)).

Definition diffusion3Dwb (lengths_microns log10Ds_m2s : list R) (time_seconds : R)
    (raypaths : option (list string)) (initial final top points : R)
    (show_plot : bool) (figax : option unit) (isotropic : bool)
  : py ret3Dwb_wrapper :=
  params <- params_setup3D lengths_microns log10Ds_m2s time_seconds initial final
              false false [FBool true; FBool true; FBool true]
              (FBool false) (FBool false) ;;
  ret (W_Params params).

(** ** Arrhenius regression *)

(** A number with uncertainty, and the three operations the regression
    applies to it, with the linear propagation of the [uncertainties]
    package. *)
Record ufloat : Type := mkufloat { nominal_value : R; std_dev : R }.

Definition uneg (u : ufloat) : ufloat := mkufloat (- nominal_value u) (std_dev u).

Definition uscale (u : ufloat) (c : R) : ufloat :=
  mkufloat (nominal_value u * c) (Rabs c * std_dev u).

Definition upow10 (u : ufloat) : ufloat :=
  mkufloat (Rpower 10 (nominal_value u))
           (Rabs (ln 10 * Rpower 10 (nominal_value u)) * std_dev u).

Definition GAS_CONSTANT : R := 831 / 100000.

(** [sys.float_info.epsilon] *)
Definition float_epsilon : R := / 2 ^ 52.

Section Arrhenius.

(** [np.polyfit(x, y, 1, w=weights, cov=True)]: numpy's weighted
    least-squares line, returning the slope and intercept and the two
    diagonal entries of the covariance matrix. *)
Variable polyfit : list R -> list R -> list R -> py ((R * R) * (R * R)).

Definition solve_Ea_D0 (log10D_list celsius_list : list R)
  : py (option ufloat * option ufloat) :=
  let T := map (fun c => c + 27315 / 100) celsius_list in
  let x := map (fun T => 10000 / T) T in
  let y := log10D_list in
  if (Nat.ltb (List.length x) 2 || Nat.ltb (List.length y) 2)%bool then
    print [PStr "Warning: fitting to only one point"] ;;;
    ret (None, None)
  else
    let x_extra := (x ++ skipn (List.length x - 1) x)%list in
    let y_extra := (y ++ skipn (List.length y - 1) y)%list in
    let weights := (map (fun _ => 1) x ++ [float_epsilon])%list in
    fc <- polyfit x_extra y_extra weights ;;
    let fit_extra := fst fc in
    let cov_extra := snd fc in
    let Ea_error := if Rgt_dec (fst cov_extra) 0 then fst cov_extra else 0 in
    let D0_error := if Rgt_dec (snd cov_extra) 0 then snd cov_extra else 0 in
    let Ea_extra :=
      uscale (uscale (uscale (uneg (mkufloat (fst fit_extra) Ea_error))
                             (2303 / 1000)) GAS_CONSTANT) 10000 in
    let D0_extra := upow10 (mkufloat (snd fit_extra) D0_error) in
    ret (Some Ea_extra, Some D0_extra).

End Arrhenius.

(** ** The convenience wrapper of the 3D model *)

(** [try: body except TypeError: handler] *)
Definition try_except_TypeError {A : Type} (body handler : py A) : py A :=
  match body with
  | (out, Raised TypeError) => bind (out, Returned tt) (fun _ => handler)
  | _ => body
  end.

Section Wrapper3Dnpi.

(** The figure and the three axes that [styles.plot_3panels] hands
    back, and the routine itself, which lives outside this module.  The
    argument [styles3] only reaches that routine and is left out. *)
Variables figure axes3 : Type.

Variable plot_3panels :
  list (list R) -> list (list R) -> option (figure * axes3) -> R -> bool -> list R ->
  py (figure * axes3).

(** What [diffusion3Dnpi] hands back: nothing (after a failed plot), the
    figure with the model, or the model. *)
Inductive ret3Dnpi_wrapper : Type :=
| NW_None
| NW_Figure (f : figure) (ax : axes3) (v : array3) (x y : list (list R))
| NW_Model (v : array3) (x y : list (list R)).

Definition diffusion3Dnpi (lengths_microns log10Ds_m2s : list R) (time_seconds : R)
    (points : nat) (initial final top : R) (plot3 centered : bool)
    (figaxis3 : option (figure * axes3)) : py ret3Dnpi_wrapper :=
  params <- params_setup3D lengths_microns log10Ds_m2s time_seconds initial final
              false false [FBool true; FBool true; FBool true]
              (FBool false) (FBool false) ;;
  r <- diffusion3Dnpi_params params None None "erf" false 100 points ;;
  vyx <- unpack_triple r ;;
  let v := fst (fst vyx) in
  let y := snd (fst vyx) in
  let x := snd vyx in
  x <-
    (if centered then
       for_each [0; 1; 2]%nat
         (fun idx =>
            xi <- index x idx ;;
            L <- index lengths_microns idx ;;
            ret [map (fun u => u - L / 2) xi])
     else ret x) ;;
  if plot3 then
    try_except_TypeError
      (match figaxis3 with
       | None =>
           fax <- plot_3panels x y figaxis3 top centered lengths_microns ;;
           ret (NW_Figure (fst fax) (snd fax) v x y)
       | Some _ =>
           plot_3panels x y figaxis3 top centered lengths_microns ;;;
           ret (NW_Model v x y)
       end)
      (print [] ;;;
       print [PStr "TypeError: problem in plot_3panels()"] ;;;
       ret NW_None)
  else ret (NW_Model v x y).

End Wrapper3Dnpi.

Arguments NW_None {figure axes3}.
Arguments NW_Figure {figure axes3} f ax v x y.
Arguments NW_Model {figure axes3} v x y.

(** ** Evaluating and drawing an Arrhenius law *)

(** [np.log10] on a positive float. *)
Definition log10 (x : R) : R := ln x / ln 10.

Section WhatIsD.

(** How Python shows a float: [str(x)] in a [print] statement, and
    ['{:.1f}'.format(x)]. *)
Variables str_float format_1f : R -> string.

(** Returns log10 diffusivity in m2/s.  The arguments are Python
    floats, so that the quotient of two floats raises at absolute zero;
    the logarithm is taken of a positive number in every statement
    below. *)
Definition whatIsD (Ea D0 celsius : R) (printout : bool) : py R :=
  let T := celsius + 27315 / 100 in
  q <- pydiv (- Ea) (GAS_CONSTANT * T) ;;
  let D := D0 * exp q in
  (if printout then
     print [PStr "log10 D at "; PStr (str_float celsius); PStr "C: ";
            PStr (format_1f (log10 D)); PStr " in m2/s"]
   else ret tt) ;;;
  ret (log10 D).

End WhatIsD.

Section ArrheniusLine.

(** [fig_ax.plot(x, y, **style)] on the axis handed in. *)
Variable ax_plot : list R -> list R -> py unit.

(** [np.linspace(low, high)] has 50 samples; the quotients are taken on
    arrays, which numpy does without raising. *)
Definition Arrhenius_add_line (Ea D0 low high : R) : py unit :=
  let T := map (fun l => 10000 / l) (linspace low high 50) in
  let log10D := map (fun T => log10 D0 - Ea / (2303 / 1000 * GAS_CONSTANT * T)) T in
  ax_plot (map (fun T => 10000 / T) T) log10D.

End ArrheniusLine.

(** ** Groups of diffusivities *)

(** The [orient] argument of the methods: a letter, an integer or
    [None]. *)
Inductive orientation : Type :=
| OStr (s : string)
| OInt (z : Z)
| ONone.

(** [str(orient)], as [print] shows it. *)
Definition str_orientation (orient : orientation) : string :=
  match orient with
  | OStr s => s
  | OInt z => NilZero.string_of_int (Z.to_int z)
  | ONone => "None"
  end.

(** Converts x, y, z, u to 0, 1, 2, 3 *)
Definition get_iorient (orient : orientation) : orientation :=
  match orient with
  | OStr s =>
      if String.eqb s "x" then OInt 0
      else if String.eqb s "y" then OInt 1
      else if String.eqb s "z" then OInt 2
      else if String.eqb s "u" then OInt 3
      else orient
  | _ => orient
  end.

(** [seq[i]] on a Python list, for whatever [i] is: an integer counts
    from the end when negative, anything else is a [TypeError]. *)
Definition list_getitem {A : Type} (l : list A) (i : orientation) : py A :=
  match i with
  | OInt z =>
      if (0 <=? z)%Z then index l (Z.to_nat z)
      else if (- Z.of_nat (List.length l) <=? z)%Z
           then index l (Z.to_nat (z + Z.of_nat (List.length l)))
           else raise IndexError
  | _ => raise TypeError
  end.

(** The two attributes of a [Diffusivities] object that the regression
    reads: temperatures and log10 diffusivities, in the order x, y, z,
    unoriented. *)
Record Diffusivities : Type := mkDiffusivities {
  celsius : list (list R);
  logD : list (list R)
}.

(** The two messages of [picker_DCelsius]. *)
Definition type_error_message : list pitem :=
  [PStr ("orient must be an integer 0-3 or"
         ++ "'x' (=0), 'y' (=1), 'z' (=2), or 'u' (=3) for unoriented")].

Definition index_error_message : list pitem :=
  [PStr ("orient must be an integer 0-3 or"
         ++ "'x'=0, 'y'=1, 'z'=2, or 'u'=3 for unoriented")].

(** Returns lists of log10D in m2/s and temperatures in Celsius of a
    Diffusivities object for the specified orientation; a [TypeError] or
    an [IndexError] from the two look-ups is reported and nothing is
    returned. *)
Definition picker_DCelsius (self : Diffusivities) (orient : orientation)
  : py (option (list R * list R)) :=
  let iorient := get_iorient orient in
  match (logD_of_interest <- list_getitem (logD self) iorient ;;
         celsius_of_interest <- list_getitem (celsius self) iorient ;;
         ret (logD_of_interest, celsius_of_interest)) with
  | (out, Returned found) => (out, Returned (Some found))
  | (out, Raised TypeError) =>
      bind (out, Returned tt) (fun _ => print type_error_message ;;; ret None)
  | (out, Raised IndexError) =>
      bind (out, Returned tt) (fun _ => print index_error_message ;;; ret None)
  | (out, Raised e) => (out, Raised e)
  end.

Section DiffusivitiesMethods.

Variable polyfit : list R -> list R -> list R -> py ((R * R) * (R * R)).

(** [str] of a list of floats, as [print] shows it. *)
Variable str_floats : list R -> string.

(** The method [Diffusivities.solve_Ea_D0]. *)
Definition Diffusivities_solve_Ea_D0 (self : Diffusivities) (orient : orientation)
  : py (option (option ufloat * option ufloat)) :=
  logD_and_Celsius <- picker_DCelsius self orient ;;
  match logD_and_Celsius with
  | None =>
      print [PStr "Problem with self.picker_DCelsius()"] ;;;
      ret None
  | Some (logD, celsius) =>
      if (Nat.ltb (List.length logD) 2 || Nat.ltb (List.length celsius) 2)%bool then
        print [] ;;;
        print [PStr "Only one point for orientation"; PStr (str_orientation orient)] ;;;
        print [PStr "logD:"; PStr (str_floats logD)] ;;;
        print [PStr "celsius:"; PStr (str_floats celsius)] ;;;
        print [] ;;;
        ret None
      else
        Ea_D0 <- solve_Ea_D0 polyfit logD celsius ;;
        ret (Some Ea_D0)
  end.

End DiffusivitiesMethods.

(** ** Vocabulary of the statements *)

(** The parameter set [params] reads as these five numbers. *)
Definition values1D (params : Parameters) (microns t log10D init fin : R) : Prop :=
  exists p,
    valuesdict params = ret p
    /\ getnum p "microns" = ret microns
    /\ getnum p "time_seconds" = ret t
    /\ getnum p "log10D_m2s" = ret log10D
    /\ getnum p "initial_unit_value" = ret init
    /\ getnum p "final_unit_value" = ret fin.

(** The parameter set [params] reads as three lengths, a time, the two
    unit values and three diffusivities. *)
Definition values3D (params : Parameters) (L3 : list R)
    (t init fin Dx Dy Dz : R) : Prop :=
  exists p,
    valuesdict params = ret p
    /\ getitem p "microns3" = ret (VList L3)
    /\ getitem p "time_seconds" = ret (VNum t)
    /\ getitem p "initial_unit_value" = ret (VNum init)
    /\ getitem p "final_unit_value" = ret (VNum fin)
    /\ getitem p "log10Dx" = ret (VNum Dx)
    /\ getitem p "log10Dy" = ret (VNum Dy)
    /\ getitem p "log10Dz" = ret (VNum Dz).

(** The 1D model values on the generated positions, 'erf' method. *)
Definition model1D (microns t log10D init fin : R) (points : nat) : list R :=
  let a := microns / 1000000 / 2 in
  to_concentration (if Rgt_dec init fin then true else false)
    (if Rgt_dec init fin then init else fin)
    (if Rgt_dec init fin then fin else init)
    (erf_profile (Rpower 10 log10D) t a (linspace (- a) a points)).

(** A call that hands back neither a profile nor residuals. *)
Definition no_result1D (r : outcome ret1D) : Prop :=
  r = Returned R1_None \/ r = Returned R1_False \/ exists e, r = Raised e.



(** The whole-block profile along each direction for a valid ray path,
    as the code selects it from the three averaged planes. *)
Definition wb_select_a (points : nat) (v : array3) (r0 : string) : list R :=
  if String.eqb r0 "b"
  then map (fun r => nth (points / 2) r 0) (mean_axis1 points v)
  else map (fun r => nth (points / 2) r 0) (mean_axis2 points v).

Definition wb_select_b (points : nat) (v : array3) (r1 : string) : list R :=
  if String.eqb r1 "a"
  then map (fun r => nth (points / 2) r 0) (mean_axis0 points v)
  else nth (points / 2) (mean_axis2 points v) [].

Definition wb_select_c (points : nat) (v : array3) (r2 : string) : list R :=
  if String.eqb r2 "a"
  then nth (points / 2) (mean_axis0 points v) []
  else nth (points / 2) (mean_axis1 points v) [].

(** ** Sums and angles for the thin-slab series *)

(** Finite sums [f 0 + ... + f (n-1)]. *)
Fixpoint rsum (f : nat -> R) (n : nat) : R :=
  match n with
  | O => 0
  | S m => rsum f m + f m
  end.

(** The coefficient [8 / ((2n+1)² π²)] of the thin-slab series. *)
Definition slab_coeff (n : nat) : R := 8 * (1 / ((2 * INR n + 1) ^ 2 * PI ^ 2)).

(** The angles [(2k+1)π / 2^(n+2)] and the squared cosecant, used to
    bound the sum of the coefficients. *)
Definition theta (n k : nat) : R := (2 * INR k + 1) * PI / 2 ^ (n + 2).

Definition csc2 (x : R) : R := / (sin x * sin x).

(** ** Vocabulary of the further statements *)

(** The [n]-th term of the infinite-sum approximation at position [xi]. *)
Definition infsum_term (D t twoA : R) (n : nat) (xi : R) : R :=
  (-1) ^ n / (2 * INR n + 1)
  * exp (- D * (2 * INR n + 1) ^ 2 * PI ^ 2 * t / twoA ^ 2)
  * cos ((2 * INR n + 1) * PI * xi / twoA).

(** The unit profile at one position, for either method. *)
Definition unit_value (erf_or_sum : string) (D t a_meters twoA : R)
    (infinity : nat) (xi : R) : R :=
  if String.eqb erf_or_sum "infsum" then
    rsum (fun n => infsum_term D t twoA n xi) infinity * 4 / PI
  else
    erf ((a_meters + xi) / (2 * sqrt (D * t)))
    + erf ((a_meters - xi) / (2 * sqrt (D * t))) - 1.

(** The message printed for an unknown method keyword. *)
Definition unknown_method_message (infinity : nat) : list pitem :=
  [PStr ("erf_or_sum must be set to either " ++ dquote ++ "erf"
         ++ dquote ++ " for python built-in "
         ++ "error function approximation (defaul) or "
         ++ dquote ++ "sum" ++ dquote ++ " for infinite "
         ++ "sum approximation with infinity=whatever, defaulting to "
         ++ str_nat infinity)].

(** A 1D parameter set used as an example: 200 microns, log10 D = -13,
    one hour, diffusion out. *)
Definition example_params1D : Parameters :=
  params_setup1D 200 (-13) 3600 1 0 (FBool true) (FBool false) (FBool false).

(** The parameter set [params_setup3D] builds with its default flags. *)
Definition params3D (L3 : list R) (Dx Dy Dz t init fin : R) : Parameters :=
  [("microns3", mkParam (VList L3) (FBool false) None None None);
   ("log10Dx", mkParam (VNum Dx) (FBool true) None None None);
   ("time_seconds", mkParam (VNum t) (FBool false) None None None);
   ("initial_unit_value", mkParam (VNum init) (FBool false) None None None);
   ("final_unit_value", mkParam (VNum fin) (FBool false) None None None);
   ("log10Dy", mkParam (VNum Dy) (FBool true) None None None);
   ("log10Dz", mkParam (VNum Dz) (FBool true) None None None)].

(** What the data arguments change in [diffusion3Dnpi_params]: a model
    is replaced by zero residuals when the shapes agree. *)
Definition npi_with_fitting (fitting : bool) (r : ret3Dnpi) : ret3Dnpi :=
  match r with
  | NPI_Model v s pos =>
      if fitting then NPI_Residuals (map (map (fun _ => 0)) s) else r
  | NPI_Residuals _ => r
  end.

(** What [diffusion3Dnpi_params] does to one entry [u] of the product
    of the three profiles: the rescaling by an initial value above 1, and
    the inversion for diffusion in. *)
Definition npi_transform (init fin u : R) : R :=
  let scale := if Rgt_dec init 1 then init else 1 in
  let init1 := if Rgt_dec init 1 then 1 else init in
  let minimum_value := if Rgt_dec init1 fin then fin else init1 in
  if Rlt_dec init1 fin then 1 - u * scale + 1 * minimum_value else u * scale.

(** The initial and final values handed to the three 1D profiles. *)
Definition npi_init1D (init fin : R) : R :=
  let init1 := if Rgt_dec init 1 then 1 else init in
  if Rlt_dec init1 fin then fin else init1.

Definition npi_fin1D (init fin : R) : R :=
  let init1 := if Rgt_dec init 1 then 1 else init in
  if Rlt_dec init1 fin then init1 else fin.

(** The mean of a profile with [points] entries. *)
Definition mean (points : nat) (y : list R) : R :=
  sum_list (map (fun i => nth i y 0) (seq 0 points)) / INR points.

(** The abscissae [1e4 / T] that [solve_Ea_D0] hands to [np.polyfit]. *)
Definition arrhenius_x (celsius_list : list R) : list R :=
  map (fun c => 10000 / (c + 27315 / 100)) celsius_list.

(** * Properties *)

(** ** The definitions on small inputs *)

Example str_nat_100 : str_nat 100 = "100".
Proof. reflexivity. Qed.

Example raypath_message_0 :
  raypath_message 0 "a" "b" "c" =
  [PStr ("raypaths[0] for profile || a must be " ++ dquote ++ "b" ++ dquote
         ++ " or " ++ dquote ++ "c" ++ dquote)].
Proof. reflexivity. Qed.

Example linspace_0_10_3 : linspace 0 10 3 = [0; 5; 10].
Proof. unfold linspace. simpl. repeat f_equal; field. Qed.

Example linspace_single : linspace (-3) 3 1 = [-3].
Proof. unfold linspace. simpl. f_equal. ring. Qed.

Example np_shape_rectangular : np_shape [[1; 2]; [3; 4]; [5; 6]] = [3; 2]%nat.
Proof. reflexivity. Qed.

Example np_shape_ragged : np_shape [[1; 2]; [3]; [5; 6]] = [3]%nat.
Proof. reflexivity. Qed.

Example argmin_first_of_ties : argmin [3; 1; 2; 1] = ret 1%nat.
Proof.
  unfold argmin, argmin_from.
  repeat match goal with |- context [Rlt_dec ?a ?b] =>
    destruct (Rlt_dec a b); try lra end.
  reflexivity.
Qed.

Example argmin_empty : argmin [] = raise ValueError.
Proof. reflexivity. Qed.

Example valuesdict_isotropic :
  exists params,
    params_setup3D [100; 200; 300] [-12; -13; -14] 3600 1 0 true false
      [FBool true; FBool true; FBool true] (FBool false) (FBool false) = ret params
    /\ valuesdict params =
       ret [("microns3", VList [100; 200; 300]); ("log10Dx", VNum (-12));
            ("time_seconds", VNum 3600); ("initial_unit_value", VNum 1);
            ("final_unit_value", VNum 0); ("log10Dy", VNum (-12));
            ("log10Dz", VNum (-12))].
Proof. eexists. split; reflexivity. Qed.

Example params_setup3D_short_list :
  params_setup3D [100; 200; 300] [-12; -13] 3600 1 0 false false
    [FBool true; FBool true; FBool true] (FBool false) (FBool false)
  = raise IndexError.
Proof. reflexivity. Qed.

(** ** The monad *)

Lemma bind_ret_l {A B : Type} (a : A) (k : A -> py B) : bind (ret a) k = k a.
Proof. unfold bind, ret. destruct (k a); reflexivity. Qed.


Lemma bind_returned {A B : Type} (o : list event) (a : A) (k : A -> py B) :
  bind (o, Returned a) k = ((o ++ output (k a))%list, result (k a)).
Proof. unfold bind, output, result. destruct (k a); reflexivity. Qed.

Lemma bind_eq_ret {A B : Type} (m : py A) (k : A -> py B) (b : B) :
  bind m k = ret b -> exists a, m = ret a /\ k a = ret b.
Proof.
  destruct m as [out [a | e]]; unfold bind, ret; [| discriminate].
  destruct (k a) as [out' r] eqn:Hk. intros H. injection H as Ho Hr.
  apply app_eq_nil in Ho as [-> ->]. subst r. exists a.
  split; [reflexivity | exact Hk].
Qed.


(** ** Arrays *)

Lemma nth_map_in {A B : Type} (f : A -> B) (l : list A) (i : nat) (d : A) (d' : B) :
  (i < List.length l)%nat -> nth i (map f l) d' = f (nth i l d).
Proof.
  intros Hi. rewrite (nth_indep _ d' (f d)) by (now rewrite length_map).
  apply map_nth.
Qed.

Lemma nth_map_seq {B : Type} (f : nat -> B) (n i : nat) (d : B) :
  (i < n)%nat -> nth i (map f (seq 0 n)) d = f i.
Proof.
  intros Hi. rewrite (nth_map_in _ _ _ 0%nat) by (now rewrite length_seq).
  now rewrite seq_nth.
Qed.

Lemma map_seq_nth (g : R -> R) (l : list R) :
  map (fun d => g (nth d l 0)) (seq 0 (List.length l)) = map g l.
Proof.
  induction l as [| a l IH]; [reflexivity |].
  simpl. f_equal. rewrite <- seq_shift, map_map. exact IH.
Qed.

Lemma index_nth {A : Type} (l : list A) (k : nat) (d : A) :
  (k < List.length l)%nat -> index l k = ret (nth k l d).
Proof.
  intros H. unfold index. now rewrite (nth_error_nth' l d H).
Qed.

Lemma linspace_length (a b : R) (n : nat) : List.length (linspace a b n) = n.
Proof. unfold linspace. now rewrite length_map, length_seq. Qed.

Lemma linspace_nth (a b : R) (n i : nat) :
  (i < n)%nat -> nth i (linspace a b n) 0 = INR i * ((b - a) / INR (n - 1)) + a.
Proof.
  intros Hi. unfold linspace.
  rewrite (nth_map_in _ _ _ 0%nat) by (now rewrite length_seq).
  rewrite seq_nth by exact Hi. reflexivity.
Qed.


Lemma zip_with_length (f : R -> R -> R) (u v : list R) :
  List.length u = List.length v -> List.length (zip_with f u v) = List.length v.
Proof.
  intros H. unfold zip_with. rewrite length_map, length_combine, H.
  apply Nat.min_id.
Qed.

Lemma zip_with_nth (f : R -> R -> R) (u v : list R) (i : nat) :
  List.length u = List.length v -> (i < List.length v)%nat ->
  nth i (zip_with f u v) 0 = f (nth i u 0) (nth i v 0).
Proof.
  unfold zip_with. revert v i.
  induction u as [| a u IH]; intros [| b v] i Hl Hi; simpl in *; try lia.
  destruct i as [| i]; [reflexivity |].
  apply IH; lia.
Qed.

Lemma column_ok {A : Type} (size : nat) (m : list (list A)) (j : nat) (d : A) :
  (j < size)%nat -> column size m j d = ret (map (fun r => nth j r d) m).
Proof. intros H. unfold column. apply Nat.ltb_lt in H. now rewrite H. Qed.

Lemma row_ok {A : Type} (size : nat) (m : list A) (i : nat) (d : A) :
  (i < size)%nat -> row size m i d = ret (nth i m d).
Proof. intros H. unfold row. apply Nat.ltb_lt in H. now rewrite H. Qed.


Lemma mean_axis_length (points : nat) (v : array3) :
  List.length (mean_axis0 points v) = points
  /\ List.length (mean_axis1 points v) = points
  /\ List.length (mean_axis2 points v) = points.
Proof.
  unfold mean_axis0, mean_axis1, mean_axis2.
  now rewrite !length_map, !length_seq.
Qed.

(** ** Reading the parameters *)

Lemma diffusion1D_params_reads (params : Parameters) (microns t log10D init fin : R)
    (dx dy : option (list R)) (method : string) (center : bool) (infinity points : nat) :
  values1D params microns t log10D init fin ->
  diffusion1D_params params dx dy method center infinity points =
  diffusion1D_body microns t log10D init fin dx dy method center infinity points.
Proof.
  intros (p & Hp & H1 & H2 & H3 & H4 & H5).
  unfold diffusion1D_params.
  rewrite Hp, bind_ret_l, H1, bind_ret_l, H2, bind_ret_l, H3, bind_ret_l,
    H4, bind_ret_l, H5, bind_ret_l.
  reflexivity.
Qed.

Lemma params_setup1D_values (microns log10D t init fin : R) (vD vinit vfin : pyflag) :
  values1D (params_setup1D microns log10D t init fin vD vinit vfin)
           microns t log10D init fin.
Proof.
  eexists. repeat split; reflexivity.
Qed.

Lemma valuesdict_of_has_param (all params : Parameters)
    (p : list (string * pyval)) (name : string) (v : pyval) :
  valuesdict_of all params = ret p -> getitem p name = ret v ->
  exists prm, params_get params name = ret prm.
Proof.
  revert p. induction params as [| [k prm] rest IH]; intros p Hp Hg.
  - simpl in Hp. injection Hp as <-. discriminate Hg.
  - simpl in Hp.
    apply bind_eq_ret in Hp as (v0 & _ & Hp).
    apply bind_eq_ret in Hp as (d & Hd & Hp).
    injection Hp as <-. simpl in Hg. simpl.
    destruct (String.eqb k name).
    + exists prm. reflexivity.
    + apply (IH d); assumption.
Qed.

Lemma valuesdict_has_param (params : Parameters) (p : list (string * pyval))
    (name : string) (v : pyval) :
  valuesdict params = ret p -> getitem p name = ret v ->
  exists prm, params_get params name = ret prm.
Proof. apply valuesdict_of_has_param. Qed.

Lemma params_setup3D_values (La Lb Lc Dx Dy Dz t init fin : R)
    (vx vy vz vinit vfin : pyflag) :
  exists params,
    params_setup3D [La; Lb; Lc] [Dx; Dy; Dz] t init fin false false
      [vx; vy; vz] vinit vfin = ret params
    /\ values3D params [La; Lb; Lc] t init fin Dx Dy Dz.
Proof.
  eexists. split; [reflexivity |].
  eexists. repeat split; reflexivity.
Qed.

(** ** Finite sums *)

Lemma rsum_ext (f g : nat -> R) (n : nat) :
  (forall k, (k < n)%nat -> f k = g k) -> rsum f n = rsum g n.
Proof.
  induction n as [| n IH]; intros H; simpl; [reflexivity |].
  rewrite IH, H; auto.
Qed.

Lemma rsum_le (f g : nat -> R) (n : nat) :
  (forall k, (k < n)%nat -> f k <= g k) -> rsum f n <= rsum g n.
Proof.
  induction n as [| n IH]; intros H; simpl; [lra |].
  apply Rplus_le_compat; auto.
Qed.

Lemma rsum_lt (f g : nat -> R) (n : nat) :
  (0 < n)%nat -> (forall k, (k < n)%nat -> f k < g k) -> rsum f n < rsum g n.
Proof.
  intros Hn H. destruct n as [| n]; [lia |]. simpl.
  apply Rplus_le_lt_compat.
  - apply rsum_le. intros k Hk. left. apply H. lia.
  - apply H. lia.
Qed.

Lemma rsum_nonneg (f : nat -> R) (n : nat) :
  (forall k, (k < n)%nat -> 0 <= f k) -> 0 <= rsum f n.
Proof.
  induction n as [| n IH]; intros H; simpl; [lra |].
  apply Rplus_le_le_0_compat; auto.
Qed.

Lemma rsum_app (f : nat -> R) (a b : nat) :
  rsum f (a + b) = rsum f a + rsum (fun k => f (a + k)%nat) b.
Proof.
  induction b as [| b IH]; simpl.
  - rewrite Nat.add_0_r; ring.
  - rewrite Nat.add_succ_r; simpl. rewrite IH; ring.
Qed.

Lemma rsum_rev (f : nat -> R) (n : nat) :
  rsum f n = rsum (fun k => f (n - 1 - k)%nat) n.
Proof.
  induction n as [| n IH]; [reflexivity |].
  transitivity (rsum (fun k => f (S n - 1 - k)%nat) (1 + n)); [| reflexivity].
  rewrite rsum_app. simpl.
  replace (n - 0 - 0)%nat with n by lia.
  rewrite IH, Rplus_0_l, Rplus_comm. f_equal.
  apply rsum_ext; intros k Hk. f_equal; lia.
Qed.

Lemma rsum_plus (f g : nat -> R) (n : nat) :
  rsum (fun k => f k + g k) n = rsum f n + rsum g n.
Proof. induction n as [| n IH]; simpl; [ring | rewrite IH; ring]. Qed.

Lemma rsum_scal (c : R) (f : nat -> R) (n : nat) :
  rsum (fun k => c * f k) n = c * rsum f n.
Proof. induction n as [| n IH]; simpl; [ring | rewrite IH; ring]. Qed.

Lemma rsum_const (c : R) (n : nat) : rsum (fun _ => c) n = INR n * c.
Proof.
  induction n as [| n IH]; [simpl; ring |].
  simpl rsum. rewrite IH, S_INR. ring.
Qed.

Lemma rsum_mono_len (f : nat -> R) (n m : nat) :
  (forall k, 0 <= f k) -> (n <= m)%nat -> rsum f n <= rsum f m.
Proof.
  intros Hf Hnm. replace m with (n + (m - n))%nat by lia.
  rewrite rsum_app.
  assert (0 <= rsum (fun k => f (n + k)%nat) (m - n)) by (apply rsum_nonneg; intros; apply Hf).
  lra.
Qed.

Lemma fold_left_rsum (g : nat -> R) (N : nat) (acc : R) :
  fold_left (fun s n => s + g n) (seq 0 N) acc = acc + rsum g N.
Proof.
  induction N as [| N IH]; simpl rsum.
  - simpl. ring.
  - rewrite seq_S, fold_left_app, IH. simpl. ring.
Qed.

(** ** The sum of the series coefficients

    The coefficients 8/((2k+1)²π²) sum to 1.  The partial sums are
    bounded through the identity
    [csc²(x) + csc²(π/2 − x) = 4 csc²(2x)], which gives
    [Σ_{k<2^n} csc²((2k+1)π/2^(n+2)) = 2·4^n], and the inequalities
    [1/x² <= csc² x <= 1 + 1/x²] on (0, π/2). *)

Lemma theta_range (n k : nat) : (k < 2 ^ n)%nat -> 0 < theta n k < PI / 2.
Proof.
  intros Hk. unfold theta.
  assert (Hp : 0 < 2 ^ (n + 2)) by (apply pow_lt; lra).
  pose proof PI_RGT_0 as Hpi. pose proof (pos_INR k) as Hk0.
  assert (Hk1 : INR k + 1 <= 2 ^ n).
  { rewrite <- S_INR. replace 2 with (INR 2) by (simpl; lra). rewrite <- pow_INR.
    apply le_INR. lia. }
  replace (2 ^ (n + 2)) with (4 * 2 ^ n) in * by (rewrite pow_add; simpl; ring).
  assert (Hn : 0 < 2 ^ n) by (apply pow_lt; lra).
  split.
  - apply Rdiv_lt_0_compat; [| assumption]. apply Rmult_lt_0_compat; lra.
  - apply Rmult_lt_reg_r with (4 * 2 ^ n); [assumption |].
    unfold Rdiv at 1. rewrite Rmult_assoc, Rinv_l by lra. nra.
Qed.

Lemma theta_half (n k : nat) : theta n k = 2 * theta (S n) k.
Proof.
  unfold theta. simpl pow.
  assert (Hp : 2 ^ (n + 2) <> 0) by (apply pow_nonzero; lra).
  field. assumption.
Qed.

Lemma theta_mirror (n k : nat) :
  (k < 2 ^ n)%nat ->
  theta (S n) (2 ^ n + (2 ^ n - 1 - k)) = PI / 2 - theta (S n) k.
Proof.
  intros Hk. unfold theta.
  assert (Hp : 2 ^ (n + 2) <> 0) by (apply pow_nonzero; lra).
  replace (2 ^ n + (2 ^ n - 1 - k))%nat with (2 ^ (n + 1) - 1 - k)%nat
    by (rewrite Nat.pow_add_r; simpl; lia).
  rewrite !minus_INR by (rewrite Nat.pow_add_r; simpl; lia).
  rewrite pow_INR. simpl INR. replace (1 + 1) with 2 by ring.
  replace (S n + 2)%nat with (S (n + 2)) by lia.
  replace (n + 1)%nat with (S n) by lia.
  replace (n + 2)%nat with (S (S n)) in * by lia.
  simpl pow in *. field. lra.
Qed.

Lemma csc2_double (x : R) :
  0 < x < PI / 2 -> csc2 x + csc2 (PI / 2 - x) = 4 * csc2 (2 * x).
Proof.
  intros Hx. unfold csc2.
  rewrite sin_shift, sin_2a.
  assert (Hs : 0 < sin x) by (apply sin_gt_0; lra).
  assert (Hc : 0 < cos x) by (apply cos_gt_0; lra).
  pose proof (sin2_cos2 x) as H1. unfold Rsqr in H1.
  assert (Hs0 : sin x <> 0) by lra. assert (Hc0 : cos x <> 0) by lra.
  field_simplify_eq; [| repeat split; assumption]. nra.
Qed.

Lemma csc2_sum (n : nat) : rsum (fun k => csc2 (theta n k)) (2 ^ n) = 2 * 4 ^ n.
Proof.
  induction n as [| n IH].
  - simpl. unfold theta, csc2. simpl.
    replace ((2 * 0 + 1) * PI / (2 * (2 * 1))) with (PI / 4) by field.
    rewrite sin_PI4.
    assert (Hs : 0 < sqrt 2) by (apply sqrt_lt_R0; lra).
    pose proof (sqrt_sqrt 2) as Hq.
    replace (1 / sqrt 2 * (1 / sqrt 2)) with (/ (sqrt 2 * sqrt 2)) by (field; lra).
    rewrite Hq by lra. field.
  - replace (2 ^ S n)%nat with (2 ^ n + 2 ^ n)%nat by (simpl; lia).
    rewrite rsum_app.
    rewrite (rsum_rev (fun k => csc2 (theta (S n) (2 ^ n + k))) (2 ^ n)).
    rewrite <- rsum_plus.
    rewrite (rsum_ext _ (fun k => 4 * csc2 (theta n k))).
    + rewrite rsum_scal, IH. simpl. ring.
    + intros k Hk. cbv beta.
      rewrite theta_mirror by assumption.
      rewrite (theta_half n k).
      apply csc2_double.
      pose proof (theta_range n k Hk) as Hr. rewrite (theta_half n k) in Hr. lra.
Qed.

Lemma inv_sqr_le_csc2 (x : R) : 0 < x < PI / 2 -> / (x * x) <= csc2 x.
Proof.
  intros Hx. unfold csc2.
  assert (Hs : 0 < sin x) by (apply sin_gt_0; pose proof PI_RGT_0; lra).
  assert (Hl : sin x < x) by (apply sin_lt_x; lra).
  apply Rinv_le_contravar; nra.
Qed.

Lemma x_cos_le_sin (x : R) : 0 < x < PI / 2 -> x * cos x <= sin x.
Proof.
  intros Hx. pose proof PI_4 as Hpi.
  assert (Hs : sin_approx x (2 * 0 + 1) <= sin x)
    by (apply sin_bound; lra).
  assert (Hc : cos x <= cos_approx x (2 * (0 + 1)))
    by (apply cos_bound; lra).
  unfold sin_approx, sin_term in Hs. unfold cos_approx, cos_term in Hc.
  simpl in Hs, Hc.
  assert (Hx2 : x * x <= 4) by nra.
  assert (Hc' : x * cos x <= x * (1 - x * x / 2 + x * x * (x * x) / 24)).
  { apply Rmult_le_compat_l; [lra |]. lra. }
  assert (Hpoly : x * (1 - x * x / 2 + x * x * (x * x) / 24) <= x - x * (x * x) / 6).
  { assert (0 <= x * (x * x) * (8 - x * x)).
    { apply Rmult_le_pos; [| lra]. apply Rmult_le_pos; nra. }
    nra. }
  lra.
Qed.

Lemma csc2_le (x : R) : 0 < x < PI / 2 -> csc2 x <= 1 + / (x * x).
Proof.
  intros Hx. unfold csc2.
  assert (Hs : 0 < sin x) by (apply sin_gt_0; pose proof PI_RGT_0; lra).
  assert (Hc : 0 < cos x) by (apply cos_gt_0; lra).
  pose proof (x_cos_le_sin x Hx) as Hxc.
  pose proof (sin2_cos2 x) as H1. unfold Rsqr in H1.
  assert (Hss : 0 < sin x * sin x) by nra.
  assert (Hxx : 0 < x * x) by nra.
  apply Rmult_le_reg_r with (sin x * sin x * (x * x));
    [apply Rmult_lt_0_compat; assumption |].
  replace (/ (sin x * sin x) * (sin x * sin x * (x * x))) with (x * x) by (field; lra).
  replace ((1 + / (x * x)) * (sin x * sin x * (x * x)))
    with (sin x * sin x * (x * x) + sin x * sin x) by (field; lra).
  assert (Hxc0 : 0 <= x * cos x) by (apply Rmult_le_pos; lra).
  assert (Hsq : (x * cos x) * (x * cos x) <= sin x * sin x)
    by (apply Rmult_le_compat; assumption).
  assert (Hsq' : x * x * (1 - sin x * sin x) <= sin x * sin x).
  { replace (1 - sin x * sin x) with (cos x * cos x) by lra.
    replace (x * x * (cos x * cos x)) with ((x * cos x) * (x * cos x)) by ring.
    exact Hsq. }
  lra.
Qed.

Lemma slab_coeff_pos (n : nat) : 0 < slab_coeff n.
Proof.
  unfold slab_coeff. pose proof PI_RGT_0. pose proof (pos_INR n).
  apply Rmult_lt_0_compat; [lra |]. apply Rdiv_lt_0_compat; [lra |].
  apply Rmult_lt_0_compat; apply pow_lt; lra.
Qed.

Lemma slab_coeff_theta (n k : nat) :
  slab_coeff k = / (2 * 4 ^ n) * / (theta n k * theta n k).
Proof.
  unfold slab_coeff, theta. pose proof PI_RGT_0. pose proof (pos_INR k).
  assert (Hp : 2 ^ n <> 0) by (apply pow_nonzero; lra).
  assert (Hq : 4 ^ n = 2 ^ n * 2 ^ n).
  { replace 4 with (2 * 2) by ring. apply Rpow_mult_distr. }
  rewrite Hq, pow_add. simpl pow. field. repeat split; lra.
Qed.

Lemma slab_coeff_sum_pow2 (n : nat) : rsum slab_coeff (2 ^ n) <= 1.
Proof.
  rewrite (rsum_ext _ (fun k => / (2 * 4 ^ n) * / (theta n k * theta n k)))
    by (intros; apply slab_coeff_theta).
  rewrite rsum_scal.
  assert (H4 : 0 < 4 ^ n) by (apply pow_lt; lra).
  assert (Hle : rsum (fun k => / (theta n k * theta n k)) (2 ^ n) <= 2 * 4 ^ n).
  { rewrite <- csc2_sum. apply rsum_le. intros k Hk.
    apply inv_sqr_le_csc2, theta_range, Hk. }
  apply Rmult_le_reg_l with (2 * 4 ^ n); [lra |].
  rewrite <- Rmult_assoc, Rinv_r by lra. lra.
Qed.

Lemma slab_coeff_sum_le_1 (N : nat) : rsum slab_coeff N <= 1.
Proof.
  apply Rle_trans with (rsum slab_coeff (2 ^ N)); [| apply slab_coeff_sum_pow2].
  apply rsum_mono_len.
  - intros k; left; apply slab_coeff_pos.
  - apply Nat.lt_le_incl, Nat.pow_gt_lin_r; lia.
Qed.

Lemma slab_coeff_sum_pow2_lower (n : nat) :
  1 - / 2 ^ (n + 1) <= rsum slab_coeff (2 ^ n).
Proof.
  rewrite (rsum_ext _ (fun k => / (2 * 4 ^ n) * / (theta n k * theta n k)))
    by (intros; apply slab_coeff_theta).
  rewrite rsum_scal.
  assert (H4 : 0 < 4 ^ n) by (apply pow_lt; lra).
  assert (H2 : 0 < 2 ^ n) by (apply pow_lt; lra).
  assert (Hq : 4 ^ n = 2 ^ n * 2 ^ n).
  { replace 4 with (2 * 2) by ring. apply Rpow_mult_distr. }
  assert (Hge : 2 * 4 ^ n - 2 ^ n <= rsum (fun k => / (theta n k * theta n k)) (2 ^ n)).
  { assert (Hc : rsum (fun k => csc2 (theta n k) + - 1) (2 ^ n) = 2 * 4 ^ n - 2 ^ n).
    { rewrite rsum_plus, csc2_sum, rsum_const, pow_INR.
      replace (INR 2) with 2 by (simpl; lra). ring. }
    rewrite <- Hc. apply rsum_le. intros k Hk.
    pose proof (csc2_le (theta n k) (theta_range n k Hk)). lra. }
  apply Rmult_le_reg_l with (2 * 4 ^ n); [lra |].
  rewrite <- Rmult_assoc, Rinv_r, Rmult_1_l by lra.
  replace (2 * 4 ^ n * (1 - / 2 ^ (n + 1))) with (2 * 4 ^ n - 2 ^ n); [exact Hge |].
  rewrite Hq, pow_add. simpl pow. field. lra.
Qed.

Lemma slab_coeff_sum_lower (N n : nat) :
  (2 ^ n <= N)%nat -> 1 - / 2 ^ (n + 1) <= rsum slab_coeff N.
Proof.
  intros H. eapply Rle_trans; [apply slab_coeff_sum_pow2_lower |].
  apply rsum_mono_len; [intros k; left; apply slab_coeff_pos | exact H].
Qed.

(** ** Bounds on the error function *)

Lemma gauss_int_le (x : R) : 0 <= x -> RiemannInt (gauss_integrable 0 x) <= x.
Proof.
  intros Hx.
  apply Rle_trans with (1 * (x - 0)); [| lra].
  rewrite <- (RiemannInt_P15 (RiemannInt_P14 0 x 1)).
  apply RiemannInt_P19; [assumption |].
  intros u Hu. unfold gauss, fct_cte.
  rewrite <- exp_0. 
  destruct (Req_dec (u*u) 0) as [E|E].
  - rewrite E, Ropp_0. lra.
  - left. apply exp_increasing. nra.
Qed.

Lemma gauss_int_ge (x : R) : 0 <= x -> exp (- (x * x)) * x <= RiemannInt (gauss_integrable 0 x).
Proof.
  intros Hx.
  apply Rle_trans with (exp (- (x * x)) * (x - 0)); [right; ring |].
  rewrite <- (RiemannInt_P15 (RiemannInt_P14 0 x (exp (- (x * x))))).
  apply RiemannInt_P19; [assumption |].
  intros u Hu. unfold gauss, fct_cte.
  left. apply exp_increasing. nra.
Qed.

Lemma sqrt_PI_gt_1 : 1 < sqrt PI.
Proof.
  rewrite <- sqrt_1. apply sqrt_lt_1; try lra.
  - pose proof PI_RGT_0; lra.
  - pose proof PI2_3_2; lra.
Qed.

Lemma erf_0 : erf 0 = 0.
Proof. unfold erf. rewrite RiemannInt_P9. ring. Qed.

Lemma erf_pos (x : R) : 0 < x -> 0 < erf x.
Proof.
  intros Hx. unfold erf.
  pose proof sqrt_PI_gt_1 as Hs.
  apply Rmult_lt_0_compat.
  - apply Rdiv_lt_0_compat; lra.
  - eapply Rlt_le_trans; [| apply gauss_int_ge; lra].
    apply Rmult_lt_0_compat; [apply exp_pos | assumption].
Qed.

Lemma erf_le_2x (x : R) : 0 <= x -> erf x <= 2 * x.
Proof.
  intros Hx. unfold erf.
  pose proof sqrt_PI_gt_1 as Hs.
  pose proof (gauss_int_le x Hx) as Hi.
  assert (0 <= RiemannInt (gauss_integrable 0 x)).
  { eapply Rle_trans; [| apply gauss_int_ge; assumption].
    apply Rmult_le_pos; [left; apply exp_pos | assumption]. }
  assert (2 / sqrt PI <= 2).
  { unfold Rdiv. rewrite <- (Rmult_1_r 2) at 2.
    apply Rmult_le_compat_l; [lra |].
    rewrite <- Rinv_1. apply Rinv_le_contravar; lra. }
  assert (0 < 2 / sqrt PI) by (apply Rdiv_lt_0_compat; lra).
  nra.
Qed.

(** ** The thin-slab series *)

Lemma pow2_pos (x : R) : x <> 0 -> 0 < x ^ 2.
Proof.
  intros Hx. simpl. destruct (Rtotal_order x 0) as [H | [H | H]]; [nra | lra | nra].
Qed.

Lemma Rpower_10_pos (x : R) : 0 < Rpower 10 x.
Proof. unfold Rpower. apply exp_pos. Qed.

Lemma exp_neg_le_inv (x : R) : 0 < x -> exp (- x) < / x.
Proof.
  intros Hx. rewrite exp_Ropp.
  apply Rinv_lt_contravar.
  - apply Rmult_lt_0_compat; [exact Hx | apply exp_pos].
  - assert (Hx0 : x <> 0) by lra. pose proof (exp_ineq1 x Hx0). lra.
Qed.

(** The series with the decay rate of each term made explicit. *)
Lemma thin_slab_sum_rsum (D L : R) (N : nat) (t : R) :
  thin_slab_sum D L N t =
  rsum (fun n => slab_coeff n
                 * exp (- (D * (2 * INR n + 1) ^ 2 * PI ^ 2 / (4 * L ^ 2) * t))) N.
Proof.
  unfold thin_slab_sum. cbv zeta. 
  rewrite (fold_left_rsum
             (fun n => 8 * (1 / ((2 * INR n + 1) ^ 2 * PI ^ 2))
                       * exp (-1 * (D * (2 * INR n + 1) ^ 2 * PI ^ 2 * t)
                              / (4 * L ^ 2)))).
  rewrite Rplus_0_l. apply rsum_ext. intros k _. unfold slab_coeff.
  f_equal. f_equal. unfold Rdiv. ring.
Qed.

Lemma slab_rate_pos (D L : R) (n : nat) :
  0 < D -> L <> 0 -> 0 < D * (2 * INR n + 1) ^ 2 * PI ^ 2 / (4 * L ^ 2).
Proof.
  intros HD HL. pose proof PI_RGT_0. pose proof (pos_INR n).
  apply Rdiv_lt_0_compat.
  - assert (0 < (2 * INR n + 1) ^ 2) by (apply pow_lt; lra).
    assert (0 < PI ^ 2) by (apply pow_lt; lra).
    apply Rmult_lt_0_compat; [apply Rmult_lt_0_compat |]; assumption.
  - assert (0 < L ^ 2) by (apply pow2_pos; exact HL). lra.
Qed.

Lemma thin_slab_sum_antitone (D L : R) (N : nat) (t t' : R) :
  0 < D -> L <> 0 -> t <= t' -> thin_slab_sum D L N t' <= thin_slab_sum D L N t.
Proof.
  intros HD HL Ht. rewrite !thin_slab_sum_rsum. apply rsum_le. intros k _.
  apply Rmult_le_compat_l; [left; apply slab_coeff_pos |].
  pose proof (slab_rate_pos D L k HD HL) as Hr.
  destruct Ht as [Ht | ->]; [| lra].
  left. apply exp_increasing. nra.
Qed.

Lemma thin_slab_sum_decreasing (D L : R) (N : nat) (t t' : R) :
  0 < D -> L <> 0 -> (0 < N)%nat -> t < t' ->
  thin_slab_sum D L N t' < thin_slab_sum D L N t.
Proof.
  intros HD HL HN Ht. rewrite !thin_slab_sum_rsum. apply rsum_lt; [exact HN |].
  intros k _. apply Rmult_lt_compat_l; [apply slab_coeff_pos |].
  pose proof (slab_rate_pos D L k HD HL) as Hr.
  apply exp_increasing. nra.
Qed.

Lemma thin_slab_sum_at_0 (D L : R) (N : nat) :
  thin_slab_sum D L N 0 = rsum slab_coeff N.
Proof.
  rewrite thin_slab_sum_rsum. apply rsum_ext. intros k _.
  rewrite Rmult_0_r, Ropp_0, exp_0. ring.
Qed.

Lemma thin_slab_sum_nonneg (D L : R) (N : nat) (t : R) :
  0 <= thin_slab_sum D L N t.
Proof.
  rewrite thin_slab_sum_rsum. apply rsum_nonneg. intros k _.
  apply Rmult_le_pos; left; [apply slab_coeff_pos | apply exp_pos].
Qed.

Lemma thin_slab_sum_le_1 (D L : R) (N : nat) (t : R) :
  0 < D -> L <> 0 -> 0 <= t -> thin_slab_sum D L N t <= 1.
Proof.
  intros HD HL Ht.
  apply Rle_trans with (thin_slab_sum D L N 0).
  - apply thin_slab_sum_antitone; assumption.
  - rewrite thin_slab_sum_at_0. apply slab_coeff_sum_le_1.
Qed.

Lemma thin_slab_sum_decay (D L : R) (N : nat) (t : R) :
  0 < D -> L <> 0 -> 0 <= t ->
  thin_slab_sum D L N t <= exp (- (D * PI ^ 2 / (4 * L ^ 2) * t)).
Proof.
  intros HD HL Ht.
  apply Rle_trans
    with (rsum (fun n => exp (- (D * PI ^ 2 / (4 * L ^ 2) * t)) * slab_coeff n) N).
  - rewrite thin_slab_sum_rsum. apply rsum_le. intros k _.
    rewrite Rmult_comm. apply Rmult_le_compat_r; [left; apply slab_coeff_pos |].
    assert (Hle : D * PI ^ 2 / (4 * L ^ 2) * t
                  <= D * (2 * INR k + 1) ^ 2 * PI ^ 2 / (4 * L ^ 2) * t).
    { apply Rmult_le_compat_r; [exact Ht |].
      unfold Rdiv. apply Rmult_le_compat_r.
      - left. apply Rinv_0_lt_compat.
        assert (0 < L ^ 2) by (apply pow2_pos; exact HL). lra.
      - pose proof (pos_INR k). pose proof PI_RGT_0.
        assert (0 < PI ^ 2) by (apply pow_lt; lra).
        assert (Hq : 1 <= (2 * INR k + 1) ^ 2) by (simpl; nra).
        replace (D * PI ^ 2) with (D * 1 * PI ^ 2) by ring.
        apply Rmult_le_compat_r; [lra |].
        apply Rmult_le_compat_l; lra. }
    destruct Hle as [Hlt | Heq].
    + left. apply exp_increasing. lra.
    + rewrite Heq. lra.
  - rewrite rsum_scal.
    pose proof (slab_coeff_sum_le_1 N) as H1.
    pose proof (exp_pos (- (D * PI ^ 2 / (4 * L ^ 2) * t))) as H2.
    assert (0 <= rsum slab_coeff N)
      by (apply rsum_nonneg; intros; left; apply slab_coeff_pos).
    nra.
Qed.

Lemma diffusionThinSlab_nth (log10D thickness M : R) (N n i : nat) :
  (i < n)%nat ->
  nth i (snd (diffusionThinSlab log10D thickness M N n)) 0 =
  thin_slab_sum (Rpower 10 log10D) (thickness / 2000000) N
    ((INR i * ((M - 0) / INR (n - 1)) + 0) * 3600).
Proof.
  intros Hi. unfold diffusionThinSlab. cbv zeta. simpl snd.
  rewrite (nth_map_in _ _ _ 0) by (now rewrite length_map, linspace_length).
  rewrite (nth_map_in _ _ _ 0) by (now rewrite linspace_length).
  rewrite linspace_nth by exact Hi. reflexivity.
Qed.

Lemma sample_time_mono (M : R) (n i j : nat) :
  0 <= M -> (i <= j < n)%nat ->
  0 <= (INR i * ((M - 0) / INR (n - 1)) + 0) * 3600
       <= (INR j * ((M - 0) / INR (n - 1)) + 0) * 3600.
Proof.
  intros HM [Hij Hj].
  destruct (Nat.eq_dec j 0) as [-> | Hj0].
  - replace i with 0%nat by lia. simpl. lra.
  - assert (Hn : 0 < INR (n - 1)) by (apply lt_0_INR; lia).
    assert (Hs : 0 <= (M - 0) / INR (n - 1)).
    { unfold Rdiv. apply Rmult_le_pos; [lra |]. left. now apply Rinv_0_lt_compat. }
    pose proof (pos_INR i) as Hi0. pose proof (le_INR _ _ Hij) as Hle.
    split; nra.
Qed.

Lemma sample_time_last (M : R) (n : nat) :
  (2 <= n)%nat -> (INR (n - 1) * ((M - 0) / INR (n - 1)) + 0) * 3600 = M * 3600.
Proof.
  intros Hn. assert (INR (n - 1) <> 0) by (apply not_0_INR; lia).
  field. assumption.
Qed.

(** C3 (as amended): for a non-zero thickness and a non-negative
    maximum time the array returned by [diffusionThinSlab] is
    non-increasing in time and bounded in [0,1]; at t=0 it is the sum of
    the first [infinity] coefficients 8/((2n+1)²π²), at least 8/π² as
    soon as one term is summed and at least 1 − 1/2^(n+1) once 2^n terms
    are summed; and its final value falls below any positive bound when
    the maximum time is large enough. *)
Theorem diffusionThinSlab_decreasing_bounded
    (log10D thickness max_time_hours : R) (infinity timesteps : nat) :
  thickness <> 0 -> 0 <= max_time_hours ->
  let cc :=
    snd (diffusionThinSlab log10D thickness max_time_hours infinity timesteps) in
  List.length cc = timesteps
  /\ (forall i j, (i <= j < timesteps)%nat -> nth j cc 0 <= nth i cc 0)
  /\ (forall i, (i < timesteps)%nat -> 0 <= nth i cc 0 <= 1)
  /\ ((0 < timesteps)%nat ->
      nth 0 cc 0 = rsum slab_coeff infinity
      /\ ((0 < infinity)%nat -> 8 / PI ^ 2 <= nth 0 cc 0)
      /\ (forall n, (2 ^ n <= infinity)%nat -> 1 - / 2 ^ (n + 1) <= nth 0 cc 0))
  /\ ((2 <= timesteps)%nat ->
      forall eps, 0 < eps ->
      exists T, forall M, T <= M ->
        nth (timesteps - 1)
            (snd (diffusionThinSlab log10D thickness M infinity timesteps)) 0 < eps).
Proof.
  intros Hth HM cc.
  assert (HL : thickness / 2000000 <> 0).
  { unfold Rdiv. apply Rmult_integral_contrapositive_currified; [exact Hth |].
    apply Rinv_neq_0_compat. lra. }
  pose proof (Rpower_10_pos log10D) as HD.
  split; [| split; [| split; [| split]]].
  - unfold cc, diffusionThinSlab. simpl snd.
    now rewrite !length_map, linspace_length.
  - intros i j Hij. unfold cc.
    rewrite !diffusionThinSlab_nth by lia.
    apply thin_slab_sum_antitone; try assumption.
    apply (sample_time_mono max_time_hours timesteps i j HM Hij).
  - intros i Hi. unfold cc. rewrite diffusionThinSlab_nth by exact Hi.
    split; [apply thin_slab_sum_nonneg |].
    apply thin_slab_sum_le_1; try assumption.
    apply (sample_time_mono max_time_hours timesteps i i HM). lia.
  - intros Hn. unfold cc. rewrite diffusionThinSlab_nth by exact Hn.
    assert (Ht0 : (INR 0 * ((max_time_hours - 0) / INR (timesteps - 1)) + 0) * 3600 = 0)
      by (simpl; ring).
    rewrite Ht0, thin_slab_sum_at_0. split; [reflexivity |]. split.
    + intros HN.
      apply Rle_trans with (rsum slab_coeff 1).
      * simpl. unfold slab_coeff. simpl. right. field. apply PI_neq0.
      * apply rsum_mono_len; [intros k; left; apply slab_coeff_pos | lia].
    + intros n Hn2. apply slab_coeff_sum_lower, Hn2.
  - intros Hn eps Heps.
    set (c0 := Rpower 10 log10D * PI ^ 2 / (4 * (thickness / 2000000) ^ 2)).
    assert (Hc0 : 0 < c0).
    { unfold c0. pose proof (slab_rate_pos _ _ 0 HD HL) as H. simpl INR in H.
      replace (Rpower 10 log10D * PI ^ 2)
        with (Rpower 10 log10D * (2 * 0 + 1) ^ 2 * PI ^ 2) by ring.
      exact H. }
    exists (/ (c0 * 3600 * eps)).
    intros M HMT.
    assert (Hpos : 0 < / (c0 * 3600 * eps)).
    { apply Rinv_0_lt_compat.
      apply Rmult_lt_0_compat; [apply Rmult_lt_0_compat |]; lra. }
    rewrite diffusionThinSlab_nth by lia.
    rewrite sample_time_last by exact Hn.
    eapply Rle_lt_trans.
    { apply thin_slab_sum_decay; try assumption. lra. }
    fold c0.
    assert (Hx : 0 < c0 * (M * 3600)) by (apply Rmult_lt_0_compat; lra).
    eapply Rlt_le_trans; [apply exp_neg_le_inv, Hx |].
    rewrite <- (Rinv_inv eps).
    apply Rinv_le_contravar; [apply Rinv_0_lt_compat, Heps |].
    assert (Heq : / eps = c0 * (/ (c0 * 3600 * eps) * 3600)) by (field; lra).
    rewrite Heq. apply Rmult_le_compat_l; [lra |].
    apply Rmult_le_compat_r; lra.
Qed.

Lemma diffusionThinSlab_decreasing_bounded_witness :
  let cc := snd (diffusionThinSlab (-12) 1000 2000 200 300) in
  List.length cc = 300%nat
  /\ (forall i j, (i <= j < 300)%nat -> nth j cc 0 <= nth i cc 0)
  /\ (forall i, (i < 300)%nat -> 0 <= nth i cc 0 <= 1)
  /\ 1 - / 2 ^ 8 <= nth 0 cc 0.
Proof.
  intros cc.
  destruct (diffusionThinSlab_decreasing_bounded (-12) 1000 2000 200 300)
    as (H1 & H2 & H3 & H4 & _).
  - lra.
  - lra.
  - split; [exact H1 |]. split; [exact H2 |]. split; [exact H3 |].
    destruct (H4 ltac:(lia)) as (_ & _ & H5).
    apply (H5 7%nat). simpl. lia.
Defined.

(** C3, the claim as stated fails: with the default grid the second
    value is strictly below the first, so the array is not
    non-decreasing. *)
Lemma diffusionThinSlab_not_nondecreasing :
  let cc := snd (diffusionThinSlab (-12) 1000 2000 200 300) in
  ~ (forall i j, (i <= j < 300)%nat -> nth i cc 0 <= nth j cc 0).
Proof.
  intros cc H.
  specialize (H 0%nat 1%nat ltac:(lia)). unfold cc in H.
  rewrite !diffusionThinSlab_nth in H by lia.
  assert (Hlt : thin_slab_sum (Rpower 10 (-12)) (1000 / 2000000) 200
                  ((INR 1 * ((2000 - 0) / INR (300 - 1)) + 0) * 3600)
                < thin_slab_sum (Rpower 10 (-12)) (1000 / 2000000) 200
                    ((INR 0 * ((2000 - 0) / INR (300 - 1)) + 0) * 3600)).
  { apply thin_slab_sum_decreasing.
    - apply Rpower_10_pos.
    - lra.
    - lia.
    - assert (Hn : 0 < INR (300 - 1)) by (apply lt_0_INR; lia).
      assert (0 < (2000 - 0) / INR (300 - 1)) by (apply Rdiv_lt_0_compat; lra).
      simpl INR at 1 3. nra. }
  lra.
Qed.

(** ** The 1D model *)

Lemma to_concentration_length (g : bool) (s m : R) (l : list R) :
  List.length (to_concentration g s m l) = List.length l.
Proof.
  unfold to_concentration. destruct g; now rewrite ?length_map.
Qed.

Lemma data_positions_length (dx : list R) (center : bool) (a : R) :
  List.length (data_positions dx center a) = List.length dx.
Proof. unfold data_positions. destruct center; now rewrite ?length_map. Qed.

Lemma infsum_loop_returns (D t twoA : R) (x : list R) (ns : list nat)
    (xsum : list R) :
  twoA <> 0 -> List.length xsum = List.length x ->
  exists u, infsum_loop D t twoA x ns xsum = ret u
            /\ List.length u = List.length x.
Proof.
  intros HA. revert xsum.
  induction ns as [| n ns IH]; intros xsum Hlen.
  - exists xsum. split; [reflexivity | exact Hlen].
  - cbn [infsum_loop]. unfold pydiv.
    destruct (Req_dec_T (twoA ^ 2) 0) as [H0 | _].
    + exfalso. pose proof (pow2_pos twoA HA). lra.
    + rewrite bind_ret_l. apply IH.
      rewrite zip_with_length; now rewrite !length_map.
Qed.

Lemma infsum_profile_returns (D t twoA : R) (infinity : nat) (x : list R) :
  twoA <> 0 ->
  exists u, infsum_profile D t twoA infinity x = ret u
            /\ List.length u = List.length x.
Proof.
  intros HA. unfold infsum_profile.
  destruct (infsum_loop_returns D t twoA x (seq 0 infinity) (map (fun _ => 0) x) HA)
    as (u & Hu & Hlen); [apply length_map |].
  rewrite Hu, bind_ret_l. eexists. split; [reflexivity |].
  now rewrite length_map.
Qed.

(** With a zero length the first pass of the loop divides by zero. *)
Lemma infsum_profile_zero_length (D t : R) (infinity : nat) (x : list R) :
  (0 < infinity)%nat ->
  infsum_profile D t 0 infinity x = raise ZeroDivisionError.
Proof.
  intros Hn. destruct infinity as [| n]; [lia |].
  unfold infsum_profile. cbn [seq infsum_loop]. unfold pydiv.
  destruct (Req_dec_T (0 ^ 2) 0) as [_ | H]; [reflexivity |].
  exfalso. apply H. simpl. ring.
Qed.

Lemma erf_profile_length (D t a : R) (x : list R) :
  List.length (erf_profile D t a x) = List.length x.
Proof. unfold erf_profile. apply length_map. Qed.

Lemma unit_profile_valid (method : string) (D t a twoA : R) (infinity : nat)
    (x : list R) :
  method = "erf" \/ (method = "infsum" /\ twoA <> 0) ->
  exists u, unit_profile method D t a twoA infinity x = ret (Some u)
            /\ List.length u = List.length x.
Proof.
  intros [-> | [-> HA]]; unfold unit_profile; simpl.
  - eexists. split; [reflexivity | apply erf_profile_length].
  - destruct (infsum_profile_returns D t twoA infinity x HA) as (u & Hu & Hlen).
    exists u. rewrite Hu, bind_ret_l. split; [reflexivity | exact Hlen].
Qed.

Lemma model1D_length (microns t log10D init fin : R) (points : nat) :
  List.length (model1D microns t log10D init fin points) = points.
Proof.
  unfold model1D.
  now rewrite to_concentration_length, erf_profile_length, linspace_length.
Qed.

(** Without data and with a valid method the body returns the profile on
    the generated positions. *)
Lemma diffusion1D_body_profile (microns t log10D init fin : R) (method : string)
    (center : bool) (infinity points : nat) (u : list R) :
  0 <= t ->
  unit_profile method (Rpower 10 log10D) t (microns / 1000000 / 2)
    (microns / 1000000) infinity
    (linspace (- (microns / 1000000 / 2)) (microns / 1000000 / 2) points)
  = ret (Some u) ->
  diffusion1D_body microns t log10D init fin None None method center infinity points =
  ret (R1_Profile
         (map (fun xi => xi * 1000000)
              (linspace (- (microns / 1000000 / 2)) (microns / 1000000 / 2) points))
         (to_concentration (if Rgt_dec init fin then true else false)
            (if Rgt_dec init fin then init else fin)
            (if Rgt_dec init fin then fin else init) u)).
Proof.
  intros Ht Hu. unfold diffusion1D_body.
  destruct (Rlt_dec t 0) as [Hneg | _]; [lra |].
  rewrite bind_ret_l. cbv zeta. rewrite Hu, bind_ret_l.
  destruct (Rgt_dec init fin); reflexivity.
Qed.

(** With data of different lengths the body prints the two lengths and
    goes on exactly as without data. *)
Lemma diffusion1D_body_mismatch (microns t log10D init fin : R) (dx dy : list R)
    (method : string) (center : bool) (infinity points : nat) :
  0 <= t -> List.length dx <> List.length dy ->
  diffusion1D_body microns t log10D init fin (Some dx) (Some dy) method center
    infinity points =
  ([Print [PStr "x and y data must be the same length"];
    Print [PStr "x"; PNat (List.length dx)];
    Print [PStr "y"; PNat (List.length dy)]]
   ++ output (diffusion1D_body microns t log10D init fin None None method center
                infinity points),
   result (diffusion1D_body microns t log10D init fin None None method center
             infinity points))%list.
Proof.
  intros Ht Hl. unfold diffusion1D_body.
  destruct (Rlt_dec t 0) as [Hneg | _]; [lra |].
  apply Nat.eqb_neq in Hl. rewrite Hl, bind_ret_l.
  cbv zeta.
  match goal with |- bind ?m ?k = _ =>
    change m with ([Print [PStr "x and y data must be the same length"];
                    Print [PStr "x"; PNat (List.length dx)];
                    Print [PStr "y"; PNat (List.length dy)]],
                   @Returned bool false)
  end.
  rewrite bind_returned. reflexivity.
Qed.

(** With data of equal lengths the body returns the residuals at the
    data positions. *)
Lemma diffusion1D_body_residual (microns t log10D init fin : R) (dx dy : list R)
    (method : string) (center : bool) (infinity points : nat) (u : list R) :
  0 <= t -> List.length dx = List.length dy ->
  unit_profile method (Rpower 10 log10D) t (microns / 1000000 / 2)
    (microns / 1000000) infinity
    (data_positions dx center (microns / 1000000 / 2)) = ret (Some u) ->
  diffusion1D_body microns t log10D init fin (Some dx) (Some dy) method center
    infinity points =
  ret (R1_Residual
         (zip_with Rminus
            (to_concentration (if Rgt_dec init fin then true else false)
               (if Rgt_dec init fin then init else fin)
               (if Rgt_dec init fin then fin else init) u) dy)).
Proof.
  intros Ht Hl Hu. unfold diffusion1D_body.
  destruct (Rlt_dec t 0) as [Hneg | _]; [lra |].
  apply Nat.eqb_eq in Hl. rewrite Hl, bind_ret_l. cbv zeta. rewrite Hu, bind_ret_l.
  destruct (Rgt_dec init fin); reflexivity.
Qed.

Lemma diffusion1D_params_model (params : Parameters)
    (microns t log10D init fin : R) (center : bool) (infinity points : nat) :
  values1D params microns t log10D init fin -> 0 <= t ->
  diffusion1D_params params None None "erf" center infinity points =
  ret (R1_Profile
         (map (fun xi => xi * 1000000)
              (linspace (- (microns / 1000000 / 2)) (microns / 1000000 / 2) points))
         (model1D microns t log10D init fin points)).
Proof.
  intros Hv Ht.
  rewrite (diffusion1D_params_reads _ _ _ _ _ _ _ _ _ _ _ _ Hv).
  apply diffusion1D_body_profile; [exact Ht | reflexivity].
Qed.

(** Negative time: the 1D function prints and returns nothing. *)
Lemma diffusion1D_params_negative_time (params : Parameters)
    (microns t log10D init fin : R) (dx dy : option (list R)) (method : string)
    (center : bool) (infinity points : nat) :
  values1D params microns t log10D init fin -> t < 0 ->
  diffusion1D_params params dx dy method center infinity points =
  ([Print [PStr "no negative time"]], Returned R1_None).
Proof.
  intros Hv Ht.
  rewrite (diffusion1D_params_reads _ _ _ _ _ _ _ _ _ _ _ _ Hv).
  unfold diffusion1D_body. destruct (Rlt_dec t 0); [reflexivity | contradiction].
Qed.

(** An unknown method keyword: the 1D function prints and returns [False]. *)
Lemma diffusion1D_params_unknown_method (params : Parameters)
    (microns t log10D init fin : R) (method : string)
    (center : bool) (infinity points : nat) :
  values1D params microns t log10D init fin -> 0 <= t ->
  method <> "erf" -> method <> "infsum" ->
  result (diffusion1D_params params None None method center infinity points)
  = Returned R1_False.
Proof.
  intros Hv Ht He Hi.
  rewrite (diffusion1D_params_reads _ _ _ _ _ _ _ _ _ _ _ _ Hv).
  unfold diffusion1D_body. destruct (Rlt_dec t 0); [lra |].
  rewrite bind_ret_l. cbv zeta. unfold unit_profile.
  apply String.eqb_neq in He, Hi. rewrite He, Hi. reflexivity.
Qed.

(** C1: with [initial_value > final_value], a positive time, the 'erf'
    method and no data, [diffusion1D_params] returns the generated
    positions and, at each of them,
    [(erf((a+x)/(2√(Dt))) + erf((a−x)/(2√(Dt))) − 1) · (initial − final) + final],
    with [a] half the length in meters and [D = 10^log10D].  At time
    zero the divisor [2√(Dt)] of the formula is zero, and the code's
    array division gives the initial value inside the slab and NaN at
    its two ends. *)
Theorem diffusion1D_erf_model (params : Parameters)
    (microns t log10D init fin : R) (center : bool) (infinity points : nat) :
  values1D params microns t log10D init fin ->
  init > fin -> 0 < t ->
  let a := microns / 1000000 / 2 in
  let D := Rpower 10 log10D in
  let x := linspace (- a) a points in
  diffusion1D_params params None None "erf" center infinity points =
  ret (R1_Profile
         (map (fun xi => xi * 1000000) x)
         (map (fun xi =>
                 (erf ((a + xi) / (2 * sqrt (D * t)))
                  + erf ((a - xi) / (2 * sqrt (D * t))) - 1) * (init - fin) + fin)
              x)).
Proof.
  intros Hv Hgt Hpos a D x.
  assert (Ht : 0 <= t) by lra.
  rewrite (diffusion1D_params_reads _ _ _ _ _ _ _ _ _ _ _ _ Hv).
  rewrite (diffusion1D_body_profile microns t log10D init fin "erf" center
             infinity points
             (erf_profile (Rpower 10 log10D) t (microns / 1000000 / 2)
                (linspace (- (microns / 1000000 / 2)) (microns / 1000000 / 2) points))
             Ht eq_refl).
  destruct (Rgt_dec init fin) as [_ | Hn]; [| contradiction].
  unfold to_concentration, erf_profile. rewrite map_map. reflexivity.
Qed.

Lemma diffusion1D_erf_model_witness :
  diffusion1D_params
    (params_setup1D 200 (-13) 3600 1 0 (FBool true) (FBool false) (FBool false))
    None None "erf" true 100 50 =
  ret (R1_Profile
         (map (fun xi => xi * 1000000)
              (linspace (- (200 / 1000000 / 2)) (200 / 1000000 / 2) 50))
         (map (fun xi =>
                 (erf ((200 / 1000000 / 2 + xi) / (2 * sqrt (Rpower 10 (-13) * 3600)))
                  + erf ((200 / 1000000 / 2 - xi) / (2 * sqrt (Rpower 10 (-13) * 3600)))
                  - 1) * (1 - 0) + 0)
              (linspace (- (200 / 1000000 / 2)) (200 / 1000000 / 2) 50))).
Proof.
  apply (diffusion1D_erf_model
           (params_setup1D 200 (-13) 3600 1 0 (FBool true) (FBool false) (FBool false))
           200 3600 (-13) 1 0 true 100 50).
  - apply params_setup1D_values.
  - lra.
  - lra.
Defined.

(** C4 (as amended): with both data arrays supplied, non-negative time
    and a valid method (the infinite sum needs a non-zero length), equal
    lengths give the elementwise residual [model − data_y] at the data
    positions; different lengths make the call print the two lengths and
    then return what the call without data returns, the pair of
    generated positions and model. *)
Theorem diffusion1D_data_lengths (params : Parameters)
    (microns t log10D init fin : R) (dx dy : list R) (method : string)
    (center : bool) (infinity points : nat) :
  values1D params microns t log10D init fin ->
  0 <= t ->
  method = "erf" \/ (method = "infsum" /\ microns <> 0) ->
  let a := microns / 1000000 / 2 in
  let call :=
    diffusion1D_params params (Some dx) (Some dy) method center infinity points in
  (List.length dx = List.length dy ->
   exists u model,
     unit_profile method (Rpower 10 log10D) t a (microns / 1000000) infinity
       (data_positions dx center a) = ret (Some u)
     /\ model = to_concentration (if Rgt_dec init fin then true else false)
                  (if Rgt_dec init fin then init else fin)
                  (if Rgt_dec init fin then fin else init) u
     /\ call = ret (R1_Residual (zip_with Rminus model dy))
     /\ List.length (zip_with Rminus model dy) = List.length dy
     /\ forall i, (i < List.length dy)%nat ->
          nth i (zip_with Rminus model dy) 0 = nth i model 0 - nth i dy 0)
  /\
  (List.length dx <> List.length dy ->
   output call = [Print [PStr "x and y data must be the same length"];
                  Print [PStr "x"; PNat (List.length dx)];
                  Print [PStr "y"; PNat (List.length dy)]]
   /\ result call =
      result (diffusion1D_params params None None method center infinity points)
   /\ exists x model,
        result call = Returned (R1_Profile x model)
        /\ List.length x = points /\ List.length model = points).
Proof.
  intros Hv Ht Hm a call. subst call.
  assert (Hm' : method = "erf" \/ (method = "infsum" /\ microns / 1000000 <> 0)).
  { destruct Hm as [Hm | [Hm HL]]; [left; exact Hm | right; split; [exact Hm | lra]]. }
  rewrite !(diffusion1D_params_reads _ _ _ _ _ _ _ _ _ _ _ _ Hv).
  split.
  - intros Hl.
    destruct (unit_profile_valid method (Rpower 10 log10D) t a (microns / 1000000)
                infinity (data_positions dx center a) Hm') as (u & Hu & Hlen).
    exists u. eexists. split; [exact Hu |]. split; [reflexivity |].
    assert (Hml : List.length
                    (to_concentration (if Rgt_dec init fin then true else false)
                       (if Rgt_dec init fin then init else fin)
                       (if Rgt_dec init fin then fin else init) u)
                  = List.length dy).
    { now rewrite to_concentration_length, Hlen, data_positions_length. }
    split; [| split].
    + apply diffusion1D_body_residual; assumption.
    + apply zip_with_length, Hml.
    + intros i Hi. apply zip_with_nth; assumption.
  - intros Hl.
    rewrite (diffusion1D_body_mismatch _ _ _ _ _ _ _ _ _ _ _ Ht Hl).
    destruct (unit_profile_valid method (Rpower 10 log10D) t a (microns / 1000000)
                infinity (linspace (- a) a points) Hm') as (u & Hu & Hlen).
    rewrite (diffusion1D_body_profile _ _ _ _ _ _ _ _ _ _ Ht Hu).
    split; [reflexivity |]. split; [reflexivity |].
    do 2 eexists. split; [reflexivity |]. split.
    + now rewrite length_map, linspace_length.
    + now rewrite to_concentration_length, Hlen, linspace_length.
Qed.

Lemma diffusion1D_data_lengths_witness :
  let params :=
    params_setup1D 200 (-13) 3600 1 0 (FBool true) (FBool false) (FBool false) in
  (exists model,
     diffusion1D_params params (Some [0; 100; 200]) (Some [0; 1; 0]) "erf" true 100 50
     = ret (R1_Residual (zip_with Rminus model [0; 1; 0])))
  /\ result (diffusion1D_params params (Some [0; 100]) (Some [1]) "erf" true 100 50)
     = result (diffusion1D_params params None None "erf" true 100 50).
Proof.
  intros params.
  pose proof (diffusion1D_data_lengths params 200 3600 (-13) 1 0) as H.
  split.
  - destruct (H [0; 100; 200] [0; 1; 0] "erf" true 100%nat 50%nat) as [H1 _].
    + apply params_setup1D_values.
    + lra.
    + left; reflexivity.
    + destruct (H1 eq_refl) as (u & model & _ & _ & Hcall & _).
      exists model. exact Hcall.
  - destruct (H [0; 100] [1] "erf" true 100%nat 50%nat) as [_ H2].
    + apply params_setup1D_values.
    + lra.
    + left; reflexivity.
    + apply H2. simpl. lia.
Defined.

(** C4, the claim as stated fails: with two positions and one value the
    call does not abort, it returns a profile. *)
Lemma diffusion1D_mismatch_returns_profile :
  ~ no_result1D
      (result
         (diffusion1D_params
            (params_setup1D 200 (-13) 3600 1 0 (FBool true) (FBool false) (FBool false))
            (Some [0; 100]) (Some [1]) "erf" true 100 50)).
Proof.
  rewrite (diffusion1D_params_reads _ _ _ _ _ _ _ _ _ _ _ _
             (params_setup1D_values 200 (-13) 3600 1 0 _ _ _)).
  rewrite diffusion1D_body_mismatch by (simpl; lra || lia).
  erewrite diffusion1D_body_profile by (lra || reflexivity).
  unfold no_result1D, result, ret. simpl.
  intros [H | [H | [e H]]]; discriminate H.
Qed.

(** ** Direction symmetry *)

Lemma to_concentration_out_in (u : list R) :
  Forall2 (fun yo yi => yo + yi = 1)
    (to_concentration true 1 0 u) (to_concentration false 1 0 u).
Proof.
  unfold to_concentration. rewrite map_map.
  induction u as [| m u IH]; simpl; constructor; [ring | exact IH].
Qed.

(** C6: for the same length, diffusivity and positive time, with the
    'erf' method or the 'infsum' method on a non-zero length, the profile
    for (initial=1, final=0) and the profile for (initial=0, final=1) are
    returned on the same [points] positions, each holds one value for
    every position, and the two values sum to 1 at every position. *)
Theorem diffusion1D_direction_symmetry (params_out params_in : Parameters)
    (microns t log10D : R) (method : string) (center : bool)
    (infinity points : nat) :
  values1D params_out microns t log10D 1 0 ->
  values1D params_in microns t log10D 0 1 ->
  0 < t ->
  method = "erf" \/ (method = "infsum" /\ microns <> 0) ->
  exists x model_out model_in,
    diffusion1D_params params_out None None method center infinity points
    = ret (R1_Profile x model_out)
    /\ diffusion1D_params params_in None None method center infinity points
       = ret (R1_Profile x model_in)
    /\ List.length x = points
    /\ List.length model_out = points
    /\ List.length model_in = points
    /\ Forall2 (fun yo yi => yo + yi = 1) model_out model_in.
Proof.
  intros Hout Hin Hpos Hm.
  assert (Ht : 0 <= t) by lra.
  assert (Hm' : method = "erf" \/ (method = "infsum" /\ microns / 1000000 <> 0)).
  { destruct Hm as [Hm | [Hm HL]]; [left; exact Hm | right; split; [exact Hm | lra]]. }
  rewrite (diffusion1D_params_reads _ _ _ _ _ _ _ _ _ _ _ _ Hout).
  rewrite (diffusion1D_params_reads _ _ _ _ _ _ _ _ _ _ _ _ Hin).
  destruct (unit_profile_valid method (Rpower 10 log10D) t (microns / 1000000 / 2)
              (microns / 1000000) infinity
              (linspace (- (microns / 1000000 / 2)) (microns / 1000000 / 2) points) Hm')
    as (u & Hu & Hlen).
  rewrite !(diffusion1D_body_profile _ _ _ _ _ _ _ _ _ _ Ht Hu).
  assert (Hx : List.length
                 (linspace (- (microns / 1000000 / 2)) (microns / 1000000 / 2) points)
               = points) by apply linspace_length.
  do 3 eexists. split; [reflexivity |]. split; [reflexivity |].
  repeat split.
  - now rewrite length_map.
  - now rewrite to_concentration_length, Hlen.
  - now rewrite to_concentration_length, Hlen.
  - destruct (Rgt_dec 1 0) as [_ | H]; [| lra].
    destruct (Rgt_dec 0 1) as [H | _]; [lra |].
    apply to_concentration_out_in.
Qed.

Lemma diffusion1D_direction_symmetry_witness :
  exists x model_out model_in,
    diffusion1D_params
      (params_setup1D 200 (-13) 3600 1 0 (FBool true) (FBool false) (FBool false))
      None None "erf" true 100 50
    = ret (R1_Profile x model_out)
    /\ diffusion1D_params
         (params_setup1D 200 (-13) 3600 0 1 (FBool true) (FBool false) (FBool false))
         None None "erf" true 100 50
       = ret (R1_Profile x model_in)
    /\ List.length x = 50%nat
    /\ List.length model_out = 50%nat
    /\ List.length model_in = 50%nat
    /\ Forall2 (fun yo yi => yo + yi = 1) model_out model_in.
Proof.
  apply (diffusion1D_direction_symmetry _ _ 200 3600 (-13) "erf" true 100 50).
  - apply params_setup1D_values.
  - apply params_setup1D_values.
  - lra.
  - left; reflexivity.
Defined.

(** ** Parameter setup in 3D *)

(** C7 (as amended): with three diffusivities and three vary flags,
    [params_setup3D] returns a parameter set in which [log10Dx] is
    unlinked; when [isotropic] is true, [log10Dy] and [log10Dz] are linked
    by the expression ['log10Dx'] and read as [log10Dx]; when [isotropic]
    is false and [slowb] is true, [log10Dy] is linked by ['log10Dx - 1.']
    and reads as [log10Dx − 1], and [log10Dz] is linked to [log10Dx]; when
    neither flag is set the three carry their own values and vary flags
    with no expression. *)
Theorem params_setup3D_linkage (microns3 : list R) (Dx Dy Dz t init fin : R)
    (isotropic slowb : bool) (vx vy vz vinit vfin : pyflag) :
  exists params p,
    params_setup3D microns3 [Dx; Dy; Dz] t init fin isotropic slowb
      [vx; vy; vz] vinit vfin = ret params
    /\ valuesdict params = ret p
    /\ params_get params "log10Dx" = ret (mkParam (VNum Dx) vx None None None)
    /\ getitem p "log10Dx" = ret (VNum Dx)
    /\ (isotropic = true ->
        params_get params "log10Dy"
        = ret (mkParam (VNum Dy) vy None None (Some "log10Dx"))
        /\ params_get params "log10Dz"
           = ret (mkParam (VNum Dz) vz None None (Some "log10Dx"))
        /\ getitem p "log10Dy" = ret (VNum Dx)
        /\ getitem p "log10Dz" = ret (VNum Dx))
    /\ (isotropic = false -> slowb = true ->
        params_get params "log10Dy"
        = ret (mkParam (VNum Dy) vy None None (Some "log10Dx - 1."))
        /\ params_get params "log10Dz"
           = ret (mkParam (VNum Dz) vz None None (Some "log10Dx"))
        /\ getitem p "log10Dy" = ret (VNum (Dx - 1))
        /\ getitem p "log10Dz" = ret (VNum Dx))
    /\ (isotropic = false -> slowb = false ->
        params_get params "log10Dy" = ret (mkParam (VNum Dy) vy None None None)
        /\ params_get params "log10Dz" = ret (mkParam (VNum Dz) vz None None None)
        /\ getitem p "log10Dy" = ret (VNum Dy)
        /\ getitem p "log10Dz" = ret (VNum Dz)).
Proof.
  destruct isotropic, slowb; do 2 eexists;
    (split; [reflexivity |]); (split; [reflexivity |]);
    (split; [reflexivity |]); (split; [reflexivity |]);
    repeat split; intros; try discriminate; reflexivity.
Qed.

(** C7, the claim as stated fails: with both flags set the isotropic
    branch is taken, and [log10Dy] is linked to [log10Dx], not to
    [log10Dx − 1]. *)
Lemma params_setup3D_both_flags :
  exists params p,
    params_setup3D [100; 200; 300] [-12; -13; -14] 3600 1 0 true true
      [FBool true; FBool true; FBool true] (FBool false) (FBool false) = ret params
    /\ params_get params "log10Dy"
       = ret (mkParam (VNum (-13)) (FBool true) None None (Some "log10Dx"))
    /\ valuesdict params = ret p
    /\ getitem p "log10Dy" = ret (VNum (-12))
    /\ getitem p "log10Dy" <> ret (VNum (-12 - 1)).
Proof.
  do 2 eexists. repeat split; try reflexivity.
  simpl. intros H. injection H as H. lra.
Qed.

(** ** The 3D model without path integration *)

Lemma profile1D_along_model (params : Parameters) (L3 : pyval) (t : R)
    (log10D3 : list pyval) (vary_D : list pyflag) (init fin : R)
    (vary_init vary_fin : pyflag) (points k : nat)
    (Lk Dk : R) (prm_t : Param) (vDk : pyflag) :
  index_val L3 k = ret Lk ->
  params_get params "time_seconds" = ret prm_t ->
  index log10D3 k = ret (VNum Dk) ->
  index vary_D k = ret vDk ->
  0 <= t ->
  profile1D_along params L3 (VNum t) log10D3 vary_D init fin vary_init vary_fin
    points k =
  ret [(map (fun xi => xi * 1000000)
            (linspace (- (Lk / 1000000 / 2)) (Lk / 1000000 / 2) points),
        model1D Lk t Dk init fin points)].
Proof.
  intros HL Ht HD Hv Htime. unfold profile1D_along.
  rewrite HL, bind_ret_l, Ht, bind_ret_l, HD, bind_ret_l, Hv, bind_ret_l.
  cbv zeta.
  erewrite diffusion1D_params_model;
    [| eexists; repeat split; reflexivity | exact Htime].
  rewrite bind_ret_l. reflexivity.
Qed.

Lemma mid_lt (points : nat) : (1 <= points)%nat -> Nat.ltb (points / 2) points = true.
Proof. intros H. apply Nat.ltb_lt, Nat.div_lt; lia. Qed.

Lemma diffusion3Dnpi_params_model (params : Parameters)
    (La Lb Lc t init fin Dx Dy Dz : R)
    (method : string) (centered : bool) (infinity points : nat) :
  values3D params [La; Lb; Lc] t init fin Dx Dy Dz ->
  0 <= t -> (1 <= points)%nat ->
  let scale := if Rgt_dec init 1 then init else 1 in
  let init1 := if Rgt_dec init 1 then 1 else init in
  let going_out := if Rlt_dec init1 fin then false else true in
  let minimum_value := if Rgt_dec init1 fin then fin else init1 in
  let init' := if going_out then init1 else fin in
  let fin' := if going_out then fin else init1 in
  let v0 :=
    map3 (fun u => u * scale)
      (outer_product points (model1D La t Dx init' fin' points)
         (model1D Lb t Dy init' fin' points) (model1D Lc t Dz init' fin' points)) in
  let v :=
    if going_out then v0
    else map3 (fun u => u + 1 * minimum_value) (map3 (fun u => 1 - u) v0) in
  let mid := Nat.div points 2 in
  let positions L :=
    if centered then linspace (- (L / 2)) (L / 2) points
    else linspace 0 (L / 2 * 2) points in
  diffusion3Dnpi_params params None None method centered infinity points =
  ret (NPI_Model v
         [map (fun plane => nth mid (nth mid plane []) 0) v;
          map (fun r => nth mid r 0) (nth mid v []);
          nth mid (nth mid v []) []]
         [positions La; positions Lb; positions Lc]).
Proof.
  intros (p & Hp & HL & Ht & Hi & Hf & Hx & Hy & Hz) Htime Hpts.
  destruct (valuesdict_has_param _ _ _ _ Hp Ht) as (prm_t & Hgt).
  destruct (valuesdict_has_param _ _ _ _ Hp Hi) as (prm_i & Hgi).
  destruct (valuesdict_has_param _ _ _ _ Hp Hf) as (prm_f & Hgf).
  destruct (valuesdict_has_param _ _ _ _ Hp Hx) as (prm_x & Hgx).
  destruct (valuesdict_has_param _ _ _ _ Hp Hy) as (prm_y & Hgy).
  destruct (valuesdict_has_param _ _ _ _ Hp Hz) as (prm_z & Hgz).
  intros scale init1 going_out minimum_value init' fin' v0 v mid positions.
  unfold diffusion3Dnpi_params, fitting_by_shape.
  rewrite bind_ret_l.
  unfold getnum.
  rewrite Hp, bind_ret_l, HL, bind_ret_l, Ht, bind_ret_l, Hi.
  rewrite !bind_ret_l. cbn [as_num]. rewrite !bind_ret_l.
  rewrite Hgi, bind_ret_l, Hf, !bind_ret_l. cbn [as_num].
  rewrite !bind_ret_l, Hgf, bind_ret_l, Hx, bind_ret_l, Hy, bind_ret_l, Hz, bind_ret_l,
    Hgx, bind_ret_l, Hgy, bind_ret_l, Hgz, bind_ret_l.
  fold scale. fold init1. fold going_out. fold minimum_value. fold init'. fold fin'.
  cbv zeta.
  cbn [for_each].
  rewrite (profile1D_along_model params (VList [La; Lb; Lc]) t
             [VNum Dx; VNum Dy; VNum Dz] [vary prm_x; vary prm_y; vary prm_z]
             init' fin' (FList1 (vary prm_i)) (FList1 (vary prm_f)) points 0 La Dx
             prm_t (vary prm_x) eq_refl Hgt eq_refl eq_refl Htime).
  rewrite (profile1D_along_model params (VList [La; Lb; Lc]) t
             [VNum Dx; VNum Dy; VNum Dz] [vary prm_x; vary prm_y; vary prm_z]
             init' fin' (FList1 (vary prm_i)) (FList1 (vary prm_f)) points 1 Lb Dy
             prm_t (vary prm_y) eq_refl Hgt eq_refl eq_refl Htime).
  rewrite (profile1D_along_model params (VList [La; Lb; Lc]) t
             [VNum Dx; VNum Dy; VNum Dz] [vary prm_x; vary prm_y; vary prm_z]
             init' fin' (FList1 (vary prm_i)) (FList1 (vary prm_f)) points 2 Lc Dz
             prm_t (vary prm_z) eq_refl Hgt eq_refl eq_refl Htime).
  rewrite !bind_ret_l.
  cbn [app map snd nth].
  fold v0. fold v. fold mid.
  pose proof (mid_lt points Hpts) as Hmid. fold mid in Hmid.
  unfold column, row. rewrite Hmid.
  rewrite !bind_ret_l.
  unfold slice_positions_along.
  change (index_val (VList [La; Lb; Lc]) 0) with (ret La).
  change (index_val (VList [La; Lb; Lc]) 1) with (ret Lb).
  change (index_val (VList [La; Lb; Lc]) 2) with (ret Lc).
  rewrite !bind_ret_l. cbn [app].
  rewrite map_map. reflexivity.
Qed.

Lemma diffusion3Dnpi_params_returns (params : Parameters)
    (La Lb Lc t init fin Dx Dy Dz : R)
    (method : string) (centered : bool) (infinity points : nat) :
  values3D params [La; Lb; Lc] t init fin Dx Dy Dz ->
  0 <= t -> (1 <= points)%nat ->
  exists v s pos,
    diffusion3Dnpi_params params None None method centered infinity points =
    ret (NPI_Model v s pos).
Proof.
  intros Hv Ht Hp. do 3 eexists.
  apply (diffusion3Dnpi_params_model params La Lb Lc t init fin Dx Dy Dz);
    assumption.
Qed.

(** Negative time: the 3D function cannot unpack what the 1D function
    returns. *)
Lemma diffusion3Dnpi_params_negative_time (params : Parameters)
    (La Lb Lc t init fin Dx Dy Dz : R)
    (method : string) (centered : bool) (infinity points : nat) :
  values3D params [La; Lb; Lc] t init fin Dx Dy Dz -> t < 0 ->
  diffusion3Dnpi_params params None None method centered infinity points =
  ([Print [PStr "no negative time"]], Raised TypeError).
Proof.
  intros (p & Hp & HL & Ht & Hi & Hf & Hx & Hy & Hz) Hneg.
  destruct (valuesdict_has_param _ _ _ _ Hp Ht) as (prm_t & Hgt).
  destruct (valuesdict_has_param _ _ _ _ Hp Hi) as (prm_i & Hgi).
  destruct (valuesdict_has_param _ _ _ _ Hp Hf) as (prm_f & Hgf).
  destruct (valuesdict_has_param _ _ _ _ Hp Hx) as (prm_x & Hgx).
  destruct (valuesdict_has_param _ _ _ _ Hp Hy) as (prm_y & Hgy).
  destruct (valuesdict_has_param _ _ _ _ Hp Hz) as (prm_z & Hgz).
  unfold diffusion3Dnpi_params, fitting_by_shape.
  rewrite bind_ret_l.
  unfold getnum.
  rewrite Hp, bind_ret_l, HL, bind_ret_l, Ht, bind_ret_l, Hi.
  rewrite !bind_ret_l. cbn [as_num]. rewrite !bind_ret_l.
  rewrite Hgi, bind_ret_l, Hf, !bind_ret_l. cbn [as_num].
  rewrite !bind_ret_l, Hgf, bind_ret_l, Hx, bind_ret_l, Hy, bind_ret_l, Hz, bind_ret_l,
    Hgx, bind_ret_l, Hgy, bind_ret_l, Hgz, bind_ret_l.
  cbv zeta. cbn [for_each].
  unfold profile1D_along at 1.
  change (index_val (VList [La; Lb; Lc]) 0) with (ret La).
  rewrite bind_ret_l, Hgt, bind_ret_l.
  change (index [VNum Dx; VNum Dy; VNum Dz] 0) with (ret (VNum Dx)).
  change (index [vary prm_x; vary prm_y; vary prm_z] 0) with (ret (vary prm_x)).
  rewrite !bind_ret_l. cbv zeta.
  erewrite diffusion1D_params_negative_time;
    [| eexists; repeat split; reflexivity | exact Hneg].
  reflexivity.
Qed.

(** No grid point: the centerline index is out of bounds. *)
Lemma diffusion3Dnpi_params_no_points (params : Parameters)
    (La Lb Lc t init fin Dx Dy Dz : R)
    (method : string) (centered : bool) (infinity : nat) :
  values3D params [La; Lb; Lc] t init fin Dx Dy Dz -> 0 <= t ->
  diffusion3Dnpi_params params None None method centered infinity 0 =
  raise IndexError.
Proof.
  intros (p & Hp & HL & Ht & Hi & Hf & Hx & Hy & Hz) Htime.
  destruct (valuesdict_has_param _ _ _ _ Hp Ht) as (prm_t & Hgt).
  destruct (valuesdict_has_param _ _ _ _ Hp Hi) as (prm_i & Hgi).
  destruct (valuesdict_has_param _ _ _ _ Hp Hf) as (prm_f & Hgf).
  destruct (valuesdict_has_param _ _ _ _ Hp Hx) as (prm_x & Hgx).
  destruct (valuesdict_has_param _ _ _ _ Hp Hy) as (prm_y & Hgy).
  destruct (valuesdict_has_param _ _ _ _ Hp Hz) as (prm_z & Hgz).
  unfold diffusion3Dnpi_params, fitting_by_shape.
  rewrite bind_ret_l.
  unfold getnum.
  rewrite Hp, bind_ret_l, HL, bind_ret_l, Ht, bind_ret_l, Hi.
  rewrite !bind_ret_l. cbn [as_num]. rewrite !bind_ret_l.
  rewrite Hgi, bind_ret_l, Hf, !bind_ret_l. cbn [as_num].
  rewrite !bind_ret_l, Hgf, bind_ret_l, Hx, bind_ret_l, Hy, bind_ret_l, Hz, bind_ret_l,
    Hgx, bind_ret_l, Hgy, bind_ret_l, Hgz, bind_ret_l.
  cbv zeta. cbn [for_each].
  erewrite !profile1D_along_model by (try reflexivity; eassumption).
  rewrite !bind_ret_l. reflexivity.
Qed.

Section OuterProduct.

Variables (n : nat) (ya yb yc : list R) (g : R -> R).

Lemma outer_slice_a (mid : nat) :
  (mid < n)%nat ->
  map (fun plane => nth mid (nth mid plane []) 0)
      (map3 g (outer_product n ya yb yc)) =
  map (fun d => g (nth d ya 0 * nth mid yb 0 * nth mid yc 0)) (seq 0 n).
Proof.
  intros Hm. unfold map3, outer_product. rewrite !map_map.
  apply map_ext. intros d.
  rewrite map_map, nth_map_seq by exact Hm.
  rewrite map_map, nth_map_seq by exact Hm. reflexivity.
Qed.

Lemma outer_slice_b (mid : nat) :
  (mid < n)%nat ->
  map (fun r => nth mid r 0) (nth mid (map3 g (outer_product n ya yb yc)) []) =
  map (fun e => g (nth mid ya 0 * nth e yb 0 * nth mid yc 0)) (seq 0 n).
Proof.
  intros Hm. unfold map3, outer_product. rewrite map_map.
  rewrite nth_map_seq by exact Hm. rewrite !map_map.
  apply map_ext. intros e.
  rewrite map_map, nth_map_seq by exact Hm. reflexivity.
Qed.

Lemma outer_slice_c (mid : nat) :
  (mid < n)%nat ->
  nth mid (nth mid (map3 g (outer_product n ya yb yc)) []) [] =
  map (fun f => g (nth mid ya 0 * nth mid yb 0 * nth f yc 0)) (seq 0 n).
Proof.
  intros Hm. unfold map3, outer_product. rewrite map_map.
  rewrite nth_map_seq by exact Hm. rewrite map_map.
  rewrite nth_map_seq by exact Hm. rewrite map_map. reflexivity.
Qed.

End OuterProduct.

(** With equal lengths and diffusivities, initial 1 and final 0, the
    three slices are one list: the 1D profile times the square of its
    middle value. *)
Lemma diffusion3Dnpi_isotropic_slices (params : Parameters) (L t D : R)
    (method : string) (centered : bool) (infinity points : nat) :
  values3D params [L; L; L] t 1 0 D D D ->
  0 <= t -> (1 <= points)%nat ->
  let y := model1D L t D 1 0 points in
  let s := map (fun u => u * nth (points / 2) y 0 ^ 2) y in
  exists v pos,
    diffusion3Dnpi_params params None None method centered infinity points =
    ret (NPI_Model v [s; s; s] pos).
Proof.
  intros Hv Ht Hp y s.
  pose proof (diffusion3Dnpi_params_model params L L L t 1 0 D D D method centered
                infinity points Hv Ht Hp) as H.
  cbv zeta in H.
  destruct (Rgt_dec 1 1) as [Hbad | _]; [lra |].
  destruct (Rlt_dec 1 0) as [Hbad | _]; [lra |].
  fold y in H.
  assert (Hmid : (points / 2 < points)%nat) by (apply Nat.div_lt; lia).
  rewrite outer_slice_a, outer_slice_b, outer_slice_c in H by exact Hmid.
  assert (Hlen : List.length y = points) by apply model1D_length.
  assert (Ha : map (fun d => nth d y 0 * nth (points / 2) y 0 * nth (points / 2) y 0 * 1)
                 (seq 0 points) = s).
  { unfold s. rewrite <- (map_seq_nth (fun u => u * nth (points / 2) y 0 ^ 2) y), Hlen.
    apply map_ext. intros d. ring. }
  assert (Hb : map (fun e => nth (points / 2) y 0 * nth e y 0 * nth (points / 2) y 0 * 1)
                 (seq 0 points) = s).
  { rewrite <- Ha. apply map_ext. intros d. ring. }
  assert (Hc : map (fun f => nth (points / 2) y 0 * nth (points / 2) y 0 * nth f y 0 * 1)
                 (seq 0 points) = s).
  { rewrite <- Ha. apply map_ext. intros d. ring. }
  rewrite Ha, Hb, Hc in H.
  do 2 eexists. exact H.
Qed.

(** ** Centerline slices and the 1D profile *)

(** C5 (as amended): with equal lengths and equal diffusivities, a
    positive time, initial 1 and final 0, the three centerline slices of
    [diffusion3Dnpi_params] are identical to each other, and each is the
    standalone 1D profile of [diffusion1D_params] multiplied pointwise by
    the square of that profile's value at the middle index. *)
Theorem diffusion3Dnpi_slices_scaled_profile (params params1D : Parameters)
    (L t D : R) (method : string) (centered center1D : bool)
    (infinity infinity1D points : nat) :
  values3D params [L; L; L] t 1 0 D D D ->
  values1D params1D L t D 1 0 ->
  0 < t -> (1 <= points)%nat ->
  exists x y v aslice bslice cslice pos,
    diffusion1D_params params1D None None "erf" center1D infinity1D points
    = ret (R1_Profile x y)
    /\ diffusion3Dnpi_params params None None method centered infinity points
       = ret (NPI_Model v [aslice; bslice; cslice] pos)
    /\ aslice = bslice /\ bslice = cslice
    /\ aslice = map (fun u => u * nth (points / 2) y 0 ^ 2) y.
Proof.
  intros H3 H1 Hpos Hp.
  assert (Ht : 0 <= t) by lra.
  destruct (diffusion3Dnpi_isotropic_slices params L t D method centered infinity
              points H3 Ht Hp) as (v & pos & Hnpi).
  do 7 eexists.
  split; [apply diffusion1D_params_model; eassumption |].
  split; [exact Hnpi |].
  repeat split; reflexivity.
Qed.

Lemma diffusion3Dnpi_slices_scaled_profile_witness :
  exists params x y v aslice bslice cslice pos,
    params_setup3D [2000; 2000; 2000] [-12; -12; -12] 3600 1 0 false false
      [FBool true; FBool true; FBool true] (FBool false) (FBool false) = ret params
    /\ diffusion1D_params
         (params_setup1D 2000 (-12) 3600 1 0 (FBool true) (FBool false) (FBool false))
         None None "erf" true 100 50
       = ret (R1_Profile x y)
    /\ diffusion3Dnpi_params params None None "erf" true 100 50
       = ret (NPI_Model v [aslice; bslice; cslice] pos)
    /\ aslice = bslice /\ bslice = cslice
    /\ aslice = map (fun u => u * nth (50 / 2) y 0 ^ 2) y.
Proof.
  destruct (params_setup3D_values 2000 2000 2000 (-12) (-12) (-12) 3600 1 0
              (FBool true) (FBool true) (FBool true) (FBool false) (FBool false))
    as (params & Hsetup & Hvalues).
  exists params.
  destruct (diffusion3Dnpi_slices_scaled_profile params
              (params_setup1D 2000 (-12) 3600 1 0 (FBool true) (FBool false) (FBool false))
              2000 3600 (-12) "erf" true true 100 100 50)
    as (x & y & v & sa & sb & sc & pos & H);
    [exact Hvalues | apply params_setup1D_values | lra | lia |].
  exists x, y, v, sa, sb, sc, pos. split; [exact Hsetup | exact H].
Defined.

Lemma model1D_out_nth (L t D : R) (points i : nat) :
  (i < points)%nat ->
  nth i (model1D L t D 1 0 points) 0 =
  (erf ((L / 1000000 / 2 + nth i (linspace (- (L / 1000000 / 2)) (L / 1000000 / 2) points) 0)
        / (2 * sqrt (Rpower 10 D * t)))
   + erf ((L / 1000000 / 2 - nth i (linspace (- (L / 1000000 / 2)) (L / 1000000 / 2) points) 0)
          / (2 * sqrt (Rpower 10 D * t))) - 1) * (1 - 0) + 0.
Proof.
  intros Hi. unfold model1D, to_concentration, erf_profile.
  destruct (Rgt_dec 1 0) as [_ | H]; [| lra].
  rewrite map_map.
  rewrite (nth_map_in _ _ _ 0) by (now rewrite linspace_length).
  reflexivity.
Qed.

(** The middle value of the profile used in the counterexample. *)
Lemma middle_value_range :
  -1 < nth 25 (model1D 100000 1 0 1 0 50) 0 < 0.
Proof.
  rewrite model1D_out_nth by lia.
  rewrite linspace_nth by lia.
  rewrite Rpower_O by lra. rewrite Rmult_1_r, sqrt_1.
  replace (INR 25) with 25 by (simpl; lra).
  replace (INR (50 - 1)) with 49 by (simpl; lra).
  match goal with |- _ < (erf ?a + erf ?b - 1) * _ + _ < _ =>
    assert (Ha : 0 < a <= 3 / 100) by (split; lra);
    assert (Hb : 0 < b <= 3 / 100) by (split; lra);
    pose proof (erf_pos a (proj1 Ha)); pose proof (erf_pos b (proj1 Hb));
    pose proof (erf_le_2x a ltac:(lra)); pose proof (erf_le_2x b ltac:(lra))
  end.
  split; lra.
Qed.

(** C5, the claim as stated fails: for a 0.1 m cube with log10 D = 0
    after one second the slice along a is not the 1D profile. *)
Lemma diffusion3Dnpi_slice_differs_from_profile :
  let params :=
    [("microns3", mkParam (VList [100000; 100000; 100000]) (FBool false) None None None);
     ("log10Dx", mkParam (VNum 0) (FBool true) None None None);
     ("time_seconds", mkParam (VNum 1) (FBool false) None None None);
     ("initial_unit_value", mkParam (VNum 1) (FBool false) None None None);
     ("final_unit_value", mkParam (VNum 0) (FBool false) None None None);
     ("log10Dy", mkParam (VNum 0) (FBool true) None None None);
     ("log10Dz", mkParam (VNum 0) (FBool true) None None None)] in
  params_setup3D [100000; 100000; 100000] [0; 0; 0] 1 1 0 false false
    [FBool true; FBool true; FBool true] (FBool false) (FBool false) = ret params
  /\ ~ (exists x y v aslice bslice cslice pos,
          diffusion1D_params
            (params_setup1D 100000 0 1 1 0 (FBool true) (FBool false) (FBool false))
            None None "erf" true 100 50
          = ret (R1_Profile x y)
          /\ diffusion3Dnpi_params params None None "erf" true 100 50
             = ret (NPI_Model v [aslice; bslice; cslice] pos)
          /\ aslice = y).
Proof.
  intros params. split; [reflexivity |].
  intros (x & y & v & sa & sb & sc & pos & H1 & H3 & Heq).
  rewrite (diffusion1D_params_model _ 100000 1 0 1 0) in H1;
    [| apply params_setup1D_values | lra].
  injection H1 as _ Hy.
  destruct (diffusion3Dnpi_isotropic_slices params 100000 1 0 "erf" true 100 50)
    as (v' & pos' & H3'); [eexists; repeat split; reflexivity | lra | lia |].
  rewrite H3' in H3. injection H3 as _ Hsa _ _ _.
  rewrite <- Hsa, <- Hy in Heq.
  apply (f_equal (fun l => nth 25 l 0)) in Heq.
  rewrite (nth_map_in _ _ _ 0) in Heq by (rewrite model1D_length; lia).
  change (50 / 2)%nat with 25%nat in Heq.
  pose proof middle_value_range as Hr.
  set (m := nth 25 (model1D 100000 1 0 1 0 50) 0) in *.
  nra.
Qed.

(** ** The whole-block model *)

Lemma fitting_by_shape_returns (dx dy : option (list (list R))) :
  exists b, fitting_by_shape dx dy = (output (fitting_by_shape dx dy), Returned b).
Proof.
  unfold fitting_by_shape.
  destruct dx as [x |], dy as [y |]; try (exists false; reflexivity).
  destruct (list_eq_dec Nat.eq_dec (np_shape x) (np_shape y)).
  - exists true. reflexivity.
  - exists false. reflexivity.
Qed.

Lemma plot_step_returns (show_plot : bool) :
  exists o, (if show_plot then plot "styles.plot_3panels" else ret tt) = (o, Returned tt).
Proof. destruct show_plot; eexists; reflexivity. Qed.

Ltac py_steps :=
  repeat (progress (rewrite ?bind_ret_l; cbn [String.eqb Ascii.eqb Bool.eqb])).

Lemma eqb_neq_false (s u : string) : s <> u -> String.eqb s u = false.
Proof. apply String.eqb_neq. Qed.

(** After the field is computed: the shape test, then the selection of
    the three profiles or the message about the first bad ray path. *)
Lemma diffusion3Dwb_params_after_field (params : Parameters)
    (La Lb Lc t init fin Dx Dy Dz : R) (method : string) (infinity points : nat) :
  values3D params [La; Lb; Lc] t init fin Dx Dy Dz ->
  0 <= t -> (1 <= points)%nat ->
  exists v : array3,
  forall (dx dy : option (list (list R))) (r0 r1 r2 : string) (show_plot : bool),
  exists fitting : bool,
    fitting_by_shape dx dy = (output (fitting_by_shape dx dy), Returned fitting)
    /\ let call :=
         diffusion3Dwb_params params dx dy (Some [r0; r1; r2]) method show_plot
           infinity points in
       let shown := output (fitting_by_shape dx dy) in
       (r0 <> "b" -> r0 <> "c" ->
        call = ((shown ++ [Print (raypath_message 0 "a" "b" "c")])%list,
                Returned WB_None))
       /\ (r0 = "b" \/ r0 = "c" -> r1 <> "a" -> r1 <> "c" ->
           call = ((shown ++ [Print (raypath_message 1 "b" "a" "c")])%list,
                   Returned WB_None))
       /\ (r0 = "b" \/ r0 = "c" -> r1 = "a" \/ r1 = "c" -> r2 <> "a" -> r2 <> "b" ->
           call = ((shown ++ [Print (raypath_message 2 "c" "a" "b")])%list,
                   Returned WB_None))
       /\ (r0 = "b" \/ r0 = "c" -> r1 = "a" \/ r1 = "c" -> r2 = "a" \/ r2 = "b" ->
           let wb_profiles :=
             [wb_select_a points v r0; wb_select_b points v r1;
              wb_select_c points v r2] in
           let wb_positions :=
             [linspace 0 (2 * (La / 2)) points; linspace 0 (2 * (Lb / 2)) points;
              linspace 0 (2 * (Lc / 2)) points] in
           let x_array := match dx with Some x => x | None => [] end in
           let y_array := match dy with Some y => y | None => [] end in
           call =
           bind (shown, Returned tt)
             (fun _ =>
                (if show_plot then plot "styles.plot_3panels" else ret tt) ;;;
                if fitting then
                  residuals <-
                    for_each [0; 1; 2]%nat
                      (fun k =>
                         xk <- index x_array k ;;
                         for_each (seq 0 (List.length xk))
                           (residual_at x_array y_array wb_positions wb_profiles k)) ;;
                  ret (WB_Residuals residuals)
                else ret (WB_Profiles wb_positions wb_profiles))).
Proof.
  intros Hv Ht Hp.
  destruct (diffusion3Dnpi_params_returns params La Lb Lc t init fin Dx Dy Dz
              method true 100 points Hv Ht Hp) as (v & s & pos & Hnpi).
  exists v. intros dx dy r0 r1 r2 show_plot.
  destruct (fitting_by_shape_returns dx dy) as (fitting & Hfit).
  destruct Hv as (p & Hvd & HL & _).
  exists fitting. split; [exact Hfit |].
  assert (Hmid : (points / 2 < points)%nat) by (apply Nat.div_lt; lia).
  intros call shown. unfold call, diffusion3Dwb_params.
  rewrite Hnpi, bind_ret_l. cbn [unpack_triple]. rewrite bind_ret_l.
  cbn [fst]. rewrite Hfit, bind_returned. fold shown.
  change (index [r0; r1; r2] 0) with (@ret string r0).
  change (index [r0; r1; r2] 1) with (@ret string r1).
  change (index [r0; r1; r2] 2) with (@ret string r2).
  rewrite bind_ret_l.
  rewrite !column_ok, !row_ok by exact Hmid.
  rewrite !bind_ret_l.
  split; [| split; [| split]].
  - intros H1 H2. rewrite (eqb_neq_false _ _ H1), (eqb_neq_false _ _ H2).
    reflexivity.
  - intros H0 H1 H2.
    destruct H0 as [-> | ->]; py_steps;
      rewrite (eqb_neq_false _ _ H1), (eqb_neq_false _ _ H2);
      reflexivity.
  - intros H0 H1 H2 H3.
    destruct H0 as [-> | ->], H1 as [-> | ->]; py_steps;
      rewrite (eqb_neq_false _ _ H2), (eqb_neq_false _ _ H3);
      reflexivity.
  - intros H0 H1 H2. cbv zeta.
    assert (Hpos : for_each [0; 1; 2]%nat (wb_positions_along (VList [La; Lb; Lc]) points)
                   = ret [linspace 0 (2 * (La / 2)) points;
                          linspace 0 (2 * (Lb / 2)) points;
                          linspace 0 (2 * (Lc / 2)) points]) by reflexivity.
    unfold wb_select_a, wb_select_b, wb_select_c.
    destruct H0 as [-> | ->], H1 as [-> | ->], H2 as [-> | ->]; py_steps;
      rewrite Hvd, bind_ret_l, HL, bind_ret_l, Hpos, bind_ret_l;
      unfold output, result; rewrite bind_returned; reflexivity.
Qed.

(** C8: with a valid parameter set (non-negative time, at least one
    grid point), a ray path that is not one of the two letters allowed
    for its profile makes [diffusion3Dwb_params] print the message naming
    the two allowed letters for the first offending entry and return
    nothing. *)
Theorem diffusion3Dwb_params_bad_raypath (params : Parameters)
    (La Lb Lc t init fin Dx Dy Dz : R)
    (dx dy : option (list (list R))) (r0 r1 r2 : string)
    (method : string) (show_plot : bool) (infinity points : nat) :
  values3D params [La; Lb; Lc] t init fin Dx Dy Dz ->
  0 <= t -> (1 <= points)%nat ->
  (r0 <> "b" /\ r0 <> "c") \/ (r1 <> "a" /\ r1 <> "c") \/ (r2 <> "a" /\ r2 <> "b") ->
  let call :=
    diffusion3Dwb_params params dx dy (Some [r0; r1; r2]) method show_plot
      infinity points in
  result call = Returned WB_None
  /\ (exists k axis first second,
        In (k, axis, first, second)
           [(0%nat, "a", "b", "c"); (1%nat, "b", "a", "c"); (2%nat, "c", "a", "b")]
        /\ nth k [r0; r1; r2] "" <> first /\ nth k [r0; r1; r2] "" <> second
        /\ output call =
           (output (fitting_by_shape dx dy)
            ++ [Print (raypath_message k axis first second)])%list)
  /\ (r0 <> "b" -> r0 <> "c" ->
      output call =
      (output (fitting_by_shape dx dy) ++ [Print (raypath_message 0 "a" "b" "c")])%list).
Proof.
  intros Hv Ht Hp Hbad call.
  destruct (diffusion3Dwb_params_after_field params La Lb Lc t init fin Dx Dy Dz
              method infinity points Hv Ht Hp) as (v & Hfield).
  destruct (Hfield dx dy r0 r1 r2 show_plot) as (fitting & _ & H).
  cbv zeta in H. fold call in H. destruct H as (H0 & H1 & H2 & _).
  assert (Hcases :
    (r0 <> "b" /\ r0 <> "c")
    \/ ((r0 = "b" \/ r0 = "c") /\ r1 <> "a" /\ r1 <> "c")
    \/ ((r0 = "b" \/ r0 = "c") /\ (r1 = "a" \/ r1 = "c") /\ r2 <> "a" /\ r2 <> "b")).
  { destruct (string_dec r0 "b") as [E0 | N0]; [| destruct (string_dec r0 "c") as [E0 | N0']].
    3: { left; split; assumption. }
    all: destruct (string_dec r1 "a") as [E1 | N1];
      [| destruct (string_dec r1 "c") as [E1 | N1']];
      try (right; left; repeat split; auto; fail);
      right; right; repeat split; auto;
      destruct Hbad as [[B1 B2] | [[B1 B2] | [B1 B2]]]; auto; congruence. }
  destruct Hcases as [[N1 N2] | [(V0 & N1 & N2) | (V0 & V1 & N1 & N2)]].
  - rewrite (H0 N1 N2). split; [reflexivity |]. split; [| reflexivity].
    exists 0%nat, "a", "b", "c". simpl. repeat split; auto.
  - rewrite (H1 V0 N1 N2). split; [reflexivity |]. split.
    + exists 1%nat, "b", "a", "c". simpl. repeat split; auto.
    + intros A B. destruct V0; contradiction.
  - rewrite (H2 V0 V1 N1 N2). split; [reflexivity |]. split.
    + exists 2%nat, "c", "a", "b". simpl. repeat split; auto.
    + intros A B. destruct V0; contradiction.
Qed.

Lemma diffusion3Dwb_params_bad_raypath_witness :
  exists params,
    params_setup3D [2000; 3000; 4000] [-12; -13; -12] 3600 1 0 false false
      [FBool true; FBool true; FBool true] (FBool false) (FBool false) = ret params
    /\ diffusion3Dwb_params params None None (Some ["a"; "c"; "b"]) "erf" true 100 50
       = ([Print (raypath_message 0 "a" "b" "c")], Returned WB_None).
Proof.
  destruct (params_setup3D_values 2000 3000 4000 (-12) (-13) (-12) 3600 1 0
              (FBool true) (FBool true) (FBool true) (FBool false) (FBool false))
    as (params & Hsetup & Hvalues).
  exists params. split; [exact Hsetup |].
  destruct (diffusion3Dwb_params_bad_raypath params 2000 3000 4000 3600 1 0
              (-12) (-13) (-12) None None "a" "c" "b" "erf" true 100 50)
    as (Hres & _ & Hout).
  - exact Hvalues.
  - lra.
  - lia.
  - left. split; discriminate.
  - specialize (Hout ltac:(discriminate) ltac:(discriminate)).
    unfold result, output in *.
    destruct (diffusion3Dwb_params params None None (Some ["a"; "c"; "b"]) "erf" true
                100 50) as [o r].
    simpl in *. subst. reflexivity.
Defined.

(** ** Residuals of the whole-block fit *)




Lemma wb_select_length (points : nat) (v : array3) (r : string) :
  (1 <= points)%nat ->
  List.length (wb_select_a points v r) = points
  /\ List.length (wb_select_b points v r) = points
  /\ List.length (wb_select_c points v r) = points.
Proof.
  intros Hp.
  assert (Hmid : (points / 2 < points)%nat) by (apply Nat.div_lt; lia).
  destruct (mean_axis_length points v) as (H0 & H1 & H2).
  unfold wb_select_a, wb_select_b, wb_select_c.
  unfold mean_axis0, mean_axis1, mean_axis2 in *.
  repeat split; destruct (String.eqb r _);
    rewrite ?length_map, ?length_seq; try reflexivity;
    rewrite nth_map_seq by exact Hmid; now rewrite length_map, length_seq.
Qed.




(** ** The whole-block convenience wrapper *)

(** C10: [diffusion3Dwb] hands back what [params_setup3D] builds from the
    lengths, diffusivities, time and the two unit values, with default
    flags; whatever the ray paths, number of points and plotting options
    are, it never returns whole-block positions and profiles. *)
Theorem diffusion3Dwb_returns_params (lengths_microns log10Ds_m2s : list R)
    (time_seconds : R) (raypaths : option (list string))
    (initial final top points : R) (show_plot : bool) (figax : option unit)
    (isotropic : bool) :
  let setup :=
    params_setup3D lengths_microns log10Ds_m2s time_seconds initial final
      false false [FBool true; FBool true; FBool true] (FBool false) (FBool false) in
  let call :=
    diffusion3Dwb lengths_microns log10Ds_m2s time_seconds raypaths initial final
      top points show_plot figax isotropic in
  output call = output setup
  /\ (forall params, result setup = Returned params ->
                     result call = Returned (W_Params params))
  /\ (forall e, result setup = Raised e -> result call = Raised e)
  /\ (forall x y, result call <> Returned (W_Profiles x y))
  /\ (forall x y, result call <> Returned (W_Figure x y)).
Proof.
  intros setup call. unfold call, diffusion3Dwb. fold setup.
  destruct setup as [out [params | e]]; unfold output, result; simpl.
  - rewrite app_nil_r. repeat split; intros; congruence.
  - repeat split; intros; congruence.
Qed.

(** ** Arrhenius regression *)

(** C9: with fewer than two temperatures or fewer than two
    diffusivities, [solve_Ea_D0] prints the warning and returns the pair
    (None, None); the regression routine is not called. *)
Theorem solve_Ea_D0_too_few
    (polyfit : list R -> list R -> list R -> py ((R * R) * (R * R)))
    (log10D_list celsius_list : list R) :
  (List.length celsius_list < 2)%nat \/ (List.length log10D_list < 2)%nat ->
  solve_Ea_D0 polyfit log10D_list celsius_list =
  ([Print [PStr "Warning: fitting to only one point"]], Returned (None, None)).
Proof.
  intros H. unfold solve_Ea_D0. rewrite !length_map.
  assert (Hb : (Nat.ltb (List.length celsius_list) 2
                || Nat.ltb (List.length log10D_list) 2)%bool = true).
  { apply orb_true_iff. destruct H; [left | right]; now apply Nat.ltb_lt. }
  rewrite Hb. reflexivity.
Qed.

Lemma solve_Ea_D0_too_few_witness :
  solve_Ea_D0 (fun _ _ _ => raise ValueError) [-12] [800] =
  ([Print [PStr "Warning: fitting to only one point"]], Returned (None, None)).
Proof.
  apply solve_Ea_D0_too_few. left. simpl. lia.
Defined.

(** * Further properties

    Properties of the same functions beyond the stated claims, and of the
    functions around them: the infinite-sum method, the error paths, the
    3D field and its whole-block averages, the convenience wrapper of the
    3D model, the Arrhenius regression with the two routines that use its
    result, and the regression method of the [Diffusivities] class. *)

(** ** More on the monad *)

Lemma bind_assoc {A B C : Type} (m : py A) (k : A -> py B) (k' : B -> py C) :
  bind (bind m k) k' = bind m (fun a => bind (k a) k').
Proof.
  destruct m as [o [a | e]]; [| reflexivity].
  unfold bind at 2 3. destruct (k a) as [o1 [b | e1]]; [| reflexivity].
  unfold bind. destruct (k' b) as [o2 r]. now rewrite app_assoc.
Qed.

Lemma bind_congr {A B : Type} (m : py A) (k k' : A -> py B) :
  (forall a, k a = k' a) -> bind m k = bind m k'.
Proof.
  intros H. destruct m as [o [a | e]]; [| reflexivity].
  unfold bind. now rewrite H.
Qed.

(** One step of two computations that start with the same call. *)
Ltac py_same_step := rewrite ?bind_assoc; apply bind_congr; intro.

(** ** The infinite sum in closed form *)

Lemma list_eq_nth (u v : list R) :
  List.length u = List.length v ->
  (forall i, (i < List.length u)%nat -> nth i u 0 = nth i v 0) -> u = v.
Proof.
  revert v. induction u as [| a u IH]; intros [| b v] Hl H; simpl in *; try lia.
  - reflexivity.
  - f_equal.
    + apply (H 0%nat). lia.
    + apply IH; [lia |]. intros i Hi. apply (H (S i)). lia.
Qed.

Lemma zip_with_plus_fuse (g h : R -> R) (u x : list R) :
  zip_with Rplus (zip_with Rplus u (map g x)) (map h x) =
  zip_with Rplus u (map (fun xi => g xi + h xi) x).
Proof.
  unfold zip_with. revert u.
  induction x as [| a x IH]; intros [| b u]; simpl; try reflexivity.
  f_equal; [ring | apply IH].
Qed.

Lemma zip_with_plus_zero (u x : list R) :
  List.length u = List.length x ->
  zip_with Rplus u (map (fun _ => 0) x) = u.
Proof.
  unfold zip_with. revert u.
  induction x as [| a x IH]; intros [| b u] Hl; simpl in *; try lia; try reflexivity.
  f_equal; [ring | apply IH; lia].
Qed.

Lemma zip_with_zero_plus (g : R -> R) (x : list R) :
  zip_with Rplus (map (fun _ => 0) x) (map g x) = map g x.
Proof.
  unfold zip_with. induction x as [| a x IH]; simpl; [reflexivity |].
  f_equal; [ring | exact IH].
Qed.

(** The loop adds, at each position, the terms of the indices it runs
    over. *)
Lemma infsum_loop_terms (D t twoA : R) (x : list R) (ns : list nat) (xsum : list R) :
  twoA <> 0 -> List.length xsum = List.length x ->
  infsum_loop D t twoA x ns xsum =
  ret (zip_with Rplus xsum
         (map (fun xi => sum_list (map (fun n => infsum_term D t twoA n xi) ns)) x)).
Proof.
  intros HA. revert xsum.
  induction ns as [| n ns IH]; intros xsum Hlen.
  - cbn [infsum_loop map sum_list fold_right].
    now rewrite zip_with_plus_zero.
  - cbn [infsum_loop]. unfold pydiv.
    destruct (Req_dec_T (twoA ^ 2) 0) as [H0 | _].
    + exfalso. pose proof (pow2_pos twoA HA). lra.
    + rewrite bind_ret_l, map_map.
      rewrite IH by (rewrite zip_with_length; now rewrite !length_map).
      rewrite zip_with_plus_fuse. reflexivity.
Qed.

Lemma sum_list_seq (f : nat -> R) (N : nat) :
  sum_list (map f (seq 0 N)) = rsum f N.
Proof.
  induction N as [| N IH]; [reflexivity |].
  rewrite seq_S, map_app. simpl rsum. rewrite <- IH.
  unfold sum_list. rewrite fold_right_app. simpl.
  generalize (map f (seq 0 N)). intros l.
  induction l as [| a l IHl]; simpl; [ring | rewrite IHl; ring].
Qed.

(** The infinite-sum profile in closed form. *)
Lemma infsum_profile_closed (D t twoA : R) (infinity : nat) (x : list R) :
  twoA <> 0 ->
  infsum_profile D t twoA infinity x =
  ret (map (fun xi => rsum (fun n => infsum_term D t twoA n xi) infinity * 4 / PI) x).
Proof.
  intros HA. unfold infsum_profile.
  rewrite infsum_loop_terms by (exact HA || apply length_map).
  rewrite bind_ret_l, zip_with_zero_plus, map_map. f_equal.
  apply map_ext. intros xi. now rewrite sum_list_seq.
Qed.

Lemma unit_profile_pointwise (method : string) (D t a twoA : R) (infinity : nat)
    (x : list R) :
  method = "erf" \/ (method = "infsum" /\ twoA <> 0) ->
  unit_profile method D t a twoA infinity x =
  ret (Some (map (unit_value method D t a twoA infinity) x)).
Proof.
  intros [-> | [-> HA]]; unfold unit_profile, unit_value; simpl String.eqb; cbv iota.
  - reflexivity.
  - rewrite infsum_profile_closed by exact HA. now rewrite bind_ret_l.
Qed.

Lemma unit_value_even (method : string) (D t a twoA : R) (infinity : nat) (xi : R) :
  unit_value method D t a twoA infinity (- xi) = unit_value method D t a twoA infinity xi.
Proof.
  unfold unit_value. destruct (String.eqb method "infsum").
  - f_equal. f_equal. apply rsum_ext. intros n _. unfold infsum_term.
    f_equal.
    replace ((2 * INR n + 1) * PI * - xi / twoA)
      with (- ((2 * INR n + 1) * PI * xi / twoA)) by (unfold Rdiv; ring).
    apply cos_neg.
  - replace (a + - xi) with (a - xi) by ring.
    replace (a - - xi) with (a + xi) by ring. ring.
Qed.

Lemma valid_method_meters (method : string) (microns : R) :
  method = "erf" \/ (method = "infsum" /\ microns <> 0) ->
  method = "erf" \/ (method = "infsum" /\ microns / 1000000 <> 0).
Proof.
  intros [Hm | [Hm HL]]; [left; exact Hm | right; split; [exact Hm | lra]].
Qed.

(** The call without data, for a valid method: positions and values. *)
Lemma diffusion1D_params_profile (params : Parameters) (microns t log10D init fin : R)
    (method : string) (center : bool) (infinity points : nat) :
  values1D params microns t log10D init fin -> 0 <= t ->
  method = "erf" \/ (method = "infsum" /\ microns <> 0) ->
  let a := microns / 1000000 / 2 in
  diffusion1D_params params None None method center infinity points =
  ret (R1_Profile
         (map (fun xi => xi * 1000000) (linspace (- a) a points))
         (to_concentration (if Rgt_dec init fin then true else false)
            (if Rgt_dec init fin then init else fin)
            (if Rgt_dec init fin then fin else init)
            (map (unit_value method (Rpower 10 log10D) t a (microns / 1000000) infinity)
                 (linspace (- a) a points)))).
Proof.
  intros Hv Ht Hm a.
  rewrite (diffusion1D_params_reads _ _ _ _ _ _ _ _ _ _ _ _ Hv).
  apply diffusion1D_body_profile; [exact Ht |].
  apply unit_profile_pointwise, valid_method_meters, Hm.
Qed.

(** X1: with [initial_value > final_value], non-negative time, a
    non-zero length, the 'infsum' method and no data,
    [diffusion1D_params] returns the generated positions and, at each of
    them,
    [4/π · Σ_{n<infinity} (−1)ⁿ/(2n+1) · exp(−D(2n+1)²π²t/L²) · cos((2n+1)πx/L)
     · (initial − final) + final],
    with [L] the length in meters and [D = 10^log10D]. *)
Theorem diffusion1D_infsum_model (params : Parameters)
    (microns t log10D init fin : R) (center : bool) (infinity points : nat) :
  values1D params microns t log10D init fin ->
  init > fin -> 0 <= t -> microns <> 0 ->
  let L := microns / 1000000 in
  let D := Rpower 10 log10D in
  let x := linspace (- (L / 2)) (L / 2) points in
  diffusion1D_params params None None "infsum" center infinity points =
  ret (R1_Profile
         (map (fun xi => xi * 1000000) x)
         (map (fun xi =>
                 rsum (fun n =>
                         (-1) ^ n / (2 * INR n + 1)
                         * exp (- D * (2 * INR n + 1) ^ 2 * PI ^ 2 * t / L ^ 2)
                         * cos ((2 * INR n + 1) * PI * xi / L)) infinity
                 * 4 / PI * (init - fin) + fin)
              x)).
Proof.
  intros Hv Hgt Ht HL L D x.
  rewrite (diffusion1D_params_profile params microns t log10D init fin "infsum"
             center infinity points Hv Ht) by (right; split; [reflexivity | exact HL]).
  destruct (Rgt_dec init fin) as [_ | Hn]; [| contradiction].
  unfold to_concentration. rewrite map_map. reflexivity.
Qed.

Lemma diffusion1D_infsum_model_witness :
  let L := 200 / 1000000 in
  let D := Rpower 10 (-13) in
  let x := linspace (- (L / 2)) (L / 2) 50 in
  diffusion1D_params
    (params_setup1D 200 (-13) 3600 1 0 (FBool true) (FBool false) (FBool false))
    None None "infsum" true 100 50 =
  ret (R1_Profile
         (map (fun xi => xi * 1000000) x)
         (map (fun xi =>
                 rsum (fun n =>
                         (-1) ^ n / (2 * INR n + 1)
                         * exp (- D * (2 * INR n + 1) ^ 2 * PI ^ 2 * 3600 / L ^ 2)
                         * cos ((2 * INR n + 1) * PI * xi / L)) 100
                 * 4 / PI * (1 - 0) + 0)
              x)).
Proof.
  apply (diffusion1D_infsum_model
           (params_setup1D 200 (-13) 3600 1 0 (FBool true) (FBool false) (FBool false))
           200 3600 (-13) 1 0 true 100 50).
  - apply params_setup1D_values.
  - lra.
  - lra.
  - lra.
Defined.

(** ** Shape of the 1D profile *)

(** X2: when the initial and the final value are the same number [c],
    the profile returned for a positive time (either method, the
    infinite sum on a non-zero length) has [points] entries, all equal
    to [c]. *)
Theorem diffusion1D_equal_values_flat (params : Parameters)
    (microns t log10D c : R) (method : string) (center : bool)
    (infinity points : nat) :
  values1D params microns t log10D c c ->
  0 < t ->
  method = "erf" \/ (method = "infsum" /\ microns <> 0) ->
  exists x model,
    diffusion1D_params params None None method center infinity points
    = ret (R1_Profile x model)
    /\ List.length x = points /\ List.length model = points
    /\ Forall (fun y => y = c) model.
Proof.
  intros Hv Hpos Hm.
  rewrite (diffusion1D_params_profile params microns t log10D c c method center
             infinity points Hv) by (lra || exact Hm).
  do 2 eexists. split; [reflexivity |].
  split; [now rewrite length_map, linspace_length |].
  split; [now rewrite to_concentration_length, length_map, linspace_length |].
  destruct (Rgt_dec c c) as [H | _]; [lra |].
  unfold to_concentration. rewrite !map_map.
  apply Forall_forall. intros y Hy. apply in_map_iff in Hy as (xi & <- & _). ring.
Qed.

Lemma diffusion1D_equal_values_flat_witness :
  exists x model,
    diffusion1D_params
      (params_setup1D 200 (-13) 3600 (1 / 2) (1 / 2) (FBool true) (FBool false)
         (FBool false))
      None None "infsum" true 100 50
    = ret (R1_Profile x model)
    /\ List.length x = 50%nat /\ List.length model = 50%nat
    /\ Forall (fun y => y = 1 / 2) model.
Proof.
  apply (diffusion1D_equal_values_flat _ 200 3600 (-13) (1 / 2) "infsum" true 100 50).
  - apply params_setup1D_values.
  - lra.
  - right. split; [reflexivity | lra].
Defined.

Lemma to_concentration_swap (a b : R) (u : list R) :
  Forall2 (fun p q => p + q = a + b)
    (to_concentration (if Rgt_dec a b then true else false)
       (if Rgt_dec a b then a else b) (if Rgt_dec a b then b else a) u)
    (to_concentration (if Rgt_dec b a then true else false)
       (if Rgt_dec b a then b else a) (if Rgt_dec b a then a else b) u).
Proof.
  unfold to_concentration.
  destruct (Rgt_dec a b) as [Hab | Hab], (Rgt_dec b a) as [Hba | Hba];
    try (exfalso; lra); rewrite ?map_map;
    induction u as [| m u IH]; simpl; constructor; try exact IH; ring.
Qed.

(** X3: swapping the initial and the final value reflects the
    profile: for the same length, diffusivity and positive time the two
    calls return the same positions, and at every position the two model
    values add up to [initial + final]. *)
Theorem diffusion1D_swap_values (params_ab params_ba : Parameters)
    (microns t log10D a b : R) (method : string) (center : bool)
    (infinity points : nat) :
  values1D params_ab microns t log10D a b ->
  values1D params_ba microns t log10D b a ->
  0 < t ->
  method = "erf" \/ (method = "infsum" /\ microns <> 0) ->
  exists x model_ab model_ba,
    diffusion1D_params params_ab None None method center infinity points
    = ret (R1_Profile x model_ab)
    /\ diffusion1D_params params_ba None None method center infinity points
       = ret (R1_Profile x model_ba)
    /\ List.length model_ab = points
    /\ Forall2 (fun p q => p + q = a + b) model_ab model_ba.
Proof.
  intros Hab Hba Hpos Hm.
  rewrite (diffusion1D_params_profile params_ab microns t log10D a b method center
             infinity points Hab) by (lra || exact Hm).
  rewrite (diffusion1D_params_profile params_ba microns t log10D b a method center
             infinity points Hba) by (lra || exact Hm).
  do 3 eexists. split; [reflexivity |]. split; [reflexivity |].
  split; [now rewrite to_concentration_length, length_map, linspace_length |].
  apply to_concentration_swap.
Qed.

Lemma diffusion1D_swap_values_witness :
  exists x model_ab model_ba,
    diffusion1D_params
      (params_setup1D 200 (-13) 3600 (3 / 4) (1 / 4) (FBool true) (FBool false)
         (FBool false))
      None None "erf" true 100 50
    = ret (R1_Profile x model_ab)
    /\ diffusion1D_params
         (params_setup1D 200 (-13) 3600 (1 / 4) (3 / 4) (FBool true) (FBool false)
            (FBool false))
         None None "erf" true 100 50
       = ret (R1_Profile x model_ba)
    /\ List.length model_ab = 50%nat
    /\ Forall2 (fun p q => p + q = 3 / 4 + 1 / 4) model_ab model_ba.
Proof.
  apply (diffusion1D_swap_values _ _ 200 3600 (-13) (3 / 4) (1 / 4) "erf" true 100 50).
  - apply params_setup1D_values.
  - apply params_setup1D_values.
  - lra.
  - left; reflexivity.
Defined.

Lemma to_concentration_nth (g : bool) (s m : R) (h : R -> R) (x : list R) (i : nat) :
  (i < List.length x)%nat ->
  nth i (to_concentration g s m (map h x)) 0 =
  (if g then h (nth i x 0) else 1 - h (nth i x 0)) * (s - m) + m.
Proof.
  intros Hi. unfold to_concentration. destruct g; rewrite ?map_map;
    now rewrite (nth_map_in _ _ _ 0).
Qed.

Lemma linspace_mirror (a : R) (n i : nat) :
  (2 <= n)%nat -> (i < n)%nat ->
  nth (n - 1 - i) (linspace (- a) a n) 0 = - nth i (linspace (- a) a n) 0.
Proof.
  intros Hn Hi. rewrite !linspace_nth by lia.
  assert (Hd : INR (n - 1) <> 0) by (apply not_0_INR; lia).
  replace (INR (n - 1 - i)) with (INR (n - 1) - INR i)
    by (rewrite <- minus_INR by lia; reflexivity).
  field. exact Hd.
Qed.

(** X4: without data, for a positive time and at least two points,
    the positions returned by [diffusion1D_params] are evenly spaced
    from minus half the length to plus half the length (in microns),
    whatever the other parameters are, and the profile is symmetric about
    the middle: position [points−1−i] is the opposite of position [i] and
    carries the same model value. *)
Theorem diffusion1D_profile_centered (params : Parameters)
    (microns t log10D init fin : R) (method : string) (center : bool)
    (infinity points : nat) :
  values1D params microns t log10D init fin ->
  0 < t ->
  method = "erf" \/ (method = "infsum" /\ microns <> 0) ->
  (2 <= points)%nat ->
  exists x model,
    diffusion1D_params params None None method center infinity points
    = ret (R1_Profile x model)
    /\ List.length x = points /\ List.length model = points
    /\ nth 0 x 0 = - (microns / 2)
    /\ nth (points - 1) x 0 = microns / 2
    /\ forall i, (i < points)%nat ->
         nth i x 0 = INR i * (microns / INR (points - 1)) - microns / 2
         /\ nth (points - 1 - i) x 0 = - nth i x 0
         /\ nth (points - 1 - i) model 0 = nth i model 0.
Proof.
  intros Hv Hpos Hm Hp.
  rewrite (diffusion1D_params_profile params microns t log10D init fin method center
             infinity points Hv) by (lra || exact Hm).
  do 2 eexists. split; [reflexivity |].
  split; [now rewrite length_map, linspace_length |].
  split; [now rewrite to_concentration_length, length_map, linspace_length |].
  assert (Hd : INR (points - 1) <> 0) by (apply not_0_INR; lia).
  assert (Hnth : forall i, (i < points)%nat ->
            nth i (map (fun xi => xi * 1000000)
                     (linspace (- (microns / 1000000 / 2)) (microns / 1000000 / 2) points)) 0
            = INR i * (microns / INR (points - 1)) - microns / 2).
  { intros i Hi. rewrite (nth_map_in _ _ _ 0) by (now rewrite linspace_length).
    rewrite linspace_nth by exact Hi. field. exact Hd. }
  split; [rewrite Hnth by lia; simpl INR; lra |].
  split; [rewrite Hnth by lia; field; exact Hd |].
  intros i Hi. split; [apply Hnth, Hi |]. split.
  - rewrite !(nth_map_in _ _ _ 0) by (rewrite linspace_length; lia).
    rewrite linspace_mirror by assumption. ring.
  - rewrite !to_concentration_nth by (rewrite linspace_length; lia).
    rewrite linspace_mirror by assumption.
    rewrite unit_value_even. reflexivity.
Qed.

Lemma diffusion1D_profile_centered_witness :
  exists x model,
    diffusion1D_params
      (params_setup1D 200 (-13) 3600 1 0 (FBool true) (FBool false) (FBool false))
      None None "infsum" true 100 50
    = ret (R1_Profile x model)
    /\ List.length x = 50%nat /\ List.length model = 50%nat
    /\ nth 0 x 0 = - (200 / 2)
    /\ nth (50 - 1) x 0 = 200 / 2
    /\ forall i, (i < 50)%nat ->
         nth i x 0 = INR i * (200 / INR (50 - 1)) - 200 / 2
         /\ nth (50 - 1 - i) x 0 = - nth i x 0
         /\ nth (50 - 1 - i) model 0 = nth i model 0.
Proof.
  apply (diffusion1D_profile_centered _ 200 3600 (-13) 1 0 "infsum" true 100 50).
  - apply params_setup1D_values.
  - lra.
  - right. split; [reflexivity | lra].
  - lia.
Defined.

(** ** Data positions *)

Lemma data_positions_shift (dx : list R) (microns : R) :
  data_positions dx true (microns / 1000000 / 2) =
  data_positions (map (fun u => u - microns / 2) dx) false (microns / 1000000 / 2).
Proof.
  unfold data_positions. rewrite !map_map. apply map_ext. intros u. field.
Qed.

(** X5: [need_to_center_x_data=True] is the same as subtracting half
    the length from every data position and passing [False]: the two
    calls print and return the same; without data the flag changes
    nothing. *)
Theorem diffusion1D_centering (params : Parameters)
    (microns t log10D init fin : R) (dx dy : list R) (method : string)
    (infinity points : nat) :
  values1D params microns t log10D init fin ->
  diffusion1D_params params (Some dx) (Some dy) method true infinity points =
  diffusion1D_params params (Some (map (fun u => u - microns / 2) dx)) (Some dy)
    method false infinity points
  /\ diffusion1D_params params None None method true infinity points =
     diffusion1D_params params None None method false infinity points.
Proof.
  intros Hv.
  rewrite !(diffusion1D_params_reads _ _ _ _ _ _ _ _ _ _ _ _ Hv).
  split; [| reflexivity].
  unfold diffusion1D_body.
  rewrite data_positions_shift, length_map. reflexivity.
Qed.

Lemma diffusion1D_centering_witness :
  diffusion1D_params example_params1D (Some [0; 100; 200]) (Some [0; 1; 0]) "erf" true 100 50 =
  diffusion1D_params example_params1D (Some (map (fun u => u - 200 / 2) [0; 100; 200]))
    (Some [0; 1; 0]) "erf" false 100 50
  /\ diffusion1D_params example_params1D None None "erf" true 100 50 =
     diffusion1D_params example_params1D None None "erf" false 100 50.
Proof.
  apply (diffusion1D_centering example_params1D 200 3600 (-13) 1 0).
  apply params_setup1D_values.
Defined.

Lemma zip_with_minus_self (l : list R) :
  zip_with Rminus l l = map (fun _ => 0) l.
Proof.
  unfold zip_with. induction l as [| a l IH]; simpl; [reflexivity |].
  f_equal; [ring | exact IH].
Qed.

(** X6: the model fits itself: when the positions and values that a
    call without data returns (positive time, valid method) are handed
    back as data, with [need_to_center_x_data=False], the residuals are
    all zero. *)
Theorem diffusion1D_model_fits_itself (params : Parameters)
    (microns t log10D init fin : R) (method : string) (center : bool)
    (infinity points points' : nat) :
  values1D params microns t log10D init fin ->
  0 < t ->
  method = "erf" \/ (method = "infsum" /\ microns <> 0) ->
  exists x model,
    diffusion1D_params params None None method center infinity points
    = ret (R1_Profile x model)
    /\ diffusion1D_params params (Some x) (Some model) method false infinity points'
       = ret (R1_Residual (map (fun _ => 0) model)).
Proof.
  intros Hv Hpos Hm.
  assert (Ht : 0 <= t) by lra.
  rewrite (diffusion1D_params_profile params microns t log10D init fin method center
             infinity points Hv Ht Hm).
  do 2 eexists. split; [reflexivity |].
  rewrite (diffusion1D_params_reads _ _ _ _ _ _ _ _ _ _ _ _ Hv).
  set (a := microns / 1000000 / 2).
  set (x := linspace (- a) a points).
  assert (Hx : data_positions (map (fun xi => xi * 1000000) x) false a = x).
  { unfold data_positions. rewrite map_map. rewrite <- (map_id x) at 2.
    apply map_ext. intros u. field. }
  rewrite (diffusion1D_body_residual microns t log10D init fin _ _ method false
             infinity points'
             (map (unit_value method (Rpower 10 log10D) t a (microns / 1000000) infinity) x)
             Ht).
  - now rewrite zip_with_minus_self.
  - now rewrite to_concentration_length, !length_map.
  - fold a. rewrite Hx. apply unit_profile_pointwise, valid_method_meters, Hm.
Qed.

Lemma diffusion1D_model_fits_itself_witness :
  exists x model,
    diffusion1D_params example_params1D None None "erf" true 100 50
    = ret (R1_Profile x model)
    /\ diffusion1D_params example_params1D (Some x) (Some model) "erf" false 100 50
       = ret (R1_Residual (map (fun _ => 0) model)).
Proof.
  apply (diffusion1D_model_fits_itself example_params1D 200 3600 (-13) 1 0 "erf" true 100 50 50).
  - apply params_setup1D_values.
  - lra.
  - left; reflexivity.
Defined.

(** ** Error paths of the 1D function *)

Lemma fitting1D_returns (dx dy : option (list R)) :
  exists o b,
    match dx, dy with
    | Some dx, Some dy =>
        if Nat.eqb (List.length dx) (List.length dy) then ret true
        else
          print [PStr "x and y data must be the same length"] ;;;
          print [PStr "x"; PNat (List.length dx)] ;;;
          print [PStr "y"; PNat (List.length dy)] ;;;
          ret false
    | _, _ => ret false
    end = (o, Returned b).
Proof.
  destruct dx as [dx |], dy as [dy |]; try (do 2 eexists; reflexivity).
  destruct (Nat.eqb (List.length dx) (List.length dy)); do 2 eexists; reflexivity.
Qed.

(** X7: with a method keyword that is neither 'erf' nor 'infsum' and
    a non-negative time, [diffusion1D_params] returns [False], with or
    without data; without data the only line printed is the message
    about [erf_or_sum].  The keyword "sum" that the message suggests is
    itself such a keyword. *)
Theorem diffusion1D_unknown_method (params : Parameters)
    (microns t log10D init fin : R) (dx dy : option (list R)) (method : string)
    (center : bool) (infinity points : nat) :
  values1D params microns t log10D init fin -> 0 <= t ->
  method <> "erf" -> method <> "infsum" ->
  result (diffusion1D_params params dx dy method center infinity points)
  = Returned R1_False
  /\ diffusion1D_params params None None method center infinity points
     = ([Print (unknown_method_message infinity)], Returned R1_False).
Proof.
  intros Hv Ht He Hi.
  rewrite !(diffusion1D_params_reads _ _ _ _ _ _ _ _ _ _ _ _ Hv).
  apply String.eqb_neq in He, Hi.
  unfold diffusion1D_body. destruct (Rlt_dec t 0); [lra |].
  split.
  - destruct (fitting1D_returns dx dy) as (o & b & ->).
    rewrite bind_returned. cbv zeta. unfold unit_profile. rewrite He, Hi.
    reflexivity.
  - rewrite bind_ret_l. cbv zeta. unfold unit_profile. rewrite He, Hi. reflexivity.
Qed.

Lemma diffusion1D_unknown_method_witness :
  result (diffusion1D_params example_params1D (Some [0; 100]) (Some [1; 0]) "sum" true 100 50)
  = Returned R1_False
  /\ diffusion1D_params example_params1D None None "sum" true 100 50
     = ([Print (unknown_method_message 100)], Returned R1_False).
Proof.
  apply (diffusion1D_unknown_method example_params1D 200 3600 (-13) 1 0).
  - apply params_setup1D_values.
  - lra.
  - discriminate.
  - discriminate.
Defined.

(** X8: with a negative time [diffusion1D_params] prints 'no negative
    time' and returns nothing, before it looks at the data, the method
    keyword or the length. *)
Theorem diffusion1D_negative_time (params : Parameters)
    (microns t log10D init fin : R) (dx dy : option (list R)) (method : string)
    (center : bool) (infinity points : nat) :
  values1D params microns t log10D init fin -> t < 0 ->
  diffusion1D_params params dx dy method center infinity points =
  ([Print [PStr "no negative time"]], Returned R1_None).
Proof.
  intros Hv Ht.
  rewrite (diffusion1D_params_reads _ _ _ _ _ _ _ _ _ _ _ _ Hv).
  unfold diffusion1D_body. destruct (Rlt_dec t 0); [reflexivity | contradiction].
Qed.

Lemma diffusion1D_negative_time_witness :
  diffusion1D_params
    (params_setup1D 200 (-13) (-1) 1 0 (FBool true) (FBool false) (FBool false))
    (Some [0; 100]) (Some [1]) "sum" true 100 50 =
  ([Print [PStr "no negative time"]], Returned R1_None).
Proof.
  apply (diffusion1D_negative_time _ 200 (-1) (-13) 1 0).
  - apply params_setup1D_values.
  - lra.
Defined.

(** X9: with a zero length and a non-negative time, the 'infsum'
    method raises [ZeroDivisionError] as soon as one term is summed,
    with or without data; with [infinity = 0] nothing is divided and the
    profile is flat at the final value. *)
Theorem diffusion1D_infsum_zero_length (params : Parameters)
    (t log10D init fin : R) (dx dy : option (list R))
    (center : bool) (infinity points : nat) :
  values1D params 0 t log10D init fin -> 0 <= t ->
  (0 < infinity -> 
   result (diffusion1D_params params dx dy "infsum" center infinity points)
   = Raised ZeroDivisionError)%nat
  /\ (infinity = 0%nat ->
      exists x model,
        diffusion1D_params params None None "infsum" center infinity points
        = ret (R1_Profile x model)
        /\ List.length model = points /\ Forall (fun y => y = fin) model).
Proof.
  intros Hv Ht.
  rewrite !(diffusion1D_params_reads _ _ _ _ _ _ _ _ _ _ _ _ Hv).
  unfold diffusion1D_body. destruct (Rlt_dec t 0); [lra |].
  replace (0 / 1000000) with 0 by field.
  split.
  - intros Hn. destruct (fitting1D_returns dx dy) as (o & b & ->).
    rewrite bind_returned. cbv zeta. unfold unit_profile. simpl String.eqb. cbv iota.
    rewrite infsum_profile_zero_length by exact Hn. reflexivity.
  - intros ->. rewrite bind_ret_l. cbv zeta.
    unfold unit_profile. simpl String.eqb. cbv iota.
    unfold infsum_profile. cbn [seq infsum_loop]. rewrite !bind_ret_l.
    do 2 eexists. split; [reflexivity |].
    split; [now rewrite to_concentration_length, !length_map, linspace_length |].
    unfold to_concentration. apply Forall_forall. intros y Hy.
    destruct (Rgt_dec init fin); rewrite ?map_map in Hy;
      apply in_map_iff in Hy as (xi & <- & _); field; apply PI_neq0.
Qed.

Lemma diffusion1D_infsum_zero_length_witness :
  result (diffusion1D_params
            (params_setup1D 0 (-13) 3600 1 0 (FBool true) (FBool false) (FBool false))
            None None "infsum" true 100 50)
  = Raised ZeroDivisionError.
Proof.
  apply (diffusion1D_infsum_zero_length _ 3600 (-13) 1 0 None None true 100 50).
  - apply params_setup1D_values.
  - lra.
  - lia.
Defined.

(** ** Arity of the lists given to the 3D setup *)

(** X10: [params_setup3D] raises [IndexError] exactly when it is
    given fewer than three diffusivities or fewer than three vary flags;
    with three or more of each it returns a parameter set built from the
    first three, in which the list of lengths is stored as given,
    whatever its length. *)
Theorem params_setup3D_arity (microns3 log10D3 : list R) (t init fin : R)
    (isotropic slowb : bool) (vD : list pyflag) (vinit vfin : pyflag) :
  let call :=
    params_setup3D microns3 log10D3 t init fin isotropic slowb vD vinit vfin in
  (call = raise IndexError
   <-> (List.length log10D3 < 3)%nat \/ (List.length vD < 3)%nat)
  /\ ((3 <= List.length log10D3)%nat -> (3 <= List.length vD)%nat ->
      (exists params, call = ret params
                      /\ params_get params "microns3"
                         = ret (mkParam (VList microns3) (FBool false) None None None))
      /\ call = params_setup3D microns3 (firstn 3 log10D3) t init fin isotropic slowb
                  (firstn 3 vD) vinit vfin).
Proof.
  intros call. unfold call. split; [split |].
  - intros H.
    destruct log10D3 as [| d0 [| d1 [| d2 ds]]]; try (left; simpl; lia);
      destruct vD as [| v0 [| v1 [| v2 vs]]]; try (right; simpl; lia).
    exfalso. destruct isotropic, slowb; discriminate H.
  - intros [H | H].
    + destruct log10D3 as [| d0 [| d1 [| d2 ds]]]; simpl in H; try lia;
        destruct vD as [| v0 [| v1 [| v2 vs]]]; destruct isotropic, slowb; reflexivity.
    + destruct vD as [| v0 [| v1 [| v2 vs]]]; simpl in H; try lia;
        destruct log10D3 as [| d0 [| d1 [| d2 ds]]]; destruct isotropic, slowb;
        reflexivity.
  - intros HD Hv.
    destruct log10D3 as [| d0 [| d1 [| d2 ds]]]; simpl in HD; try lia.
    destruct vD as [| v0 [| v1 [| v2 vs]]]; simpl in Hv; try lia.
    split.
    + destruct isotropic, slowb; eexists; split; reflexivity.
    + reflexivity.
Qed.

(** ** The 3D field entry by entry *)

(** The data arguments only decide what is printed first and whether
    a model is replaced by zero residuals. *)
Lemma diffusion3Dnpi_params_data (params : Parameters)
    (dx dy : option (list (list R))) (method : string) (centered : bool)
    (infinity points : nat) :
  diffusion3Dnpi_params params dx dy method centered infinity points =
  fitting <- fitting_by_shape dx dy ;;
  r <- diffusion3Dnpi_params params None None method centered infinity points ;;
  ret (npi_with_fitting fitting r).
Proof.
  unfold diffusion3Dnpi_params at 1.
  apply bind_congr. intros fitting.
  unfold diffusion3Dnpi_params.
  change (fitting_by_shape None None) with (@ret bool false).
  rewrite bind_ret_l. cbv zeta.
  repeat py_same_step.
  rewrite ?bind_ret_l. destruct fitting; reflexivity.
Qed.

Lemma map3_map3 (f g : R -> R) (v : array3) :
  map3 f (map3 g v) = map3 (fun u => f (g u)) v.
Proof.
  unfold map3. rewrite map_map. apply map_ext. intros p.
  rewrite map_map. apply map_ext. intros r. apply map_map.
Qed.

Lemma map3_ext (f g : R -> R) (v : array3) :
  (forall u, f u = g u) -> map3 f v = map3 g v.
Proof.
  intros H. unfold map3. apply map_ext. intros p. apply map_ext. intros r.
  apply map_ext, H.
Qed.

Lemma at3_outer (n : nat) (ya yb yc : list R) (g : R -> R) (d e f : nat) :
  (d < n)%nat -> (e < n)%nat -> (f < n)%nat ->
  at3 (map3 g (outer_product n ya yb yc)) d e f =
  g (nth d ya 0 * nth e yb 0 * nth f yc 0).
Proof.
  intros Hd He Hf. unfold at3, map3, outer_product.
  rewrite map_map, nth_map_seq by exact Hd.
  rewrite map_map, nth_map_seq by exact He.
  rewrite map_map, nth_map_seq by exact Hf. reflexivity.
Qed.

(** The field and the three slices, entry by entry. *)
Lemma diffusion3Dnpi_params_field (params : Parameters)
    (La Lb Lc t init fin Dx Dy Dz : R)
    (method : string) (centered : bool) (infinity points : nat) :
  values3D params [La; Lb; Lc] t init fin Dx Dy Dz ->
  0 <= t -> (1 <= points)%nat ->
  let ya := model1D La t Dx (npi_init1D init fin) (npi_fin1D init fin) points in
  let yb := model1D Lb t Dy (npi_init1D init fin) (npi_fin1D init fin) points in
  let yc := model1D Lc t Dz (npi_init1D init fin) (npi_fin1D init fin) points in
  let g := npi_transform init fin in
  let mid := Nat.div points 2 in
  let positions L :=
    if centered then linspace (- (L / 2)) (L / 2) points
    else linspace 0 (L / 2 * 2) points in
  diffusion3Dnpi_params params None None method centered infinity points =
  ret (NPI_Model (map3 g (outer_product points ya yb yc))
         [map (fun d => g (nth d ya 0 * nth mid yb 0 * nth mid yc 0)) (seq 0 points);
          map (fun e => g (nth mid ya 0 * nth e yb 0 * nth mid yc 0)) (seq 0 points);
          map (fun f => g (nth mid ya 0 * nth mid yb 0 * nth f yc 0)) (seq 0 points)]
         [positions La; positions Lb; positions Lc]).
Proof.
  intros Hv Ht Hp ya yb yc g mid positions.
  rewrite (diffusion3Dnpi_params_model params La Lb Lc t init fin Dx Dy Dz method
             centered infinity points Hv Ht Hp).
  cbv zeta.
  assert (Hmid : (points / 2 < points)%nat) by (apply Nat.div_lt; lia).
  assert (Hfield :
    (if if Rlt_dec (if Rgt_dec init 1 then 1 else init) fin then false else true
     then map3 (fun u => u * (if Rgt_dec init 1 then init else 1))
            (outer_product points ya yb yc)
     else map3 (fun u => u + 1 * (if Rgt_dec (if Rgt_dec init 1 then 1 else init) fin
                                  then fin else if Rgt_dec init 1 then 1 else init))
            (map3 (fun u => 1 - u)
               (map3 (fun u => u * (if Rgt_dec init 1 then init else 1))
                  (outer_product points ya yb yc))))
    = map3 g (outer_product points ya yb yc)).
  { unfold g, npi_transform. cbv zeta.
    destruct (Rlt_dec (if Rgt_dec init 1 then 1 else init) fin).
    - rewrite !map3_map3. reflexivity.
    - reflexivity. }
  unfold ya, yb, yc, npi_init1D, npi_fin1D in *. cbv zeta in *.
  destruct (Rlt_dec (if Rgt_dec init 1 then 1 else init) fin);
    rewrite Hfield;
    rewrite outer_slice_a, outer_slice_b, outer_slice_c by exact Hmid;
    reflexivity.
Qed.

Lemma params3D_setup (L3 : list R) (Dx Dy Dz t init fin : R) :
  params_setup3D L3 [Dx; Dy; Dz] t init fin false false
    [FBool true; FBool true; FBool true] (FBool false) (FBool false)
  = ret (params3D L3 Dx Dy Dz t init fin).
Proof. reflexivity. Qed.

Lemma params3D_values (L3 : list R) (Dx Dy Dz t init fin : R) :
  values3D (params3D L3 Dx Dy Dz t init fin) L3 t init fin Dx Dy Dz.
Proof. eexists. repeat split; reflexivity. Qed.

(** X11: for diffusion out with an initial value of at most 1
    ([final ≤ initial ≤ 1]), a positive time and at least one point, the
    field returned by [diffusion3Dnpi_params] is the product of the three
    1D profiles, [v[d][e][f] = ya[d]·yb[e]·yc[f]], and each centerline
    slice is the 1D profile of its direction multiplied by the middle
    values of the other two; the arguments [erf_or_sum] and [infinity]
    play no part. *)
Theorem diffusion3Dnpi_product_field (params : Parameters)
    (La Lb Lc t init fin Dx Dy Dz : R)
    (method : string) (centered : bool) (infinity points : nat) :
  values3D params [La; Lb; Lc] t init fin Dx Dy Dz ->
  0 < t -> (1 <= points)%nat ->
  fin <= init <= 1 ->
  let ya := model1D La t Dx init fin points in
  let yb := model1D Lb t Dy init fin points in
  let yc := model1D Lc t Dz init fin points in
  let mid := Nat.div points 2 in
  exists v pos,
    diffusion3Dnpi_params params None None method centered infinity points =
    ret (NPI_Model v
           [map (fun y => y * (nth mid yb 0 * nth mid yc 0)) ya;
            map (fun y => y * (nth mid ya 0 * nth mid yc 0)) yb;
            map (fun y => y * (nth mid ya 0 * nth mid yb 0)) yc]
           pos)
    /\ forall d e f, (d < points)%nat -> (e < points)%nat -> (f < points)%nat ->
         at3 v d e f = nth d ya 0 * nth e yb 0 * nth f yc 0.
Proof.
  intros Hv Hpos Hp [Hfi Hi1] ya yb yc mid.
  assert (Ht : 0 <= t) by lra.
  pose proof (diffusion3Dnpi_params_field params La Lb Lc t init fin Dx Dy Dz method
                centered infinity points Hv Ht Hp) as H.
  cbv zeta in H.
  assert (Hi : npi_init1D init fin = init).
  { unfold npi_init1D. cbv zeta. destruct (Rgt_dec init 1); [lra |].
    destruct (Rlt_dec init fin); [lra | reflexivity]. }
  assert (Hf : npi_fin1D init fin = fin).
  { unfold npi_fin1D. cbv zeta. destruct (Rgt_dec init 1); [lra |].
    destruct (Rlt_dec init fin); [lra | reflexivity]. }
  assert (Hg : forall u, npi_transform init fin u = u).
  { intros u. unfold npi_transform. cbv zeta. destruct (Rgt_dec init 1); [lra |].
    destruct (Rlt_dec init fin); [lra | ring]. }
  rewrite Hi, Hf in H. fold ya yb yc mid in H.
  rewrite H. clear H.
  do 2 eexists. split.
  - f_equal. f_equal. f_equal; [| f_equal; [| f_equal]].
    + rewrite <- (map_seq_nth (fun y => y * (nth mid yb 0 * nth mid yc 0)) ya).
      replace (List.length ya) with points by (unfold ya; now rewrite model1D_length).
      apply map_ext. intros d.
      rewrite Hg. ring.
    + rewrite <- (map_seq_nth (fun y => y * (nth mid ya 0 * nth mid yc 0)) yb).
      replace (List.length yb) with points by (unfold yb; now rewrite model1D_length).
      apply map_ext. intros d.
      rewrite Hg. ring.
    + rewrite <- (map_seq_nth (fun y => y * (nth mid ya 0 * nth mid yb 0)) yc).
      replace (List.length yc) with points by (unfold yc; now rewrite model1D_length).
      apply map_ext. intros d.
      rewrite Hg. ring.
  - intros d e f Hd He Hf'. rewrite at3_outer by assumption. apply Hg.
Qed.

Lemma diffusion3Dnpi_product_field_witness :
  let ya := model1D 2000 3600 (-12) 1 0 50 in
  let yb := model1D 3000 3600 (-13) 1 0 50 in
  let yc := model1D 4000 3600 (-12) 1 0 50 in
  exists v pos,
    diffusion3Dnpi_params (params3D [2000; 3000; 4000] (-12) (-13) (-12) 3600 1 0)
      None None "erf" true 100 50 =
    ret (NPI_Model v
           [map (fun y => y * (nth 25 yb 0 * nth 25 yc 0)) ya;
            map (fun y => y * (nth 25 ya 0 * nth 25 yc 0)) yb;
            map (fun y => y * (nth 25 ya 0 * nth 25 yb 0)) yc]
           pos)
    /\ forall d e f, (d < 50)%nat -> (e < 50)%nat -> (f < 50)%nat ->
         at3 v d e f = nth d ya 0 * nth e yb 0 * nth f yc 0.
Proof.
  apply (diffusion3Dnpi_product_field
           (params3D [2000; 3000; 4000] (-12) (-13) (-12) 3600 1 0)
           2000 3000 4000 3600 1 0 (-12) (-13) (-12) "erf" true 100 50).
  - apply params3D_values.
  - lra.
  - lia.
  - lra.
Defined.

(** X12: diffusion in is computed from diffusion out: for
    [initial < final ≤ 1] and a positive time, the field and the slices
    for (initial, final) are one minus those for the swapped pair
    (final, initial), plus the initial value, on the same positions. *)
Theorem diffusion3Dnpi_in_out (params_in params_out : Parameters)
    (La Lb Lc t init fin Dx Dy Dz : R)
    (method : string) (centered : bool) (infinity points : nat) :
  values3D params_in [La; Lb; Lc] t init fin Dx Dy Dz ->
  values3D params_out [La; Lb; Lc] t fin init Dx Dy Dz ->
  0 < t -> (1 <= points)%nat ->
  init < fin <= 1 ->
  exists v_in s_in v_out s_out pos,
    diffusion3Dnpi_params params_in None None method centered infinity points
    = ret (NPI_Model v_in s_in pos)
    /\ diffusion3Dnpi_params params_out None None method centered infinity points
       = ret (NPI_Model v_out s_out pos)
    /\ (forall d e f, (d < points)%nat -> (e < points)%nat -> (f < points)%nat ->
          at3 v_in d e f = 1 - at3 v_out d e f + init)
    /\ (forall k i, (k < 3)%nat -> (i < points)%nat ->
          nth i (nth k s_in []) 0 = 1 - nth i (nth k s_out []) 0 + init).
Proof.
  intros Hin Hout Hpos Hp [Hlt Hf1].
  assert (Ht : 0 <= t) by lra.
  pose proof (diffusion3Dnpi_params_field params_in La Lb Lc t init fin Dx Dy Dz method
                centered infinity points Hin Ht Hp) as H1.
  pose proof (diffusion3Dnpi_params_field params_out La Lb Lc t fin init Dx Dy Dz method
                centered infinity points Hout Ht Hp) as H2.
  cbv zeta in H1, H2.
  assert (Hi1 : npi_init1D init fin = fin).
  { unfold npi_init1D. cbv zeta. destruct (Rgt_dec init 1); [lra |].
    destruct (Rlt_dec init fin); [reflexivity | lra]. }
  assert (Hf1' : npi_fin1D init fin = init).
  { unfold npi_fin1D. cbv zeta. destruct (Rgt_dec init 1); [lra |].
    destruct (Rlt_dec init fin); [reflexivity | lra]. }
  assert (Hi2 : npi_init1D fin init = fin).
  { unfold npi_init1D. cbv zeta. destruct (Rgt_dec fin 1); [lra |].
    destruct (Rlt_dec fin init); [lra | reflexivity]. }
  assert (Hf2 : npi_fin1D fin init = init).
  { unfold npi_fin1D. cbv zeta. destruct (Rgt_dec fin 1); [lra |].
    destruct (Rlt_dec fin init); [lra | reflexivity]. }
  assert (Hg1 : forall u, npi_transform init fin u = 1 - u + init).
  { intros u. unfold npi_transform. cbv zeta. destruct (Rgt_dec init 1); [lra |].
    destruct (Rlt_dec init fin); [| lra]. destruct (Rgt_dec init fin); [lra | ring]. }
  assert (Hg2 : forall u, npi_transform fin init u = u).
  { intros u. unfold npi_transform. cbv zeta. destruct (Rgt_dec fin 1); [lra |].
    destruct (Rlt_dec fin init); [lra | ring]. }
  rewrite Hi1, Hf1' in H1. rewrite Hi2, Hf2 in H2.
  rewrite H1, H2. clear H1 H2.
  do 5 eexists. split; [reflexivity |]. split; [reflexivity |]. split.
  - intros d e f Hd He Hf. rewrite !at3_outer by assumption.
    rewrite Hg1, Hg2. reflexivity.
  - intros k i Hk Hi.
    destruct k as [| [| [| k]]]; try lia; cbn [nth];
      rewrite !nth_map_seq by exact Hi; rewrite Hg1, Hg2; reflexivity.
Qed.

Lemma diffusion3Dnpi_in_out_witness :
  exists v_in s_in v_out s_out pos,
    diffusion3Dnpi_params (params3D [2000; 3000; 4000] (-12) (-13) (-12) 3600 0 1)
      None None "erf" true 100 50
    = ret (NPI_Model v_in s_in pos)
    /\ diffusion3Dnpi_params (params3D [2000; 3000; 4000] (-12) (-13) (-12) 3600 1 0)
         None None "erf" true 100 50
       = ret (NPI_Model v_out s_out pos)
    /\ (forall d e f, (d < 50)%nat -> (e < 50)%nat -> (f < 50)%nat ->
          at3 v_in d e f = 1 - at3 v_out d e f + 0)
    /\ (forall k i, (k < 3)%nat -> (i < 50)%nat ->
          nth i (nth k s_in []) 0 = 1 - nth i (nth k s_out []) 0 + 0).
Proof.
  apply (diffusion3Dnpi_in_out _ _ 2000 3000 4000 3600 0 1 (-12) (-13) (-12)
           "erf" true 100 50).
  - apply params3D_values.
  - apply params3D_values.
  - lra.
  - lia.
  - lra.
Defined.

(** X13: an initial value [s] above 1 scales the whole result: for a
    final value of at most 1 and a positive time, the field and the
    slices for initial [s] are [s] times those for initial 1, the final
    value included. *)
Theorem diffusion3Dnpi_scaled (params_s params_1 : Parameters)
    (La Lb Lc t s fin Dx Dy Dz : R)
    (method : string) (centered : bool) (infinity points : nat) :
  values3D params_s [La; Lb; Lc] t s fin Dx Dy Dz ->
  values3D params_1 [La; Lb; Lc] t 1 fin Dx Dy Dz ->
  0 < t -> (1 <= points)%nat ->
  1 < s -> fin <= 1 ->
  exists v_s s_s v_1 s_1 pos,
    diffusion3Dnpi_params params_s None None method centered infinity points
    = ret (NPI_Model v_s s_s pos)
    /\ diffusion3Dnpi_params params_1 None None method centered infinity points
       = ret (NPI_Model v_1 s_1 pos)
    /\ (forall d e f, (d < points)%nat -> (e < points)%nat -> (f < points)%nat ->
          at3 v_s d e f = at3 v_1 d e f * s)
    /\ (forall k i, (k < 3)%nat -> (i < points)%nat ->
          nth i (nth k s_s []) 0 = nth i (nth k s_1 []) 0 * s).
Proof.
  intros Hs H1 Hpos Hp Hs1 Hf1.
  assert (Ht : 0 <= t) by lra.
  pose proof (diffusion3Dnpi_params_field params_s La Lb Lc t s fin Dx Dy Dz method
                centered infinity points Hs Ht Hp) as E1.
  pose proof (diffusion3Dnpi_params_field params_1 La Lb Lc t 1 fin Dx Dy Dz method
                centered infinity points H1 Ht Hp) as E2.
  cbv zeta in E1, E2.
  assert (Hi1 : npi_init1D s fin = 1).
  { unfold npi_init1D. cbv zeta. destruct (Rgt_dec s 1); [| lra].
    destruct (Rlt_dec 1 fin); [lra | reflexivity]. }
  assert (Hf1' : npi_fin1D s fin = fin).
  { unfold npi_fin1D. cbv zeta. destruct (Rgt_dec s 1); [| lra].
    destruct (Rlt_dec 1 fin); [lra | reflexivity]. }
  assert (Hi2 : npi_init1D 1 fin = 1).
  { unfold npi_init1D. cbv zeta. destruct (Rgt_dec 1 1); [lra |].
    destruct (Rlt_dec 1 fin); [lra | reflexivity]. }
  assert (Hf2 : npi_fin1D 1 fin = fin).
  { unfold npi_fin1D. cbv zeta. destruct (Rgt_dec 1 1); [lra |].
    destruct (Rlt_dec 1 fin); [lra | reflexivity]. }
  assert (Hg1 : forall u, npi_transform s fin u = u * s).
  { intros u. unfold npi_transform. cbv zeta. destruct (Rgt_dec s 1); [| lra].
    destruct (Rlt_dec 1 fin); [lra | ring]. }
  assert (Hg2 : forall u, npi_transform 1 fin u = u).
  { intros u. unfold npi_transform. cbv zeta. destruct (Rgt_dec 1 1); [lra |].
    destruct (Rlt_dec 1 fin); [lra | ring]. }
  rewrite Hi1, Hf1' in E1. rewrite Hi2, Hf2 in E2.
  rewrite E1, E2. clear E1 E2.
  do 5 eexists. split; [reflexivity |]. split; [reflexivity |]. split.
  - intros d e f Hd He Hf. rewrite !at3_outer by assumption.
    rewrite Hg1, Hg2. reflexivity.
  - intros k i Hk Hi.
    destruct k as [| [| [| k]]]; try lia; cbn [nth];
      rewrite !nth_map_seq by exact Hi; rewrite Hg1, Hg2; reflexivity.
Qed.

Lemma diffusion3Dnpi_scaled_witness :
  exists v_s s_s v_1 s_1 pos,
    diffusion3Dnpi_params (params3D [2000; 3000; 4000] (-12) (-13) (-12) 3600 5 0)
      None None "erf" true 100 50
    = ret (NPI_Model v_s s_s pos)
    /\ diffusion3Dnpi_params (params3D [2000; 3000; 4000] (-12) (-13) (-12) 3600 1 0)
         None None "erf" true 100 50
       = ret (NPI_Model v_1 s_1 pos)
    /\ (forall d e f, (d < 50)%nat -> (e < 50)%nat -> (f < 50)%nat ->
          at3 v_s d e f = at3 v_1 d e f * 5)
    /\ (forall k i, (k < 3)%nat -> (i < 50)%nat ->
          nth i (nth k s_s []) 0 = nth i (nth k s_1 []) 0 * 5).
Proof.
  apply (diffusion3Dnpi_scaled _ _ 2000 3000 4000 3600 5 0 (-12) (-13) (-12)
           "erf" true 100 50).
  - apply params3D_values.
  - apply params3D_values.
  - lra.
  - lia.
  - lra.
  - lra.
Defined.

(** ** Data and errors in the 3D functions *)

Lemma map_const_repeat {A : Type} (c : R) (l : list A) :
  map (fun _ => c) l = repeat c (List.length l).
Proof. induction l as [| a l IH]; simpl; [reflexivity | now rewrite IH]. Qed.

(** X14: the residuals of [diffusion3Dnpi_params] are a stub: with
    data of matching shapes (non-negative time, at least one point) the
    call prints 'fitting to data' and returns three lists of [points]
    zeros, whatever the data and the model are. *)
Theorem diffusion3Dnpi_residuals_zero (params : Parameters)
    (La Lb Lc t init fin Dx Dy Dz : R) (x_data y_data : list (list R))
    (method : string) (centered : bool) (infinity points : nat) :
  values3D params [La; Lb; Lc] t init fin Dx Dy Dz ->
  0 <= t -> (1 <= points)%nat ->
  np_shape x_data = np_shape y_data ->
  diffusion3Dnpi_params params (Some x_data) (Some y_data) method centered
    infinity points =
  ([Print [PStr "fitting to data"]],
   Returned (NPI_Residuals [repeat 0 points; repeat 0 points; repeat 0 points])).
Proof.
  intros Hv Ht Hp Hs.
  rewrite diffusion3Dnpi_params_data.
  rewrite (diffusion3Dnpi_params_field params La Lb Lc t init fin Dx Dy Dz method
             centered infinity points Hv Ht Hp).
  cbv zeta. unfold fitting_by_shape.
  destruct (list_eq_dec Nat.eq_dec (np_shape x_data) (np_shape y_data)) as [_ | Hn];
    [| contradiction].
  change (print [PStr "fitting to data"] ;;; ret true)
    with ([Print [PStr "fitting to data"]], @Returned bool true).
  rewrite bind_returned, bind_ret_l. unfold output, result, ret, npi_with_fitting.
  cbn [fst snd map app].
  rewrite !map_const_repeat, !length_map, !length_seq. reflexivity.
Qed.

Lemma diffusion3Dnpi_residuals_zero_witness :
  diffusion3Dnpi_params (params3D [2000; 3000; 4000] (-12) (-13) (-12) 3600 1 0)
    (Some [[0; 1000]; [0; 1500]; [0; 2000]]) (Some [[1; 1]; [1; 1]; [1; 1]])
    "erf" true 100 50 =
  ([Print [PStr "fitting to data"]],
   Returned (NPI_Residuals [repeat 0 50; repeat 0 50; repeat 0 50])).
Proof.
  apply (diffusion3Dnpi_residuals_zero _ 2000 3000 4000 3600 1 0 (-12) (-13) (-12)).
  - apply params3D_values.
  - lra.
  - lia.
  - reflexivity.
Defined.

(** X15: with data whose two shapes differ, both 3D functions print
    that x and y data must be the same shape, with the two shapes, and
    then go on as without data: [diffusion3Dnpi_params] returns the
    model, and [diffusion3Dwb_params] (valid ray paths) returns the
    whole-block positions and profiles. *)
Theorem diffusion3D_shape_mismatch (params : Parameters)
    (La Lb Lc t init fin Dx Dy Dz : R) (x_data y_data : list (list R))
    (r0 r1 r2 : string)
    (method : string) (centered show_plot : bool) (infinity points : nat) :
  values3D params [La; Lb; Lc] t init fin Dx Dy Dz ->
  0 <= t -> (1 <= points)%nat ->
  r0 = "b" \/ r0 = "c" -> r1 = "a" \/ r1 = "c" -> r2 = "a" \/ r2 = "b" ->
  np_shape x_data <> np_shape y_data ->
  let messages :=
    [Print [PStr "x and y data must be the same shape"];
     Print [PStr "x"; PShape (np_shape x_data)];
     Print [PStr "y"; PShape (np_shape y_data)]] in
  let npi :=
    diffusion3Dnpi_params params (Some x_data) (Some y_data) method centered
      infinity points in
  let wb :=
    diffusion3Dwb_params params (Some x_data) (Some y_data) (Some [r0; r1; r2])
      method show_plot infinity points in
  let wb_plain :=
    diffusion3Dwb_params params None None (Some [r0; r1; r2]) method show_plot
      infinity points in
  (exists v s pos,
     diffusion3Dnpi_params params None None method centered infinity points
     = ret (NPI_Model v s pos)
     /\ npi = (messages, Returned (NPI_Model v s pos)))
  /\ output wb = (messages ++ output wb_plain)%list
  /\ result wb = result wb_plain
  /\ exists positions profiles, result wb = Returned (WB_Profiles positions profiles).
Proof.
  intros Hv Ht Hp H0 H1 H2 Hs messages npi wb wb_plain.
  assert (Hshown : fitting_by_shape (Some x_data) (Some y_data) =
                   (messages, Returned false)).
  { unfold fitting_by_shape.
    destruct (list_eq_dec Nat.eq_dec (np_shape x_data) (np_shape y_data));
      [contradiction | reflexivity]. }
  split.
  - destruct (diffusion3Dnpi_params_returns params La Lb Lc t init fin Dx Dy Dz
                method centered infinity points Hv Ht Hp) as (v & s & pos & Hnpi).
    exists v, s, pos. split; [exact Hnpi |].
    unfold npi. rewrite diffusion3Dnpi_params_data, Hshown, bind_returned, Hnpi.
    rewrite bind_ret_l. unfold output, result, ret. cbn [fst snd npi_with_fitting].
    now rewrite app_nil_r.
  - destruct (diffusion3Dwb_params_after_field params La Lb Lc t init fin Dx Dy Dz
                method infinity points Hv Ht Hp) as (v & Hfield).
    destruct (Hfield None None r0 r1 r2 show_plot) as (f1 & Hf1 & _ & _ & _ & Hplain).
    destruct (Hfield (Some x_data) (Some y_data) r0 r1 r2 show_plot)
      as (f2 & Hf2 & _ & _ & _ & Hcall).
    specialize (Hplain H0 H1 H2). specialize (Hcall H0 H1 H2).
    cbv zeta in Hplain, Hcall. fold wb in Hcall. fold wb_plain in Hplain.
    assert (f1 = false) as -> by (unfold fitting_by_shape, ret in Hf1; congruence).
    rewrite Hshown in Hf2. unfold output in Hf2 at 1. cbn [fst] in Hf2.
    assert (f2 = false) as -> by congruence.
    rewrite Hshown in Hcall. unfold output in Hcall at 1. cbn [fst] in Hcall.
    change (output (fitting_by_shape None None)) with (@nil event) in Hplain.
    destruct (plot_step_returns show_plot) as (o & Hplot).
    rewrite Hplot in Hcall, Hplain.
    rewrite !bind_returned in Hcall, Hplain.
    rewrite Hcall, Hplain. unfold output, result, ret. cbn [fst snd].
    split; [reflexivity |]. split; [reflexivity |].
    do 2 eexists. reflexivity.
Qed.

Lemma diffusion3D_shape_mismatch_witness :
  let params := params3D [2000; 3000; 4000] (-12) (-13) (-12) 3600 1 0 in
  let messages :=
    [Print [PStr "x and y data must be the same shape"];
     Print [PStr "x"; PShape [3; 2]%nat];
     Print [PStr "y"; PShape [2; 2]%nat]] in
  let wb :=
    diffusion3Dwb_params params (Some [[0; 1000]; [0; 1500]; [0; 2000]])
      (Some [[1; 1]; [1; 1]]) (Some ["b"; "c"; "a"]) "erf" false 100 50 in
  let wb_plain :=
    diffusion3Dwb_params params None None (Some ["b"; "c"; "a"]) "erf" false 100 50 in
  (exists v s pos,
     diffusion3Dnpi_params params None None "erf" true 100 50
     = ret (NPI_Model v s pos)
     /\ diffusion3Dnpi_params params (Some [[0; 1000]; [0; 1500]; [0; 2000]])
          (Some [[1; 1]; [1; 1]]) "erf" true 100 50
        = (messages, Returned (NPI_Model v s pos)))
  /\ output wb = (messages ++ output wb_plain)%list
  /\ result wb = result wb_plain
  /\ exists positions profiles, result wb = Returned (WB_Profiles positions profiles).
Proof.
  apply (diffusion3D_shape_mismatch
           (params3D [2000; 3000; 4000] (-12) (-13) (-12) 3600 1 0)
           2000 3000 4000 3600 1 0 (-12) (-13) (-12)
           [[0; 1000]; [0; 1500]; [0; 2000]] [[1; 1]; [1; 1]] "b" "c" "a" "erf"
           true false 100 50).
  - apply params3D_values.
  - lra.
  - lia.
  - left; reflexivity.
  - right; reflexivity.
  - left; reflexivity.
  - discriminate.
Defined.

(** X16: with a negative time both 3D functions raise [TypeError]:
    the 1D function prints 'no negative time' and returns nothing, which
    the 3D function cannot unpack.  In [diffusion3Dwb_params] this
    happens before the ray paths and the data are looked at. *)
Theorem diffusion3D_negative_time (params : Parameters)
    (La Lb Lc t init fin Dx Dy Dz : R)
    (dx dy : option (list (list R))) (raypaths : list string)
    (method : string) (centered show_plot : bool) (infinity points : nat) :
  values3D params [La; Lb; Lc] t init fin Dx Dy Dz -> t < 0 ->
  diffusion3Dnpi_params params dx dy method centered infinity points =
  ((output (fitting_by_shape dx dy) ++ [Print [PStr "no negative time"]])%list,
   Raised TypeError)
  /\ diffusion3Dwb_params params dx dy (Some raypaths) method show_plot infinity points =
     ([Print [PStr "no negative time"]], Raised TypeError).
Proof.
  intros Hv Hneg. split.
  - rewrite diffusion3Dnpi_params_data.
    destruct (fitting_by_shape_returns dx dy) as (fitting & Hfit).
    rewrite Hfit, bind_returned.
    rewrite (diffusion3Dnpi_params_negative_time params La Lb Lc t init fin Dx Dy Dz
               method centered infinity points Hv Hneg).
    reflexivity.
  - unfold diffusion3Dwb_params.
    rewrite (diffusion3Dnpi_params_negative_time params La Lb Lc t init fin Dx Dy Dz
               method true 100 points Hv Hneg).
    reflexivity.
Qed.

Lemma diffusion3D_negative_time_witness :
  diffusion3Dnpi_params (params3D [2000; 3000; 4000] (-12) (-13) (-12) (-1) 1 0)
    (Some [[0]; [0]; [0]]) (Some [[1]; [1]; [1]]) "erf" true 100 50 =
  ([Print [PStr "fitting to data"]; Print [PStr "no negative time"]], Raised TypeError)
  /\ diffusion3Dwb_params (params3D [2000; 3000; 4000] (-12) (-13) (-12) (-1) 1 0)
       (Some [[0]; [0]; [0]]) (Some [[1]; [1]; [1]]) (Some ["x"; "y"; "z"]) "erf" true
       100 50 =
     ([Print [PStr "no negative time"]], Raised TypeError).
Proof.
  apply (diffusion3D_negative_time
           (params3D [2000; 3000; 4000] (-12) (-13) (-12) (-1) 1 0)
           2000 3000 4000 (-1) 1 0 (-12) (-13) (-12)
           (Some [[0]; [0]; [0]]) (Some [[1]; [1]; [1]]) ["x"; "y"; "z"] "erf"
           true true 100 50).
  - apply params3D_values.
  - lra.
Defined.

(** X17: for a non-negative time, [diffusion3Dnpi_params] raises
    [IndexError] when the parameter set holds fewer than three lengths
    (which [params_setup3D] does not check) or when [points] is 0; only
    the lines of the shape test are printed before. *)
Theorem diffusion3Dnpi_index_errors (params : Parameters)
    (L3 : list R) (t init fin Dx Dy Dz : R)
    (dx dy : option (list (list R)))
    (method : string) (centered : bool) (infinity points : nat) :
  values3D params L3 t init fin Dx Dy Dz -> 0 <= t ->
  (List.length L3 < 3)%nat \/ points = 0%nat ->
  diffusion3Dnpi_params params dx dy method centered infinity points =
  (output (fitting_by_shape dx dy), Raised IndexError).
Proof.
  intros (p & Hp & HL & Ht & Hi & Hf & Hx & Hy & Hz) Htime Hcase.
  destruct (valuesdict_has_param _ _ _ _ Hp Ht) as (prm_t & Hgt).
  destruct (valuesdict_has_param _ _ _ _ Hp Hi) as (prm_i & Hgi).
  destruct (valuesdict_has_param _ _ _ _ Hp Hf) as (prm_f & Hgf).
  destruct (valuesdict_has_param _ _ _ _ Hp Hx) as (prm_x & Hgx).
  destruct (valuesdict_has_param _ _ _ _ Hp Hy) as (prm_y & Hgy).
  destruct (valuesdict_has_param _ _ _ _ Hp Hz) as (prm_z & Hgz).
  rewrite diffusion3Dnpi_params_data.
  destruct (fitting_by_shape_returns dx dy) as (fitting & Hfit).
  rewrite Hfit, bind_returned.
  assert (Hplain : diffusion3Dnpi_params params None None method centered infinity points
                   = raise IndexError).
  { unfold diffusion3Dnpi_params, fitting_by_shape.
    rewrite bind_ret_l.
    unfold getnum.
    rewrite Hp, bind_ret_l, HL, bind_ret_l, Ht, bind_ret_l, Hi.
    rewrite !bind_ret_l; cbn [as_num]; rewrite !bind_ret_l.
    rewrite Hgi, bind_ret_l, Hf, !bind_ret_l; cbn [as_num].
    rewrite !bind_ret_l, Hgf, bind_ret_l, Hx, bind_ret_l, Hy, bind_ret_l, Hz,
      bind_ret_l, Hgx, bind_ret_l, Hgy, bind_ret_l, Hgz, bind_ret_l.
    cbv zeta; cbn [for_each].
    destruct L3 as [| La [| Lb [| Lc Ls]]].
    - reflexivity.
    - erewrite (profile1D_along_model _ _ _ _ _ _ _ _ _ _ 0)
        by (try reflexivity; eassumption).
      rewrite bind_ret_l. reflexivity.
    - erewrite (profile1D_along_model _ _ _ _ _ _ _ _ _ _ 0)
        by (try reflexivity; eassumption).
      erewrite (profile1D_along_model _ _ _ _ _ _ _ _ _ _ 1)
        by (try reflexivity; eassumption).
      rewrite !bind_ret_l. reflexivity.
    - destruct Hcase as [Hlen | ->]; [simpl in Hlen; lia |].
      erewrite !profile1D_along_model by (try reflexivity; eassumption).
      rewrite !bind_ret_l. reflexivity. }
  rewrite Hplain. unfold output, result, raise. cbn [bind fst snd].
  now rewrite app_nil_r.
Qed.

Lemma diffusion3Dnpi_index_errors_witness :
  diffusion3Dnpi_params (params3D [2000; 3000] (-12) (-13) (-12) 3600 1 0)
    None None "erf" true 100 50 = ([], Raised IndexError)
  /\ diffusion3Dnpi_params (params3D [2000; 3000; 4000] (-12) (-13) (-12) 3600 1 0)
       None None "erf" true 100 0 = ([], Raised IndexError).
Proof.
  split.
  - apply (diffusion3Dnpi_index_errors _ [2000; 3000] 3600 1 0 (-12) (-13) (-12)
             None None "erf" true 100 50).
    + apply params3D_values.
    + lra.
    + left. simpl. lia.
  - apply (diffusion3Dnpi_index_errors _ [2000; 3000; 4000] 3600 1 0 (-12) (-13) (-12)
             None None "erf" true 100 0).
    + apply params3D_values.
    + lra.
    + right. reflexivity.
Defined.

(** ** The convenience wrapper of the 3D model *)

Lemma linspace_shift (L : R) (n : nat) :
  map (fun u => u - L / 2) (linspace 0 (L / 2 * 2) n) = linspace (- (L / 2)) (L / 2) n.
Proof.
  unfold linspace. rewrite map_map. apply map_ext. intros i.
  unfold Rdiv. ring.
Qed.

Section Wrapper3DnpiFacts.

Variables figure axes3 : Type.

Variable plot_3panels :
  list (list R) -> list (list R) -> option (figure * axes3) -> R -> bool -> list R ->
  py (figure * axes3).

(** The wrapper up to the plotting step. *)
Lemma diffusion3Dnpi_model_step (La Lb Lc Dx Dy Dz t initial final top : R)
    (points : nat) (plot3 centered : bool) (figaxis3 : option (figure * axes3)) :
  0 <= t -> (1 <= points)%nat ->
  exists v s pos,
    diffusion3Dnpi_params (params3D [La; Lb; Lc] Dx Dy Dz t initial final)
      None None "erf" centered 100 points = ret (NPI_Model v s pos)
    /\ diffusion3Dnpi figure axes3 plot_3panels [La; Lb; Lc] [Dx; Dy; Dz] t points
         initial final top plot3 centered figaxis3 =
       if plot3 then
         try_except_TypeError
           (match figaxis3 with
            | None =>
                fax <- plot_3panels pos s figaxis3 top centered [La; Lb; Lc] ;;
                ret (NW_Figure (fst fax) (snd fax) v pos s)
            | Some _ =>
                plot_3panels pos s figaxis3 top centered [La; Lb; Lc] ;;;
                ret (NW_Model v pos s)
            end)
           (print [] ;;;
            print [PStr "TypeError: problem in plot_3panels()"] ;;;
            ret NW_None)
       else ret (NW_Model v pos s).
Proof.
  intros Ht Hp.
  pose proof (diffusion3Dnpi_params_model _ La Lb Lc t initial final Dx Dy Dz "erf"
                centered 100 points (params3D_values _ _ _ _ _ _ _) Ht Hp) as Hc.
  pose proof (diffusion3Dnpi_params_model _ La Lb Lc t initial final Dx Dy Dz "erf"
                false 100 points (params3D_values _ _ _ _ _ _ _) Ht Hp) as Hf.
  cbv zeta in Hc, Hf.
  do 3 eexists. split; [exact Hc |].
  unfold diffusion3Dnpi. rewrite params3D_setup, bind_ret_l, Hf, bind_ret_l.
  cbn [unpack_triple]. rewrite bind_ret_l. cbn [fst snd].
  destruct centered.
  - cbn [for_each].
    change (index [linspace 0 (La / 2 * 2) points; linspace 0 (Lb / 2 * 2) points;
                   linspace 0 (Lc / 2 * 2) points] 0)
      with (ret (linspace 0 (La / 2 * 2) points)).
    change (index [linspace 0 (La / 2 * 2) points; linspace 0 (Lb / 2 * 2) points;
                   linspace 0 (Lc / 2 * 2) points] 1)
      with (ret (linspace 0 (Lb / 2 * 2) points)).
    change (index [linspace 0 (La / 2 * 2) points; linspace 0 (Lb / 2 * 2) points;
                   linspace 0 (Lc / 2 * 2) points] 2)
      with (ret (linspace 0 (Lc / 2 * 2) points)).
    change (index [La; Lb; Lc] 0) with (ret La).
    change (index [La; Lb; Lc] 1) with (ret Lb).
    change (index [La; Lb; Lc] 2) with (ret Lc).
    rewrite !bind_ret_l. cbn [app]. rewrite !linspace_shift. reflexivity.
  - rewrite bind_ret_l. reflexivity.
Qed.

(** X18: for three lengths, three diffusivities, a positive time and
    at least one point, [diffusion3Dnpi] returns the field, positions and
    slices of [diffusion3Dnpi_params] on the parameter set of
    [params_setup3D], in the order (v, positions, slices): centering by
    subtraction in the wrapper gives the positions that
    [diffusion3Dnpi_params] lays out with [centered] itself.  With
    [plot3] the outcome of [styles.plot_3panels] decides: its figure is
    returned with the model when no axes were given, a [TypeError] is
    swallowed (two lines are printed and nothing is returned), any other
    exception propagates. *)
Theorem diffusion3Dnpi_wrapper (La Lb Lc Dx Dy Dz t initial final top : R)
    (points : nat) (plot3 centered : bool) (figaxis3 : option (figure * axes3)) :
  0 < t -> (1 <= points)%nat ->
  let call :=
    diffusion3Dnpi figure axes3 plot_3panels [La; Lb; Lc] [Dx; Dy; Dz] t points
      initial final top plot3 centered figaxis3 in
  exists v s pos,
    diffusion3Dnpi_params (params3D [La; Lb; Lc] Dx Dy Dz t initial final)
      None None "erf" centered 100 points = ret (NPI_Model v s pos)
    /\ (plot3 = false -> call = ret (NW_Model v pos s))
    /\ (plot3 = true ->
        forall o r,
          plot_3panels pos s figaxis3 top centered [La; Lb; Lc] = (o, r) ->
          call =
          match r with
          | Returned (f, ax) =>
              (o, Returned (match figaxis3 with
                            | None => NW_Figure f ax v pos s
                            | Some _ => NW_Model v pos s
                            end))
          | Raised TypeError =>
              ((o ++ [Print []; Print [PStr "TypeError: problem in plot_3panels()"]])%list,
               Returned NW_None)
          | Raised e => (o, Raised e)
          end).
Proof.
  intros Hpos Hp call.
  assert (Ht : 0 <= t) by lra.
  destruct (diffusion3Dnpi_model_step La Lb Lc Dx Dy Dz t initial final top points
              plot3 centered figaxis3 Ht Hp) as (v & s & pos & Hnpi & Hcall).
  fold call in Hcall.
  exists v, s, pos. split; [exact Hnpi |]. split.
  - intros ->. exact Hcall.
  - intros -> o r Hplot. rewrite Hcall, Hplot.
    destruct r as [[f ax] | e].
    + destruct figaxis3; rewrite bind_returned; unfold output, result, ret;
        cbn [fst snd try_except_TypeError]; now rewrite app_nil_r.
    + destruct figaxis3, e; reflexivity.
Qed.

End Wrapper3DnpiFacts.

Lemma diffusion3Dnpi_wrapper_witness :
  let plot_3panels :=
    fun (_ _ : list (list R)) (_ : option (unit * unit)) (_ : R) (_ : bool)
        (_ : list R) =>
      (@raise (unit * unit) TypeError) in
  let call :=
    diffusion3Dnpi unit unit plot_3panels [2000; 3000; 4000] [-12; -13; -12] 3600 50
      1 0 (12 / 10) true true None in
  exists v s pos,
    diffusion3Dnpi_params (params3D [2000; 3000; 4000] (-12) (-13) (-12) 3600 1 0)
      None None "erf" true 100 50 = ret (NPI_Model v s pos)
    /\ call = ([Print []; Print [PStr "TypeError: problem in plot_3panels()"]],
               Returned NW_None).
Proof.
  intros plot_3panels call.
  destruct (diffusion3Dnpi_wrapper unit unit plot_3panels 2000 3000 4000 (-12) (-13)
              (-12) 3600 1 0 (12 / 10) 50 true true None)
    as (v & s & pos & Hnpi & _ & Hplot); [lra | lia |].
  exists v, s, pos. split; [exact Hnpi |].
  exact (Hplot eq_refl [] (Raised TypeError) eq_refl).
Defined.

(** ** Whole-block profiles as path averages *)

(** The call on valid ray paths and no data, with the field written
    out. *)
Lemma diffusion3Dwb_params_model (params : Parameters)
    (La Lb Lc t init fin Dx Dy Dz : R) (r0 r1 r2 : string)
    (method : string) (show_plot : bool) (infinity points : nat) :
  values3D params [La; Lb; Lc] t init fin Dx Dy Dz ->
  0 <= t -> (1 <= points)%nat ->
  r0 = "b" \/ r0 = "c" -> r1 = "a" \/ r1 = "c" -> r2 = "a" \/ r2 = "b" ->
  let ya := model1D La t Dx (npi_init1D init fin) (npi_fin1D init fin) points in
  let yb := model1D Lb t Dy (npi_init1D init fin) (npi_fin1D init fin) points in
  let yc := model1D Lc t Dz (npi_init1D init fin) (npi_fin1D init fin) points in
  let v := map3 (npi_transform init fin) (outer_product points ya yb yc) in
  diffusion3Dwb_params params None None (Some [r0; r1; r2]) method show_plot
    infinity points =
  ((if show_plot then [Plot "styles.plot_3panels"] else []),
   Returned
     (WB_Profiles
        [linspace 0 (2 * (La / 2)) points; linspace 0 (2 * (Lb / 2)) points;
         linspace 0 (2 * (Lc / 2)) points]
        [wb_select_a points v r0; wb_select_b points v r1; wb_select_c points v r2])).
Proof.
  intros Hv Ht Hp H0 H1 H2 ya yb yc v.
  pose proof (diffusion3Dnpi_params_field params La Lb Lc t init fin Dx Dy Dz method
                true 100 points Hv Ht Hp) as Hnpi.
  cbv zeta in Hnpi. fold ya yb yc v in Hnpi.
  destruct Hv as (p & Hvd & HL & _).
  assert (Hmid : (points / 2 < points)%nat) by (apply Nat.div_lt; lia).
  unfold diffusion3Dwb_params.
  rewrite Hnpi, bind_ret_l. cbn [unpack_triple]. rewrite bind_ret_l.
  cbn [fst]. unfold fitting_by_shape. rewrite bind_ret_l.
  change (index [r0; r1; r2] 0) with (@ret string r0).
  change (index [r0; r1; r2] 1) with (@ret string r1).
  change (index [r0; r1; r2] 2) with (@ret string r2).
  rewrite bind_ret_l.
  rewrite !column_ok, !row_ok by exact Hmid.
  rewrite !bind_ret_l.
  assert (Hpos : for_each [0; 1; 2]%nat (wb_positions_along (VList [La; Lb; Lc]) points)
                 = ret [linspace 0 (2 * (La / 2)) points;
                        linspace 0 (2 * (Lb / 2)) points;
                        linspace 0 (2 * (Lc / 2)) points]) by reflexivity.
  unfold wb_select_a, wb_select_b, wb_select_c.
  destruct H0 as [-> | ->], H1 as [-> | ->], H2 as [-> | ->]; py_steps;
    rewrite Hvd, bind_ret_l, HL, bind_ret_l, Hpos, bind_ret_l;
    destruct show_plot; reflexivity.
Qed.

Lemma sum_list_scal (c : R) (h : nat -> R) (l : list nat) :
  sum_list (map (fun i => c * h i) l) = c * sum_list (map h l).
Proof.
  induction l as [| a l IH]; simpl; [ring |].
  unfold sum_list in *. simpl. rewrite IH. ring.
Qed.

Section Averages.

Variables (n : nat) (ya yb yc : list R).

Lemma mean_axis0_outer (e f : nat) :
  (e < n)%nat -> (f < n)%nat ->
  nth f (nth e (mean_axis0 n (map3 (fun u => u) (outer_product n ya yb yc))) []) 0 =
  mean n ya * nth e yb 0 * nth f yc 0.
Proof.
  intros He Hf. unfold mean_axis0.
  rewrite nth_map_seq by exact He. rewrite nth_map_seq by exact Hf.
  unfold mean.
  rewrite (map_ext_in _ (fun d => (nth e yb 0 * nth f yc 0) * nth d ya 0)).
  - rewrite sum_list_scal. unfold Rdiv. ring.
  - intros d Hd. apply in_seq in Hd. rewrite at3_outer by lia. ring.
Qed.

Lemma mean_axis1_outer (d f : nat) :
  (d < n)%nat -> (f < n)%nat ->
  nth f (nth d (mean_axis1 n (map3 (fun u => u) (outer_product n ya yb yc))) []) 0 =
  nth d ya 0 * mean n yb * nth f yc 0.
Proof.
  intros Hd Hf. unfold mean_axis1.
  rewrite nth_map_seq by exact Hd. rewrite nth_map_seq by exact Hf.
  unfold mean.
  rewrite (map_ext_in _ (fun e => (nth d ya 0 * nth f yc 0) * nth e yb 0)).
  - rewrite sum_list_scal. unfold Rdiv. ring.
  - intros e He. apply in_seq in He. rewrite at3_outer by lia. ring.
Qed.

Lemma mean_axis2_outer (d e : nat) :
  (d < n)%nat -> (e < n)%nat ->
  nth e (nth d (mean_axis2 n (map3 (fun u => u) (outer_product n ya yb yc))) []) 0 =
  nth d ya 0 * nth e yb 0 * mean n yc.
Proof.
  intros Hd He. unfold mean_axis2.
  rewrite nth_map_seq by exact Hd. rewrite nth_map_seq by exact He.
  unfold mean.
  rewrite (map_ext_in _ (fun f => (nth d ya 0 * nth e yb 0) * nth f yc 0)).
  - rewrite sum_list_scal. unfold Rdiv. ring.
  - intros f Hf. apply in_seq in Hf. rewrite at3_outer by lia. ring.
Qed.

End Averages.

Lemma neutral_transform (init fin : R) :
  fin <= init <= 1 ->
  npi_init1D init fin = init /\ npi_fin1D init fin = fin
  /\ forall u, npi_transform init fin u = u.
Proof.
  intros [Hfi Hi1]. unfold npi_init1D, npi_fin1D, npi_transform. cbv zeta.
  destruct (Rgt_dec init 1); [lra |].
  destruct (Rlt_dec init fin); [lra |].
  repeat split. intros u. ring.
Qed.

(** X19: for diffusion out with an initial value of at most 1, a
    positive time and valid ray paths, each whole-block profile returned
    by [diffusion3Dwb_params] is the 1D profile of its direction times
    the mean of the 1D profile along the ray path times the middle value
    of the 1D profile of the remaining direction. *)
Theorem diffusion3Dwb_path_average (params : Parameters)
    (La Lb Lc t init fin Dx Dy Dz : R) (r0 r1 r2 : string)
    (method : string) (show_plot : bool) (infinity points : nat) :
  values3D params [La; Lb; Lc] t init fin Dx Dy Dz ->
  0 < t -> (1 <= points)%nat ->
  fin <= init <= 1 ->
  r0 = "b" \/ r0 = "c" -> r1 = "a" \/ r1 = "c" -> r2 = "a" \/ r2 = "b" ->
  let ya := model1D La t Dx init fin points in
  let yb := model1D Lb t Dy init fin points in
  let yc := model1D Lc t Dz init fin points in
  let mid := Nat.div points 2 in
  exists pos,
    result (diffusion3Dwb_params params None None (Some [r0; r1; r2]) method
              show_plot infinity points) =
    Returned
      (WB_Profiles pos
         [map (fun y => y * (if String.eqb r0 "b"
                             then mean points yb * nth mid yc 0
                             else nth mid yb 0 * mean points yc)) ya;
          map (fun y => y * (if String.eqb r1 "a"
                             then mean points ya * nth mid yc 0
                             else nth mid ya 0 * mean points yc)) yb;
          map (fun y => y * (if String.eqb r2 "a"
                             then mean points ya * nth mid yb 0
                             else nth mid ya 0 * mean points yb)) yc]).
Proof.
  intros Hv Hpos Hp Hio H0 H1 H2 ya yb yc mid.
  assert (Ht : 0 <= t) by lra.
  rewrite (diffusion3Dwb_params_model params La Lb Lc t init fin Dx Dy Dz r0 r1 r2
             method show_plot infinity points Hv Ht Hp H0 H1 H2).
  cbv zeta.
  destruct (neutral_transform init fin Hio) as (-> & -> & Hg).
  rewrite (map3_ext _ (fun u => u) _ Hg).
  fold ya yb yc.
  set (v := map3 (fun u => u) (outer_product points ya yb yc)).
  assert (Hmid : (mid < points)%nat) by (apply Nat.div_lt; lia).
  assert (Hla : List.length ya = points) by apply model1D_length.
  assert (Hlb : List.length yb = points) by apply model1D_length.
  assert (Hlc : List.length yc = points) by apply model1D_length.
  destruct (mean_axis_length points v) as (Hm0 & Hm1 & Hm2).
  eexists. unfold result. cbn [snd]. f_equal. f_equal.
  f_equal; [| f_equal; [| f_equal]].
  - apply list_eq_nth.
    + destruct (wb_select_length points v r0 Hp) as (-> & _ & _).
      now rewrite length_map.
    + intros i Hi.
      destruct (wb_select_length points v r0 Hp) as (Hl & _ & _).
      rewrite Hl in Hi.
      rewrite (nth_map_in _ ya _ 0) by lia.
      unfold wb_select_a.
      destruct H0 as [-> | ->]; simpl String.eqb; cbv iota.
      * rewrite (nth_map_in _ _ _ []) by lia.
        unfold v, mid. rewrite mean_axis1_outer by assumption. ring.
      * rewrite (nth_map_in _ _ _ []) by lia.
        unfold v, mid. rewrite mean_axis2_outer by assumption. ring.
  - apply list_eq_nth.
    + destruct (wb_select_length points v r1 Hp) as (_ & -> & _).
      now rewrite length_map.
    + intros i Hi.
      destruct (wb_select_length points v r1 Hp) as (_ & Hl & _).
      rewrite Hl in Hi.
      rewrite (nth_map_in _ yb _ 0) by lia.
      unfold wb_select_b.
      destruct H1 as [-> | ->]; simpl String.eqb; cbv iota.
      * rewrite (nth_map_in _ _ _ []) by lia.
        unfold v, mid. rewrite mean_axis0_outer by assumption. ring.
      * unfold v, mid. rewrite mean_axis2_outer by assumption. ring.
  - apply list_eq_nth.
    + destruct (wb_select_length points v r2 Hp) as (_ & _ & ->).
      now rewrite length_map.
    + intros i Hi.
      destruct (wb_select_length points v r2 Hp) as (_ & _ & Hl).
      rewrite Hl in Hi.
      rewrite (nth_map_in _ yc _ 0) by lia.
      unfold wb_select_c.
      destruct H2 as [-> | ->]; simpl String.eqb; cbv iota.
      * unfold v, mid. rewrite mean_axis0_outer by assumption. ring.
      * unfold v, mid. rewrite mean_axis1_outer by assumption. ring.
Qed.

Lemma diffusion3Dwb_path_average_witness :
  let ya := model1D 2000 3600 (-12) 1 0 50 in
  let yb := model1D 3000 3600 (-13) 1 0 50 in
  let yc := model1D 4000 3600 (-12) 1 0 50 in
  exists pos,
    result (diffusion3Dwb_params
              (params3D [2000; 3000; 4000] (-12) (-13) (-12) 3600 1 0)
              None None (Some ["b"; "c"; "a"]) "erf" true 100 50) =
    Returned
      (WB_Profiles pos
         [map (fun y => y * (mean 50 yb * nth 25 yc 0)) ya;
          map (fun y => y * (nth 25 ya 0 * mean 50 yc)) yb;
          map (fun y => y * (mean 50 ya * nth 25 yb 0)) yc]).
Proof.
  apply (diffusion3Dwb_path_average
           (params3D [2000; 3000; 4000] (-12) (-13) (-12) 3600 1 0)
           2000 3000 4000 3600 1 0 (-12) (-13) (-12) "b" "c" "a" "erf" true 100 50).
  - apply params3D_values.
  - lra.
  - lia.
  - lra.
  - left; reflexivity.
  - right; reflexivity.
  - left; reflexivity.
Defined.

(** X20: a list of fewer than three ray paths whose entries are valid
    for their places makes [diffusion3Dwb_params] raise [IndexError]
    (after the lines of the shape test), where a missing [raypaths]
    argument only prints a message. *)
Theorem diffusion3Dwb_short_raypaths (params : Parameters)
    (La Lb Lc t init fin Dx Dy Dz : R)
    (dx dy : option (list (list R))) (raypaths : list string)
    (method : string) (show_plot : bool) (infinity points : nat) :
  values3D params [La; Lb; Lc] t init fin Dx Dy Dz ->
  0 <= t -> (1 <= points)%nat ->
  (List.length raypaths < 3)%nat ->
  (forall r, nth_error raypaths 0 = Some r -> r = "b" \/ r = "c") ->
  (forall r, nth_error raypaths 1 = Some r -> r = "a" \/ r = "c") ->
  diffusion3Dwb_params params dx dy (Some raypaths) method show_plot infinity points =
  (output (fitting_by_shape dx dy), Raised IndexError).
Proof.
  intros Hv Ht Hp Hlen Hr0 Hr1.
  destruct (diffusion3Dnpi_params_returns params La Lb Lc t init fin Dx Dy Dz
              method true 100 points Hv Ht Hp) as (v & s & pos & Hnpi).
  destruct (fitting_by_shape_returns dx dy) as (fitting & Hfit).
  assert (Hmid : (points / 2 < points)%nat) by (apply Nat.div_lt; lia).
  unfold diffusion3Dwb_params.
  rewrite Hnpi, bind_ret_l. cbn [unpack_triple]. rewrite bind_ret_l.
  cbn [fst]. rewrite Hfit, bind_returned.
  assert (Hgoal : forall m : py ret3Dwb, m = raise IndexError ->
            ((output (fitting_by_shape dx dy) ++ output m)%list, result m)
            = (output (fitting_by_shape dx dy), Raised IndexError)).
  { intros m ->. unfold output, result, raise. cbn [fst snd]. now rewrite app_nil_r. }
  apply Hgoal. clear Hgoal.
  destruct raypaths as [| r0 [| r1 [| r2 rest]]]; [| | | simpl in Hlen; lia].
  - reflexivity.
  - change (index [r0] 0) with (@ret string r0). rewrite bind_ret_l.
    rewrite !column_ok by exact Hmid.
    destruct (Hr0 r0 eq_refl) as [-> | ->]; py_steps; reflexivity.
  - change (index [r0; r1] 0) with (@ret string r0).
    change (index [r0; r1] 1) with (@ret string r1).
    rewrite bind_ret_l.
    rewrite !column_ok, !row_ok by exact Hmid.
    destruct (Hr0 r0 eq_refl) as [-> | ->], (Hr1 r1 eq_refl) as [-> | ->];
      py_steps; reflexivity.
Qed.

Lemma diffusion3Dwb_short_raypaths_witness :
  diffusion3Dwb_params (params3D [2000; 3000; 4000] (-12) (-13) (-12) 3600 1 0)
    None None (Some ["b"; "c"]) "erf" true 100 50 =
  ([], Raised IndexError).
Proof.
  apply (diffusion3Dwb_short_raypaths _ 2000 3000 4000 3600 1 0 (-12) (-13) (-12)
           None None ["b"; "c"] "erf" true 100 50).
  - apply params3D_values.
  - lra.
  - lia.
  - simpl. lia.
  - intros r H. injection H as <-. left. reflexivity.
  - intros r H. injection H as <-. right. reflexivity.
Defined.

(** X21: with valid ray paths and at least two points,
    [diffusion3Dwb_params] returns three position arrays and three
    profiles of [points] entries each; the positions of direction [k]
    run evenly from 0 to the length of that direction: they are not
    centered, unlike the default slice positions of
    [diffusion3Dnpi_params]. *)
Theorem diffusion3Dwb_positions (params : Parameters)
    (La Lb Lc t init fin Dx Dy Dz : R) (r0 r1 r2 : string)
    (method : string) (show_plot : bool) (infinity points : nat) :
  values3D params [La; Lb; Lc] t init fin Dx Dy Dz ->
  0 <= t -> (2 <= points)%nat ->
  r0 = "b" \/ r0 = "c" -> r1 = "a" \/ r1 = "c" -> r2 = "a" \/ r2 = "b" ->
  exists positions profiles,
    result (diffusion3Dwb_params params None None (Some [r0; r1; r2]) method
              show_plot infinity points) =
    Returned (WB_Profiles positions profiles)
    /\ List.length positions = 3%nat /\ List.length profiles = 3%nat
    /\ forall k, (k < 3)%nat ->
         List.length (nth k positions []) = points
         /\ List.length (nth k profiles []) = points
         /\ nth 0 (nth k positions []) 0 = 0
         /\ nth (points - 1) (nth k positions []) 0 = nth k [La; Lb; Lc] 0
         /\ forall i, (i < points)%nat ->
              nth i (nth k positions []) 0 =
              INR i * (nth k [La; Lb; Lc] 0 / INR (points - 1)).
Proof.
  intros Hv Ht Hp H0 H1 H2.
  assert (Hp1 : (1 <= points)%nat) by lia.
  rewrite (diffusion3Dwb_params_model params La Lb Lc t init fin Dx Dy Dz r0 r1 r2
             method show_plot infinity points Hv Ht Hp1 H0 H1 H2).
  cbv zeta. do 2 eexists. split; [reflexivity |].
  split; [reflexivity |]. split; [reflexivity |].
  assert (Hd : INR (points - 1) <> 0) by (apply not_0_INR; lia).
  assert (Hnth : forall L i, (i < points)%nat ->
            nth i (linspace 0 (2 * (L / 2)) points) 0 = INR i * (L / INR (points - 1))).
  { intros L i Hi. rewrite linspace_nth by exact Hi. field. exact Hd. }
  intros k Hk.
  match goal with |- context [wb_select_a points ?v r0] => set (v0 := v) end.
  destruct (wb_select_length points v0 r0 Hp1) as (Ha & _ & _).
  destruct (wb_select_length points v0 r1 Hp1) as (_ & Hb & _).
  destruct (wb_select_length points v0 r2 Hp1) as (_ & _ & Hc).
  destruct k as [| [| [| k]]]; try lia; cbn [nth];
    (split; [apply linspace_length |]);
    (split; [assumption |]);
    (split; [rewrite Hnth by lia; simpl INR; lra |]);
    (split; [rewrite Hnth by lia; field; exact Hd |]);
    intros i Hi; apply Hnth, Hi.
Qed.

Lemma diffusion3Dwb_positions_witness :
  exists positions profiles,
    result (diffusion3Dwb_params
              (params3D [2000; 3000; 4000] (-12) (-13) (-12) 3600 1 0)
              None None (Some ["b"; "c"; "a"]) "erf" true 100 50) =
    Returned (WB_Profiles positions profiles)
    /\ List.length positions = 3%nat /\ List.length profiles = 3%nat
    /\ forall k, (k < 3)%nat ->
         List.length (nth k positions []) = 50%nat
         /\ List.length (nth k profiles []) = 50%nat
         /\ nth 0 (nth k positions []) 0 = 0
         /\ nth (50 - 1) (nth k positions []) 0 = nth k [2000; 3000; 4000] 0
         /\ forall i, (i < 50)%nat ->
              nth i (nth k positions []) 0 =
              INR i * (nth k [2000; 3000; 4000] 0 / INR (50 - 1)).
Proof.
  apply (diffusion3Dwb_positions
           (params3D [2000; 3000; 4000] (-12) (-13) (-12) 3600 1 0)
           2000 3000 4000 3600 1 0 (-12) (-13) (-12) "b" "c" "a" "erf" true 100 50).
  - apply params3D_values.
  - lra.
  - lia.
  - left; reflexivity.
  - right; reflexivity.
  - left; reflexivity.
Defined.

(** ** More on the thin-slab series *)

Lemma thin_slab_sum_similar (D L t D' L' t' : R) (N : nat) :
  L <> 0 -> L' <> 0 -> D * t / L ^ 2 = D' * t' / L' ^ 2 ->
  thin_slab_sum D L N t = thin_slab_sum D' L' N t'.
Proof.
  intros HL HL' H. rewrite !thin_slab_sum_rsum. apply rsum_ext. intros k _.
  f_equal. f_equal. f_equal.
  replace (D * (2 * INR k + 1) ^ 2 * PI ^ 2 / (4 * L ^ 2) * t)
    with ((2 * INR k + 1) ^ 2 * PI ^ 2 / 4 * (D * t / L ^ 2)) by (field; exact HL).
  replace (D' * (2 * INR k + 1) ^ 2 * PI ^ 2 / (4 * L' ^ 2) * t')
    with ((2 * INR k + 1) ^ 2 * PI ^ 2 / 4 * (D' * t' / L' ^ 2)) by (field; exact HL').
  now rewrite H.
Qed.

(** X23: similarity: the curve of [diffusionThinSlab] only depends
    on [D·t/thickness²].  Multiplying the thickness by [s] and the
    maximum time by [s²] gives the same array, and so does adding [k] to
    log10 D while dividing the maximum time by [10^k]. *)
Theorem diffusionThinSlab_similarity
    (log10D thickness max_time_hours s k : R) (infinity timesteps : nat) :
  thickness <> 0 -> s <> 0 ->
  let cc :=
    snd (diffusionThinSlab log10D thickness max_time_hours infinity timesteps) in
  snd (diffusionThinSlab log10D (s * thickness) (s ^ 2 * max_time_hours)
         infinity timesteps) = cc
  /\ snd (diffusionThinSlab (log10D + k) thickness (max_time_hours / Rpower 10 k)
            infinity timesteps) = cc.
Proof.
  intros Hth Hs cc. unfold cc, diffusionThinSlab. cbv zeta. cbn [snd].
  assert (HL : thickness / 2000000 <> 0).
  { unfold Rdiv. apply Rmult_integral_contrapositive_currified; [exact Hth |].
    apply Rinv_neq_0_compat. lra. }
  assert (HL' : s * thickness / 2000000 <> 0).
  { unfold Rdiv. apply Rmult_integral_contrapositive_currified;
      [apply Rmult_integral_contrapositive_currified; assumption |].
    apply Rinv_neq_0_compat. lra. }
  pose proof (Rpower_10_pos k) as Hk.
  unfold linspace. rewrite !map_map. split; apply map_ext; intros i.
  - apply thin_slab_sum_similar; [exact HL' | exact HL |].
    unfold Rdiv. set (q := / INR (timesteps - 1)). clearbody q.
    field. split; [exact Hth | exact Hs].
  - apply thin_slab_sum_similar; [exact HL | exact HL |].
    rewrite Rpower_plus.
    unfold Rdiv. set (q := / INR (timesteps - 1)). clearbody q.
    field. split; [exact Hth | lra].
Qed.

Lemma diffusionThinSlab_similarity_witness :
  let cc := snd (diffusionThinSlab (-12) 1000 2000 200 300) in
  snd (diffusionThinSlab (-12) (2 * 1000) (2 ^ 2 * 2000) 200 300) = cc
  /\ snd (diffusionThinSlab (-12 + 1) 1000 (2000 / Rpower 10 1) 200 300) = cc.
Proof.
  apply (diffusionThinSlab_similarity (-12) 1000 2000 2 1 200 300).
  - lra.
  - lra.
Defined.

(** ** The regression and what is computed from it *)

(** [ln 10 < 2.303]: thirteen squarings of [1 + 2.303/8192 <= exp (2.303/8192)],
    each rounded down to fourteen decimals, end above 10. *)
Lemma ln_10_lt_2303 : ln 10 < 2303 / 1000.
Proof.
  assert (Hsq : forall y a b : R, 0 < a -> a <= exp y -> b <= a * a -> b <= exp (y + y)).
  { intros y a b Ha Hay Hb. rewrite exp_plus.
    apply Rle_trans with (a * a); [exact Hb |].
    apply Rmult_le_compat; lra. }
  assert (H0 : 8194303 / 8192000 <= exp (2303 / 8192000)).
  { assert (Hne : 2303 / 8192000 <> 0) by lra.
    pose proof (exp_ineq1 (2303 / 8192000) Hne) as H. lra. }
  assert (H1 : 25014058372307 / 25000000000000 <= exp (2303 / 4096000)).
  { replace (2303 / 4096000) with (2303 / 8192000 + 2303 / 8192000) by lra.
    apply (Hsq _ (8194303 / 8192000)); [lra | exact H0 | lra]. }
  clear H0.
  assert (H2 : 100112498600509 / 100000000000000 <= exp (2303 / 2048000)).
  { replace (2303 / 2048000) with (2303 / 4096000 + 2303 / 4096000) by lra.
    apply (Hsq _ (25014058372307 / 25000000000000)); [lra | exact H1 | lra]. }
  clear H1.
  assert (H3 : 100225123760369 / 100000000000000 <= exp (2303 / 1024000)).
  { replace (2303 / 1024000) with (2303 / 2048000 + 2303 / 2048000) by lra.
    apply (Hsq _ (100112498600509 / 100000000000000)); [lra | exact H2 | lra]. }
  clear H2.
  assert (H4 : 25112688581953 / 25000000000000 <= exp (2303 / 512000)).
  { replace (2303 / 512000) with (2303 / 1024000 + 2303 / 1024000) by lra.
    apply (Hsq _ (100225123760369 / 100000000000000)); [lra | exact H3 | lra]. }
  clear H3.
  assert (H5 : 12612942556283 / 12500000000000 <= exp (2303 / 256000)).
  { replace (2303 / 256000) with (2303 / 512000 + 2303 / 512000) by lra.
    apply (Hsq _ (25112688581953 / 25000000000000)); [lra | exact H4 | lra]. }
  clear H4.
  assert (H6 : 5090762237699 / 5000000000000 <= exp (2303 / 128000)).
  { replace (2303 / 128000) with (2303 / 256000 + 2303 / 256000) by lra.
    apply (Hsq _ (12612942556283 / 12500000000000)); [lra | exact H5 | lra]. }
  clear H5.
  assert (H7 : 12957930080391 / 12500000000000 <= exp (2303 / 64000)).
  { replace (2303 / 64000) with (2303 / 128000 + 2303 / 128000) by lra.
    apply (Hsq _ (5090762237699 / 5000000000000)); [lra | exact H6 | lra]. }
  clear H6.
  assert (H8 : 107461089259713 / 100000000000000 <= exp (2303 / 32000)).
  { replace (2303 / 32000) with (2303 / 64000 + 2303 / 64000) by lra.
    apply (Hsq _ (12957930080391 / 12500000000000)); [lra | exact H7 | lra]. }
  clear H7.
  assert (H9 : 2886971426221 / 2500000000000 <= exp (2303 / 16000)).
  { replace (2303 / 16000) with (2303 / 32000 + 2303 / 32000) by lra.
    apply (Hsq _ (107461089259713 / 100000000000000)); [lra | exact H8 | lra]. }
  clear H8.
  assert (H10 : 16669208031633 / 12500000000000 <= exp (2303 / 8000)).
  { replace (2303 / 8000) with (2303 / 16000 + 2303 / 16000) by lra.
    apply (Hsq _ (2886971426221 / 2500000000000)); [lra | exact H9 | lra]. }
  clear H9.
  assert (H11 : 177831997697189 / 100000000000000 <= exp (2303 / 4000)).
  { replace (2303 / 4000) with (2303 / 8000 + 2303 / 8000) by lra.
    apply (Hsq _ (16669208031633 / 12500000000000)); [lra | exact H10 | lra]. }
  clear H10.
  assert (H12 : 31624219404973 / 10000000000000 <= exp (2303 / 2000)).
  { replace (2303 / 2000) with (2303 / 4000 + 2303 / 4000) by lra.
    apply (Hsq _ (177831997697189 / 100000000000000)); [lra | exact H11 | lra]. }
  clear H11.
  assert (H13 : 100009125297387 / 10000000000000 <= exp (2303 / 1000)).
  { replace (2303 / 1000) with (2303 / 2000 + 2303 / 2000) by lra.
    apply (Hsq _ (31624219404973 / 10000000000000)); [lra | exact H12 | lra]. }
  clear H12.
  apply exp_lt_inv. rewrite exp_ln by lra. lra.
Qed.

Lemma ln_10_pos : 0 < ln 10.
Proof. rewrite <- ln_1. apply ln_increasing; lra. Qed.

Lemma log10_Rpower (b : R) : log10 (Rpower 10 b) = b.
Proof.
  unfold log10. rewrite ln_Rpower. field.
  pose proof ln_10_pos. lra.
Qed.

Lemma skipn_last (l : list R) :
  (1 <= List.length l)%nat -> skipn (List.length l - 1) l = [last l 0].
Proof.
  induction l as [| a l IH]; [simpl; lia |]. intros _.
  destruct l as [| b l]; [reflexivity |].
  replace (List.length (a :: b :: l) - 1)%nat with (S (List.length (b :: l) - 1))
    by (simpl; lia).
  change (last (a :: b :: l) 0) with (last (b :: l) 0).
  cbn [skipn]. apply IH. simpl. lia.
Qed.

(** What [solve_Ea_D0] computes once there are two points. *)
Lemma solve_Ea_D0_unfold
    (polyfit : list R -> list R -> list R -> py ((R * R) * (R * R)))
    (log10D_list celsius_list : list R) :
  (2 <= List.length celsius_list)%nat -> (2 <= List.length log10D_list)%nat ->
  solve_Ea_D0 polyfit log10D_list celsius_list =
  fc <- polyfit (arrhenius_x celsius_list ++ [last (arrhenius_x celsius_list) 0])%list
          (log10D_list ++ [last log10D_list 0])%list
          (repeat 1 (List.length celsius_list) ++ [float_epsilon])%list ;;
  let Ea_error := if Rgt_dec (fst (snd fc)) 0 then fst (snd fc) else 0 in
  let D0_error := if Rgt_dec (snd (snd fc)) 0 then snd (snd fc) else 0 in
  ret (Some (mkufloat (- fst (fst fc) * (2303 / 1000) * GAS_CONSTANT * 10000)
               (Rabs 10000 * (Rabs GAS_CONSTANT * (Rabs (2303 / 1000) * Ea_error)))),
       Some (mkufloat (Rpower 10 (snd (fst fc)))
               (Rabs (ln 10 * Rpower 10 (snd (fst fc))) * D0_error))).
Proof.
  intros Hc Hd. unfold solve_Ea_D0.
  rewrite !length_map.
  assert (Hb : (Nat.ltb (List.length celsius_list) 2
                || Nat.ltb (List.length log10D_list) 2)%bool = false).
  { apply orb_false_iff. split; apply Nat.ltb_ge; assumption. }
  rewrite Hb. cbv zeta.
  rewrite map_map.
  fold (arrhenius_x celsius_list).
  rewrite <- (length_map (fun c => 10000 / (c + 27315 / 100)) celsius_list) at 1.
  fold (arrhenius_x celsius_list).
  rewrite !skipn_last by (unfold arrhenius_x; rewrite ?length_map; lia).
  replace (map (fun _ : R => 1) (arrhenius_x celsius_list))
    with (repeat 1 (List.length celsius_list)).
  2:{ unfold arrhenius_x. generalize celsius_list. intros l.
      induction l as [| a l IH]; simpl; [reflexivity | now rewrite IH]. }
  reflexivity.
Qed.

Lemma GAS_CONSTANT_pos : 0 < GAS_CONSTANT.
Proof. unfold GAS_CONSTANT. lra. Qed.

(** X24: with at least two temperatures and two diffusivities,
    [solve_Ea_D0] calls [np.polyfit] once, on [1e4/T] and the
    diffusivities with the last point repeated at weight epsilon, and
    prints nothing itself.  From slope [m], intercept [b] and covariance
    diagonal [(cm, cb)] it returns [Ea = −m·2.303·0.00831·1e4] with
    uncertainty [2.303·0.00831·1e4·max(cm, 0)] and [D0 = 10^b] with
    uncertainty [ln 10·10^b·max(cb, 0)]; an exception of the regression
    propagates. *)
Theorem solve_Ea_D0_fit
    (polyfit : list R -> list R -> list R -> py ((R * R) * (R * R)))
    (log10D_list celsius_list : list R) (o : list event)
    (r : outcome ((R * R) * (R * R))) :
  (2 <= List.length celsius_list)%nat -> (2 <= List.length log10D_list)%nat ->
  polyfit (arrhenius_x celsius_list ++ [last (arrhenius_x celsius_list) 0])%list
    (log10D_list ++ [last log10D_list 0])%list
    (repeat 1 (List.length celsius_list) ++ [float_epsilon])%list = (o, r) ->
  solve_Ea_D0 polyfit log10D_list celsius_list =
  (o, match r with
      | Returned ((m, b), (cm, cb)) =>
          Returned
            (Some (mkufloat (- m * (2303 / 1000) * GAS_CONSTANT * 10000)
                     (10000 * (GAS_CONSTANT
                               * (2303 / 1000 * (if Rgt_dec cm 0 then cm else 0))))),
             Some (mkufloat (Rpower 10 b)
                     (ln 10 * Rpower 10 b * (if Rgt_dec cb 0 then cb else 0))))
      | Raised e => Raised e
      end).
Proof.
  intros Hc Hd Hfit.
  rewrite solve_Ea_D0_unfold by assumption. rewrite Hfit.
  destruct r as [[[m b] [cm cb]] | e]; [| reflexivity].
  rewrite bind_returned. cbv zeta. unfold output, result, ret. cbn [fst snd].
  rewrite app_nil_r.
  rewrite (Rabs_pos_eq 10000) by lra.
  rewrite (Rabs_pos_eq GAS_CONSTANT) by (left; apply GAS_CONSTANT_pos).
  rewrite (Rabs_pos_eq (2303 / 1000)) by lra.
  rewrite (Rabs_pos_eq (ln 10 * Rpower 10 b)).
  - reflexivity.
  - left. apply Rmult_lt_0_compat; [apply ln_10_pos | apply Rpower_10_pos].
Qed.

Lemma solve_Ea_D0_fit_witness :
  solve_Ea_D0 (fun _ _ _ => ret ((-2, 3), (1 / 4, -1))) [-12; -13; -14] [1000; 900; 800] =
  ([], Returned
         (Some (mkufloat (- -2 * (2303 / 1000) * GAS_CONSTANT * 10000)
                  (10000 * (GAS_CONSTANT
                            * (2303 / 1000 * (if Rgt_dec (1 / 4) 0 then 1 / 4 else 0))))),
          Some (mkufloat (Rpower 10 3)
                  (ln 10 * Rpower 10 3 * (if Rgt_dec (-1) 0 then -1 else 0))))).
Proof.
  apply (solve_Ea_D0_fit (fun _ _ _ => ret ((-2, 3), (1 / 4, -1)))
           [-12; -13; -14] [1000; 900; 800] [] (Returned ((-2, 3), (1 / 4, -1)))).
  - simpl. lia.
  - simpl. lia.
  - reflexivity.
Defined.

(** What a returned pair of numbers says about the regression line. *)
Lemma solve_Ea_D0_inv
    (polyfit : list R -> list R -> list R -> py ((R * R) * (R * R)))
    (log10D_list celsius_list : list R) (o : list event) (Ea D0 : ufloat) :
  solve_Ea_D0 polyfit log10D_list celsius_list = (o, Returned (Some Ea, Some D0)) ->
  exists m b cov,
    polyfit (arrhenius_x celsius_list ++ [last (arrhenius_x celsius_list) 0])%list
      (log10D_list ++ [last log10D_list 0])%list
      (repeat 1 (List.length celsius_list) ++ [float_epsilon])%list
    = (o, Returned ((m, b), cov))
    /\ nominal_value Ea = - m * (2303 / 1000) * GAS_CONSTANT * 10000
    /\ nominal_value D0 = Rpower 10 b.
Proof.
  intros H.
  destruct (Nat.ltb (List.length celsius_list) 2
            || Nat.ltb (List.length log10D_list) 2)%bool eqn:Hb.
  { unfold solve_Ea_D0 in H. rewrite !length_map, Hb in H. discriminate H. }
  apply orb_false_iff in Hb as [Hc Hd].
  apply Nat.ltb_ge in Hc, Hd.
  rewrite solve_Ea_D0_unfold in H by assumption.
  match type of H with bind ?pf _ = _ => destruct pf as [o' [[[m b] cov] | e]] end.
  - rewrite bind_returned in H. cbv zeta in H.
    unfold output, result, ret in H. cbn [fst snd] in H.
    rewrite app_nil_r in H. injection H as Ho HEa HD0. subst o'.
    exists m, b, cov. split; [reflexivity |].
    rewrite <- HEa, <- HD0. split; reflexivity.
  - discriminate H.
Qed.

Lemma whatIsD_returns (str_float format_1f : R -> string)
    (Ea D0 celsius : R) (printout : bool) :
  celsius <> - (27315 / 100) ->
  let v := log10 (D0 * exp (- Ea / (GAS_CONSTANT * (celsius + 27315 / 100)))) in
  whatIsD str_float format_1f Ea D0 celsius printout =
  ((if printout then
      [Print [PStr "log10 D at "; PStr (str_float celsius); PStr "C: ";
              PStr (format_1f v); PStr " in m2/s"]]
    else []),
   Returned v).
Proof.
  intros HT v. unfold whatIsD, pydiv. cbv zeta.
  destruct (Req_dec_T (GAS_CONSTANT * (celsius + 27315 / 100)) 0) as [H0 | _].
  - exfalso. pose proof GAS_CONSTANT_pos.
    apply Rmult_integral in H0 as [H0 | H0]; lra.
  - rewrite bind_ret_l. destruct printout; reflexivity.
Qed.

Lemma log10_arrhenius (D0 q : R) : 0 < D0 -> log10 (D0 * exp q) = log10 D0 + q / ln 10.
Proof.
  intros HD. unfold log10. rewrite ln_mult by (exact HD || apply exp_pos).
  rewrite ln_exp. field. pose proof ln_10_pos. lra.
Qed.

(** X25: for a positive [D0] and a temperature other than −273.15 °C,
    [whatIsD] returns [log10 D0 − Ea/(0.00831·T)/ln 10] with
    [T = celsius + 273.15]; [printout] only adds one printed line and
    does not change the value.  At −273.15 °C the quotient of floats
    raises [ZeroDivisionError]. *)
Theorem whatIsD_value (str_float format_1f : R -> string)
    (Ea D0 celsius : R) (printout : bool) :
  0 < D0 ->
  let T := celsius + 27315 / 100 in
  let v := log10 D0 - Ea / (GAS_CONSTANT * T) / ln 10 in
  (celsius <> - (27315 / 100) ->
   whatIsD str_float format_1f Ea D0 celsius printout =
   ((if printout then
       [Print [PStr "log10 D at "; PStr (str_float celsius); PStr "C: ";
               PStr (format_1f v); PStr " in m2/s"]]
     else []),
    Returned v))
  /\ whatIsD str_float format_1f Ea D0 (- (27315 / 100)) printout
     = raise ZeroDivisionError.
Proof.
  intros HD T v. split.
  - intros HT. rewrite whatIsD_returns by exact HT. cbv zeta.
    rewrite log10_arrhenius by exact HD.
    assert (Hv : log10 D0 + - Ea / (GAS_CONSTANT * (celsius + 27315 / 100)) / ln 10 = v).
    { unfold v, T. unfold Rdiv. ring. }
    rewrite Hv. reflexivity.
  - unfold whatIsD, pydiv. cbv zeta.
    destruct (Req_dec_T (GAS_CONSTANT * (- (27315 / 100) + 27315 / 100)) 0) as [_ | H];
      [reflexivity |].
    exfalso. apply H. ring.
Qed.

Lemma whatIsD_value_witness :
  whatIsD (fun _ => "800.0") (fun _ => "-12.3") 200 (1 / 1000) 800 true =
  ([Print [PStr "log10 D at "; PStr "800.0"; PStr "C: "; PStr "-12.3"; PStr " in m2/s"]],
   Returned (log10 (1 / 1000) - 200 / (GAS_CONSTANT * (800 + 27315 / 100)) / ln 10))
  /\ whatIsD (fun _ => "800.0") (fun _ => "-12.3") 200 (1 / 1000) (- (27315 / 100)) true
     = raise ZeroDivisionError.
Proof.
  destruct (whatIsD_value (fun _ => "800.0") (fun _ => "-12.3") 200 (1 / 1000) 800 true)
    as [H1 H2]; [lra |].
  split; [apply H1; lra | exact H2].
Defined.

(** X26: evaluating a regression: when [solve_Ea_D0] returns [Ea]
    and [D0] from a line of slope [m] and intercept [b], [whatIsD] at a
    temperature [T] returns [b + m·(1e4/T)·(2.303/ln 10)].  Since
    [2.303 > ln 10], this is not the value [b + m·(1e4/T)] of the fitted
    line unless the slope is zero. *)
Theorem whatIsD_of_fit
    (polyfit : list R -> list R -> list R -> py ((R * R) * (R * R)))
    (str_float format_1f : R -> string)
    (log10D_list celsius_list : list R) (o : list event) (Ea D0 : ufloat)
    (celsius : R) :
  solve_Ea_D0 polyfit log10D_list celsius_list = (o, Returned (Some Ea, Some D0)) ->
  celsius <> - (27315 / 100) ->
  exists m b cov,
    polyfit (arrhenius_x celsius_list ++ [last (arrhenius_x celsius_list) 0])%list
      (log10D_list ++ [last log10D_list 0])%list
      (repeat 1 (List.length celsius_list) ++ [float_epsilon])%list
    = (o, Returned ((m, b), cov))
    /\ let x := 10000 / (celsius + 27315 / 100) in
       whatIsD str_float format_1f (nominal_value Ea) (nominal_value D0) celsius false
       = ret (b + m * x * (2303 / 1000 / ln 10))
       /\ 1 < 2303 / 1000 / ln 10
       /\ (m <> 0 -> b + m * x * (2303 / 1000 / ln 10) <> b + m * x).
Proof.
  intros Hsolve HT.
  destruct (solve_Ea_D0_inv polyfit log10D_list celsius_list o Ea D0 Hsolve)
    as (m & b & cov & Hfit & HEa & HD0).
  exists m, b, cov. split; [exact Hfit |].
  intros x.
  pose proof ln_10_pos as Hln. pose proof ln_10_lt_2303 as Hlt.
  pose proof GAS_CONSTANT_pos as HG.
  assert (Hratio : 1 < 2303 / 1000 / ln 10).
  { apply Rmult_lt_reg_r with (ln 10); [exact Hln |].
    replace (2303 / 1000 / ln 10 * ln 10) with (2303 / 1000) by (field; lra). lra. }
  assert (HT' : celsius + 27315 / 100 <> 0) by lra.
  split; [| split; [exact Hratio |]].
  - rewrite whatIsD_returns by exact HT. cbv zeta. unfold ret. f_equal. f_equal.
    rewrite HEa, HD0.
    rewrite log10_arrhenius by apply Rpower_10_pos.
    rewrite log10_Rpower. unfold x. field.
    repeat split; lra.
  - intros Hm Heq.
    assert (Hx : x <> 0).
    { unfold x. unfold Rdiv. apply Rmult_integral_contrapositive_currified; [lra |].
      apply Rinv_neq_0_compat, HT'. }
    assert (Hmx : m * x <> 0) by (apply Rmult_integral_contrapositive_currified; assumption).
    assert (Hz : m * x * (2303 / 1000 / ln 10 - 1) = 0) by lra.
    apply Rmult_integral in Hz as [Hz | Hz]; [contradiction | lra].
Qed.

Lemma whatIsD_of_fit_witness :
  exists m b cov,
    (fun _ _ _ : list R => @ret ((R * R) * (R * R)) ((-2, 3), (1 / 4, -1)))
      (arrhenius_x [1000; 900; 800] ++ [last (arrhenius_x [1000; 900; 800]) 0])%list
      ([-12; -13; -14] ++ [last [-12; -13; -14] 0])%list
      (repeat 1 (List.length [1000; 900; 800]) ++ [float_epsilon])%list
    = ([], Returned ((m, b), cov))
    /\ let x := 10000 / (850 + 27315 / 100) in
       whatIsD (fun _ => "850.0") (fun _ => "-12.3")
         (- -2 * (2303 / 1000) * GAS_CONSTANT * 10000) (Rpower 10 3) 850 false
       = ret (b + m * x * (2303 / 1000 / ln 10))
       /\ 1 < 2303 / 1000 / ln 10
       /\ (m <> 0 -> b + m * x * (2303 / 1000 / ln 10) <> b + m * x).
Proof.
  apply (whatIsD_of_fit (fun _ _ _ => ret ((-2, 3), (1 / 4, -1)))
           (fun _ => "850.0") (fun _ => "-12.3")
           [-12; -13; -14] [1000; 900; 800] []
           (mkufloat (- -2 * (2303 / 1000) * GAS_CONSTANT * 10000)
              (Rabs 10000 * (Rabs GAS_CONSTANT
                             * (Rabs (2303 / 1000)
                                * (if Rgt_dec (1 / 4) 0 then 1 / 4 else 0)))))
           (mkufloat (Rpower 10 3)
              (Rabs (ln 10 * Rpower 10 3) * (if Rgt_dec (-1) 0 then -1 else 0)))
           850).
  - reflexivity.
  - lra.
Defined.

Lemma linspace_ge (low high : R) (n i : nat) :
  low <= high -> (i < n)%nat -> low <= nth i (linspace low high n) 0.
Proof.
  intros Hlh Hi. rewrite linspace_nth by exact Hi.
  destruct (Nat.eq_dec n 1) as [-> | Hn].
  - replace i with 0%nat by lia. simpl INR. lra.
  - assert (Hp : 0 < INR (n - 1)) by (apply lt_0_INR; lia).
    assert (0 <= (high - low) / INR (n - 1)).
    { unfold Rdiv. apply Rmult_le_pos; [lra |]. left. now apply Rinv_0_lt_compat. }
    pose proof (pos_INR i). nra.
Qed.

(** X27: drawing a regression: when [solve_Ea_D0] returns [Ea] and
    [D0] from a line of slope [m] and intercept [b], [Arrhenius_add_line]
    plots, over 50 abscissae from [low] to [high] ([0 < low ≤ high]),
    exactly the fitted line [b + m·x]. *)
Theorem Arrhenius_add_line_of_fit
    (polyfit : list R -> list R -> list R -> py ((R * R) * (R * R)))
    (ax_plot : list R -> list R -> py unit)
    (log10D_list celsius_list : list R) (o : list event) (Ea D0 : ufloat)
    (low high : R) :
  solve_Ea_D0 polyfit log10D_list celsius_list = (o, Returned (Some Ea, Some D0)) ->
  0 < low <= high ->
  exists m b cov,
    polyfit (arrhenius_x celsius_list ++ [last (arrhenius_x celsius_list) 0])%list
      (log10D_list ++ [last log10D_list 0])%list
      (repeat 1 (List.length celsius_list) ++ [float_epsilon])%list
    = (o, Returned ((m, b), cov))
    /\ Arrhenius_add_line ax_plot (nominal_value Ea) (nominal_value D0) low high
       = ax_plot (linspace low high 50)
           (map (fun x => b + m * x) (linspace low high 50)).
Proof.
  intros Hsolve [Hlow Hlh].
  destruct (solve_Ea_D0_inv polyfit log10D_list celsius_list o Ea D0 Hsolve)
    as (m & b & cov & Hfit & HEa & HD0).
  exists m, b, cov. split; [exact Hfit |].
  unfold Arrhenius_add_line. cbv zeta. rewrite !map_map.
  pose proof GAS_CONSTANT_pos as HG.
  assert (Hpos : forall l, In l (linspace low high 50) -> l <> 0).
  { intros l Hl. apply (In_nth _ _ 0) in Hl as (i & Hi & <-).
    rewrite linspace_length in Hi.
    pose proof (linspace_ge low high 50 i Hlh Hi). lra. }
  f_equal.
  - rewrite <- (map_id (linspace low high 50)) at 2.
    apply map_ext_in. intros l Hl. field. apply Hpos, Hl.
  - apply map_ext_in. intros l Hl.
    rewrite HEa, HD0, log10_Rpower.
    pose proof (Hpos l Hl) as Hl0. field.
    repeat split; lra.
Qed.

Lemma Arrhenius_add_line_of_fit_witness :
  exists m b cov,
    (fun _ _ _ : list R => @ret ((R * R) * (R * R)) ((-2, 3), (1 / 4, -1)))
      (arrhenius_x [1000; 900; 800] ++ [last (arrhenius_x [1000; 900; 800]) 0])%list
      ([-12; -13; -14] ++ [last [-12; -13; -14] 0])%list
      (repeat 1 (List.length [1000; 900; 800]) ++ [float_epsilon])%list
    = ([], Returned ((m, b), cov))
    /\ Arrhenius_add_line (fun _ _ => plot "fig_ax.plot")
         (- -2 * (2303 / 1000) * GAS_CONSTANT * 10000) (Rpower 10 3) 6 10
       = (fun _ _ => plot "fig_ax.plot") (linspace 6 10 50)
           (map (fun x => b + m * x) (linspace 6 10 50)).
Proof.
  apply (Arrhenius_add_line_of_fit (fun _ _ _ => ret ((-2, 3), (1 / 4, -1)))
           (fun _ _ => plot "fig_ax.plot")
           [-12; -13; -14] [1000; 900; 800] []
           (mkufloat (- -2 * (2303 / 1000) * GAS_CONSTANT * 10000)
              (Rabs 10000 * (Rabs GAS_CONSTANT
                             * (Rabs (2303 / 1000)
                                * (if Rgt_dec (1 / 4) 0 then 1 / 4 else 0)))))
           (mkufloat (Rpower 10 3)
              (Rabs (ln 10 * Rpower 10 3) * (if Rgt_dec (-1) 0 then -1 else 0)))
           6 10).
  - reflexivity.
  - lra.
Defined.

(** ** The regression method of a group of diffusivities *)

Lemma list_getitem_inside {A : Type} (l : list A) (z : Z) (d : A) :
  (- Z.of_nat (List.length l) <= z < Z.of_nat (List.length l))%Z ->
  list_getitem l (OInt z) =
  ret (nth (Z.to_nat (if (0 <=? z)%Z then z else z + Z.of_nat (List.length l))) l d).
Proof.
  intros [Hlo Hhi]. unfold list_getitem.
  destruct (0 <=? z)%Z eqn:H0.
  - apply Z.leb_le in H0. apply index_nth. lia.
  - apply Z.leb_gt in H0.
    assert (Hb : (- Z.of_nat (List.length l) <=? z)%Z = true) by (apply Z.leb_le; lia).
    rewrite Hb. apply index_nth. lia.
Qed.

Lemma list_getitem_outside {A : Type} (l : list A) (z : Z) :
  (z < - Z.of_nat (List.length l) \/ Z.of_nat (List.length l) <= z)%Z ->
  list_getitem l (OInt z) = raise IndexError.
Proof.
  intros H. unfold list_getitem.
  destruct (0 <=? z)%Z eqn:H0.
  - apply Z.leb_le in H0. unfold index.
    destruct (nth_error l (Z.to_nat z)) eqn:E; [| reflexivity].
    exfalso. assert (Hn : nth_error l (Z.to_nat z) <> None) by congruence.
    apply nth_error_Some in Hn. lia.
  - apply Z.leb_gt in H0.
    assert (Hb : (- Z.of_nat (List.length l) <=? z)%Z = false) by (apply Z.leb_gt; lia).
    now rewrite Hb.
Qed.

(** X28: on an object with four orientations, [picker_DCelsius]
    accepts every integer from −4 to 3, not only 0 to 3 as its message
    says: a negative integer counts from the end, so −1 picks the
    unoriented data.  Any other integer prints the message and returns
    nothing. *)
Theorem picker_DCelsius_integers (self : Diffusivities) (z : Z) :
  List.length (logD self) = 4%nat -> List.length (celsius self) = 4%nat ->
  ((-4 <= z < 4)%Z ->
   let k := Z.to_nat (if (0 <=? z)%Z then z else z + 4) in
   picker_DCelsius self (OInt z) =
   ret (Some (nth k (logD self) [], nth k (celsius self) [])))
  /\ ((z < -4 \/ 4 <= z)%Z ->
      picker_DCelsius self (OInt z) = ([Print index_error_message], Returned None)).
Proof.
  intros Hl Hc. split.
  - intros Hz k. unfold picker_DCelsius. cbn [get_iorient].
    rewrite (list_getitem_inside (logD self) z []) by (rewrite Hl; simpl; lia).
    rewrite (list_getitem_inside (celsius self) z []) by (rewrite Hc; simpl; lia).
    rewrite !bind_ret_l, Hl, Hc. reflexivity.
  - intros Hz. unfold picker_DCelsius. cbn [get_iorient].
    rewrite (list_getitem_outside (logD self) z) by (rewrite Hl; simpl; lia).
    reflexivity.
Qed.

Lemma picker_DCelsius_integers_witness :
  let self :=
    mkDiffusivities [[800; 900]; [800; 900]; [800; 900]; [1000; 1100]]
      [[-12; -11]; [-13; -12]; [-12; -11]; [-10; -9]] in
  picker_DCelsius self (OInt (-1)) = ret (Some ([-10; -9], [1000; 1100]))
  /\ picker_DCelsius self (OInt 4) = ([Print index_error_message], Returned None).
Proof.
  intros self.
  destruct (picker_DCelsius_integers self (-1) eq_refl eq_refl) as [H1 _].
  destruct (picker_DCelsius_integers self 4 eq_refl eq_refl) as [_ H2].
  split; [apply H1; lia | apply H2; lia].
Defined.

Lemma get_iorient_cases (orient : orientation) :
  (exists z, get_iorient orient = OInt z)
  \/ (get_iorient orient = orient
      /\ (orient = ONone
          \/ exists s, orient = OStr s /\ s <> "x" /\ s <> "y" /\ s <> "z" /\ s <> "u")).
Proof.
  destruct orient as [s | z |]; cbn [get_iorient].
  - destruct (String.eqb s "x") eqn:Ex; [left; eexists; reflexivity |].
    destruct (String.eqb s "y") eqn:Ey; [left; eexists; reflexivity |].
    destruct (String.eqb s "z") eqn:Ez; [left; eexists; reflexivity |].
    destruct (String.eqb s "u") eqn:Eu; [left; eexists; reflexivity |].
    right. split; [reflexivity |]. right. exists s.
    apply String.eqb_neq in Ex, Ey, Ez, Eu. repeat split; assumption.
  - left. eexists. reflexivity.
  - right. split; [reflexivity |]. left. reflexivity.
Qed.

(** X29: called without an orientation (the default [None]) or with
    a string other than 'x', 'y', 'z', 'u', the method [solve_Ea_D0]
    prints the message of the picker and 'Problem with
    self.picker_DCelsius()' and returns nothing; the regression is not
    run, whatever the object holds. *)
Theorem Diffusivities_solve_Ea_D0_no_orientation
    (polyfit : list R -> list R -> list R -> py ((R * R) * (R * R)))
    (str_floats : list R -> string) (self : Diffusivities) (orient : orientation) :
  orient = ONone
  \/ (exists s, orient = OStr s /\ s <> "x" /\ s <> "y" /\ s <> "z" /\ s <> "u") ->
  Diffusivities_solve_Ea_D0 polyfit str_floats self orient =
  ([Print type_error_message; Print [PStr "Problem with self.picker_DCelsius()"]],
   Returned None).
Proof.
  intros H.
  assert (Hpick : picker_DCelsius self orient =
                  ([Print type_error_message], Returned None)).
  { destruct H as [-> | (s & -> & Hx & Hy & Hz & Hu)].
    - reflexivity.
    - unfold picker_DCelsius. cbn [get_iorient].
      apply String.eqb_neq in Hx, Hy, Hz, Hu. rewrite Hx, Hy, Hz, Hu. reflexivity. }
  unfold Diffusivities_solve_Ea_D0. rewrite Hpick. reflexivity.
Qed.

Lemma Diffusivities_solve_Ea_D0_no_orientation_witness :
  Diffusivities_solve_Ea_D0 (fun _ _ _ => ret ((-2, 3), (1 / 4, -1))) (fun _ => "[...]")
    (mkDiffusivities [[800; 900]; [800; 900]; [800; 900]; [1000; 1100]]
       [[-12; -11]; [-13; -12]; [-12; -11]; [-10; -9]]) ONone =
  ([Print type_error_message; Print [PStr "Problem with self.picker_DCelsius()"]],
   Returned None).
Proof.
  apply Diffusivities_solve_Ea_D0_no_orientation. left. reflexivity.
Defined.

Lemma picker_DCelsius_some (self : Diffusivities) (orient : orientation)
    (o : list event) (found : list R * list R) :
  picker_DCelsius self orient = (o, Returned (Some found)) ->
  o = []
  /\ exists z,
       get_iorient orient = OInt z
       /\ list_getitem (logD self) (OInt z) = ret (fst found)
       /\ list_getitem (celsius self) (OInt z) = ret (snd found).
Proof.
  unfold picker_DCelsius.
  destruct (get_iorient_cases orient) as [(z & ->) | (-> & Hcase)].
  - intros H.
    assert (Hl : exists r, list_getitem (logD self) (OInt z) = ([], r)).
    { unfold list_getitem, index.
      destruct (0 <=? z)%Z; [| destruct (_ <=? z)%Z];
        try destruct (nth_error _ _); eexists; reflexivity. }
    assert (Hc : exists r, list_getitem (celsius self) (OInt z) = ([], r)).
    { unfold list_getitem, index.
      destruct (0 <=? z)%Z; [| destruct (_ <=? z)%Z];
        try destruct (nth_error _ _); eexists; reflexivity. }
    destruct Hl as ([l | e] & Hl); rewrite Hl in H.
    + destruct Hc as ([c | e] & Hc); rewrite Hc in H.
      * cbn in H. injection H as <- <-. split; [reflexivity |].
        exists z. repeat split; assumption.
      * cbn in H. destruct e; cbn in H; discriminate H.
    + cbn in H. destruct e; cbn in H; discriminate H.
  - intros H. exfalso.
    destruct Hcase as [-> | (s & -> & _)]; cbn in H; discriminate H.
Qed.

Lemma solve_Ea_D0_two_points
    (polyfit : list R -> list R -> list R -> py ((R * R) * (R * R)))
    (log10D_list celsius_list : list R) (o : list event)
    (pair : option ufloat * option ufloat) :
  (2 <= List.length celsius_list)%nat -> (2 <= List.length log10D_list)%nat ->
  solve_Ea_D0 polyfit log10D_list celsius_list = (o, Returned pair) ->
  exists Ea D0, pair = (Some Ea, Some D0).
Proof.
  intros Hc Hd H. rewrite solve_Ea_D0_unfold in H by assumption.
  match type of H with bind ?pf _ = _ => destruct pf as [o' [fc | e]] end.
  - rewrite bind_returned in H. cbv zeta in H.
    unfold output, result, ret in H. cbn [fst snd] in H.
    injection H as _ <-. do 2 eexists. reflexivity.
  - discriminate H.
Qed.

(** X30: when the method [solve_Ea_D0] returns a pair, the
    orientation named an entry holding at least two diffusivities and
    two temperatures, the pair is what the function [solve_Ea_D0] returns
    on them, with both numbers present, and only that function printed:
    the check of the method keeps the function's warning and its (None,
    None) from ever being reached. *)
Theorem Diffusivities_solve_Ea_D0_pair
    (polyfit : list R -> list R -> list R -> py ((R * R) * (R * R)))
    (str_floats : list R -> string) (self : Diffusivities) (orient : orientation)
    (pair : option ufloat * option ufloat) :
  result (Diffusivities_solve_Ea_D0 polyfit str_floats self orient)
  = Returned (Some pair) ->
  exists z logD_z celsius_z Ea D0,
    get_iorient orient = OInt z
    /\ list_getitem (logD self) (OInt z) = ret logD_z
    /\ list_getitem (celsius self) (OInt z) = ret celsius_z
    /\ (2 <= List.length logD_z)%nat /\ (2 <= List.length celsius_z)%nat
    /\ pair = (Some Ea, Some D0)
    /\ Diffusivities_solve_Ea_D0 polyfit str_floats self orient
       = (output (solve_Ea_D0 polyfit logD_z celsius_z), Returned (Some pair))
    /\ result (solve_Ea_D0 polyfit logD_z celsius_z) = Returned pair.
Proof.
  unfold Diffusivities_solve_Ea_D0.
  destruct (picker_DCelsius self orient) as [o [[[l c] |] | e]] eqn:Hpick.
  - destruct (picker_DCelsius_some self orient o (l, c) Hpick)
      as (-> & z & Hz & Hl & Hc).
    rewrite bind_returned. cbn [app].
    destruct (Nat.ltb (List.length l) 2 || Nat.ltb (List.length c) 2)%bool eqn:Hb.
    + intros H. discriminate H.
    + apply orb_false_iff in Hb as [Hbl Hbc]. apply Nat.ltb_ge in Hbl, Hbc.
      destruct (solve_Ea_D0 polyfit l c) as [os [pr | e]] eqn:Hsolve.
      * rewrite bind_returned. unfold output, result, ret. cbn [fst snd].
        intros H. injection H as <-.
        destruct (solve_Ea_D0_two_points polyfit l c os pr Hbc Hbl Hsolve)
          as (Ea & D0 & ->).
        exists z, l, c, Ea, D0.
        repeat split; try assumption.
        -- now rewrite Hsolve, app_nil_r.
        -- now rewrite Hsolve.
      * intros H. discriminate H.
  - rewrite bind_returned. intros H. discriminate H.
  - intros H. discriminate H.
Qed.

Lemma Diffusivities_solve_Ea_D0_pair_witness :
  let self :=
    mkDiffusivities [[800; 900]; [800; 900]; [800; 900]; [1000; 1100]]
      [[-12; -11]; [-13; -12]; [-12; -11]; [-10; -9]] in
  let polyfit := fun _ _ _ : list R => @ret ((R * R) * (R * R)) ((-2, 3), (1 / 4, -1)) in
  exists pair z logD_z celsius_z Ea D0,
    get_iorient (OStr "y") = OInt z
    /\ list_getitem (logD self) (OInt z) = ret logD_z
    /\ list_getitem (celsius self) (OInt z) = ret celsius_z
    /\ (2 <= List.length logD_z)%nat /\ (2 <= List.length celsius_z)%nat
    /\ pair = (Some Ea, Some D0)
    /\ Diffusivities_solve_Ea_D0 polyfit (fun _ => "[...]") self (OStr "y")
       = (output (solve_Ea_D0 polyfit logD_z celsius_z), Returned (Some pair))
    /\ result (solve_Ea_D0 polyfit logD_z celsius_z) = Returned pair.
Proof.
  intros self polyfit. eexists.
  apply (Diffusivities_solve_Ea_D0_pair polyfit (fun _ => "[...]") self (OStr "y")).
  reflexivity.
Defined.
